(** * Masaki0127/syumi: the agent orchestration graph (agent.py) and the
      text clean-up fragment (test.py)

    A shallow embedding of the two Python files and the properties of the
    workflow they implement.

    - Python [str] values are sequences of Unicode code points: [pystr] is
      [list N].  Literals of the source are written with [py "..."], which
      decodes the UTF-8 bytes of the literal, so that they can be compared
      with the source character by character.
    - The language-model services (the four ReAct agents and the plain chat
      model used by the two prompt nodes) are external: they are a record of
      functions [Collaborators], each from the number of service calls made
      so far in the run and the prompt to the text of the final message.
    - The node functions are written twice.  In sections 4 and 5 the
      assignment to [state] in place followed by [Command(update=...)] with
      the assigned fields is a functional update of the state record.  In
      module [Imp] the state is an object of a store and [debug_info] a
      list object reached through a reference, assigned to and appended to
      in place; section 28 relates the two. *)

From Stdlib Require Import List NArith ZArith PeanoNat Bool Lia Zify ZifyBool.
From Stdlib Require Import String Ascii.
Import ListNotations.

Set Implicit Arguments.
Local Open Scope N_scope.

(* ===================================================================== *)
(** ** Python strings *)
(* ===================================================================== *)

Definition pystr : Type := list N.

Module Utf8.

(** Decoder for the UTF-8 bytes of a source literal. *)
Fixpoint decode (bs : list N) : pystr :=
  match bs with
  | [] => []
  | b0 :: t0 =>
    if b0 <? 128 then b0 :: decode t0
    else match t0 with
    | [] => [b0]
    | b1 :: t1 =>
      if b0 <? 224 then ((b0 - 192) * 64 + (b1 - 128)) :: decode t1
      else match t1 with
      | [] => [b0; b1]
      | b2 :: t2 =>
        if b0 <? 240
        then ((b0 - 224) * 4096 + (b1 - 128) * 64 + (b2 - 128)) :: decode t2
        else match t2 with
        | [] => [b0; b1; b2]
        | b3 :: t3 =>
          ((b0 - 240) * 262144 + (b1 - 128) * 4096
           + (b2 - 128) * 64 + (b3 - 128)) :: decode t3
        end
      end
    end
  end.

End Utf8.

Definition py (s : string) : pystr :=
  Utf8.decode (map N_of_ascii (list_ascii_of_string s)).

(** The newline character. *)
Definition nl : pystr := [10].

(** [a == b] on [str]. *)
Fixpoint str_eqb (a b : pystr) : bool :=
  match a, b with
  | [], [] => true
  | x :: a', y :: b' => (x =? y) && str_eqb a' b'
  | _, _ => false
  end.

(** [x in xs] for a list of strings [xs]. *)
Definition str_in_list (x : pystr) (xs : list pystr) : bool :=
  existsb (str_eqb x) xs.

(** [s.startswith(p)]. *)
Fixpoint startswith (p s : pystr) : bool :=
  match p, s with
  | [], _ => true
  | x :: p', y :: s' => (x =? y) && startswith p' s'
  | _ :: _, [] => false
  end.

(** [needle in hay] on [str]: substring containment. *)
Fixpoint contains (needle hay : pystr) : bool :=
  startswith needle hay ||
  match hay with
  | [] => false
  | _ :: hay' => contains needle hay'
  end.

(** [str.isspace] on one character (CPython's [_PyUnicode_IsWhitespace]);
    it is also what [\s] matches in a [str] pattern. *)
Definition isspace (c : N) : bool :=
  ((9 <=? c) && (c <=? 13)) || ((28 <=? c) && (c <=? 32))
  || (c =? 133) || (c =? 160) || (c =? 5760)
  || ((8192 <=? c) && (c <=? 8202))
  || (c =? 8232) || (c =? 8233) || (c =? 8239) || (c =? 8287)
  || (c =? 12288).

Fixpoint lstrip (s : pystr) : pystr :=
  match s with
  | [] => []
  | c :: t => if isspace c then lstrip t else s
  end.

Definition rstrip (s : pystr) : pystr := rev (lstrip (rev s)).

(** [s.strip()] *)
Definition strip (s : pystr) : pystr := rstrip (lstrip s).

(** The old value is an initial segment of the new one. *)
Definition is_prefix (old new : pystr) : Prop := exists t, new = old ++ t.

(* ===================================================================== *)
(** ** 1. State (agent.py, [QueryState]) *)
(* ===================================================================== *)

Record QueryState : Type := mkState {
  query : pystr;
  agent2_judgment : option pystr;
  agent4_judgment : option pystr;
  debug_info : list pystr
}.

(** [QueryState(query=q)]: the class defaults for the other fields.  A
    run is taken from a state whose trace is empty when the run starts,
    whichever list object holds it. *)
Definition initial_state (q : pystr) : QueryState :=
  mkState q None None [].

(** What an f-string prints for a judgment field ([None] prints as
    the word None). *)
Definition fmt_judgment (j : option pystr) : pystr :=
  match j with
  | Some s => s
  | None => py "None"
  end.

(** Names of the graph's nodes, with langgraph's [START] and [END]. *)
Inductive node : Type :=
| n_START | n_agent1 | n_agent2 | n_router1 | n_agent3
| n_prompt1 | n_agent4 | n_router2 | n_prompt2 | n_END.

Definition node_eqb (a b : node) : bool :=
  match a, b with
  | n_START, n_START | n_agent1, n_agent1 | n_agent2, n_agent2
  | n_router1, n_router1 | n_agent3, n_agent3 | n_prompt1, n_prompt1
  | n_agent4, n_agent4 | n_router2, n_router2 | n_prompt2, n_prompt2
  | n_END, n_END => true
  | _, _ => false
  end.

(** The [update] dictionary of a [Command]: a key that is absent is
    [None]. *)
Record Update : Type := mkUpdate {
  u_query : option pystr;
  u_agent2_judgment : option (option pystr);
  u_agent4_judgment : option (option pystr);
  u_debug_info : option (list pystr)
}.

Record Command : Type := mkCommand {
  goto : node;
  update : Update
}.

Definition upd_query_debug (q : pystr) (d : list pystr) : Update :=
  mkUpdate (Some q) None None (Some d).

Definition upd_debug (d : list pystr) : Update :=
  mkUpdate None None None (Some d).

(** The executor merges an update into the state: a key of the update
    overwrites the field, the other fields stay. *)
Definition apply_update (st : QueryState) (u : Update) : QueryState :=
  mkState
    (match u_query u with Some q => q | None => query st end)
    (match u_agent2_judgment u with Some j => j | None => agent2_judgment st end)
    (match u_agent4_judgment u with Some j => j | None => agent4_judgment st end)
    (match u_debug_info u with Some d => d | None => debug_info st end).

(* ===================================================================== *)
(** ** 2. The [json] text handed to the tools of Agent4 *)
(* ===================================================================== *)

(** A [dict] with [str] keys and [str] values, in insertion order. *)
Definition pydict : Type := list (pystr * pystr).

(** [d[k]]: [dict(pairs)] keeps the last value given for a key; [None] is
    [KeyError]. *)
Fixpoint dict_get (k : pystr) (d : pydict) : option pystr :=
  match d with
  | [] => None
  | (k', v) :: d' =>
    match dict_get k d' with
    | Some v' => Some v'
    | None => if str_eqb k k' then Some v else None
    end
  end.

Module Json.

(** One hexadecimal digit of ['{0:04x}'.format(n)]. *)
Definition hexdigit (d : N) : N := if d <? 10 then 48 + d else 87 + d.

(** ['{0:04x}'.format(n)], for [n < 0x10000] (all its uses). *)
Definition format_04x (n : N) : pystr :=
  [hexdigit (n / 4096); hexdigit ((n / 256) mod 16);
   hexdigit ((n / 16) mod 16); hexdigit (n mod 16)].

(** [py_encode_basestring_ascii]: the replacement of one character that
    is a quote, a backslash or outside [' '..'~']. *)
Definition escape_char (c : N) : pystr :=
  if c =? 92 then [92; 92]                       (* backslash backslash *)
  else if c =? 34 then [92; 34]                  (* backslash quote *)
  else if c =? 8 then [92; 98]                   (* backslash b *)
  else if c =? 12 then [92; 102]                 (* backslash f *)
  else if c =? 10 then [92; 110]                 (* backslash n *)
  else if c =? 13 then [92; 114]                 (* backslash r *)
  else if c =? 9 then [92; 116]                  (* backslash t *)
  else if (32 <=? c) && (c <=? 126) then [c]
  else if c <? 65536 then [92; 117] ++ format_04x c
  else
    let n := c - 65536 in
    let s1 := N.lor 55296 (N.land (N.shiftr n 10) 1023) in
    let s2 := N.lor 56320 (N.land n 1023) in
    [92; 117] ++ format_04x s1 ++ [92; 117] ++ format_04x s2.

Definition encode_chars (s : pystr) : pystr := flat_map escape_char s.

(** [encode_basestring_ascii(s)], the text of a JSON string. *)
Definition encode_str (s : pystr) : pystr := [34] ++ encode_chars s ++ [34].

Definition encode_item (kv : pystr * pystr) : pystr :=
  encode_str (fst kv) ++ [58; 32] ++ encode_str (snd kv).

Fixpoint join_items (items : list pystr) : pystr :=
  match items with
  | [] => []
  | [x] => x
  | x :: rest => x ++ [44; 32] ++ join_items rest
  end.

(** [json.dumps(d)] for a dict of strings, with the default settings
    ([ensure_ascii=True], a comma and a space between members, a colon
    and a space after a name). *)
Definition dumps (d : pydict) : pystr :=
  [123] ++ join_items (map encode_item d) ++ [125].

(** The decoder's [WHITESPACE]: [[ \t\n\r]*]. *)
Definition is_ws (c : N) : bool :=
  (c =? 32) || (c =? 9) || (c =? 10) || (c =? 13).

Fixpoint skip_ws (s : pystr) : pystr :=
  match s with
  | [] => []
  | c :: t => if is_ws c then skip_ws t else s
  end.

Definition unhex (c : N) : option N :=
  if (48 <=? c) && (c <=? 57) then Some (c - 48)
  else if (97 <=? c) && (c <=? 102) then Some (c - 87)
  else if (65 <=? c) && (c <=? 70) then Some (c - 55)
  else None.

(** Four hexadecimal digits after [\u]. *)
Definition decode_uXXXX (h1 h2 h3 h4 : N) : option N :=
  match unhex h1, unhex h2, unhex h3, unhex h4 with
  | Some a, Some b, Some c, Some d => Some (((a * 16 + b) * 16 + c) * 16 + d)
  | _, _, _, _ => None
  end.

Definition is_high_surrogate (c : N) : bool := (55296 <=? c) && (c <=? 56319).
Definition is_low_surrogate (c : N) : bool := (56320 <=? c) && (c <=? 57343).

(** [Py_UNICODE_JOIN_SURROGATES] *)
Definition join_surrogates (hi lo : N) : N :=
  N.lor (N.shiftl (N.land hi 1023) 10) (N.land lo 1023) + 65536.

(** The character a backslash escape other than [\u] stands for. *)
Definition backslash (e : N) : option N :=
  if e =? 34 then Some 34
  else if e =? 92 then Some 92
  else if e =? 47 then Some 47
  else if e =? 98 then Some 8
  else if e =? 102 then Some 12
  else if e =? 110 then Some 10
  else if e =? 114 then Some 13
  else if e =? 116 then Some 9
  else None.

Definition cons_char (c : N) (r : option (pystr * pystr))
  : option (pystr * pystr) :=
  match r with
  | Some (body, rest) => Some (c :: body, rest)
  | None => None
  end.

(** [scanstring] (strict): the input starts just after the opening quote;
    the result is the decoded string and the text after the closing quote.
    [None] is [JSONDecodeError]. *)
Fixpoint scanstring (s : pystr) : option (pystr * pystr) :=
  match s with
  | [] => None
  | c :: s1 =>
    if c =? 34 then Some ([], s1)
    else if c =? 92 then
      match s1 with
      | [] => None
      | e :: s2 =>
        if e =? 117 then
          match s2 with
          | h1 :: h2 :: h3 :: h4 :: s6 =>
            match decode_uXXXX h1 h2 h3 h4 with
            | None => None
            | Some u =>
              if is_high_surrogate u then
                match s6 with
                | b :: e' :: g1 :: g2 :: g3 :: g4 :: s12 =>
                  if (b =? 92) && (e' =? 117) then
                    match decode_uXXXX g1 g2 g3 g4 with
                    | None => None
                    | Some u2 =>
                      if is_low_surrogate u2
                      then cons_char (join_surrogates u u2) (scanstring s12)
                      else cons_char u (scanstring s6)
                    end
                  else cons_char u (scanstring s6)
                | _ => cons_char u (scanstring s6)
                end
              else cons_char u (scanstring s6)
            end
          | _ => None
          end
        else
          match backslash e with
          | Some ch => cons_char ch (scanstring s2)
          | None => None
          end
      end
    else if c <=? 31 then None
    else cons_char c (scanstring s1)
  end.

(** The loop of [JSONObject]; the input starts just after the opening
    quote of a member's name.  Only members whose value is a string are
    read: on any other value the result is [None].  Each round consumes
    input, so [fuel] as long as the input is enough. *)
Fixpoint members (fuel : nat) (s : pystr) : option (pydict * pystr) :=
  match fuel with
  | O => None
  | S fuel' =>
    match scanstring s with
    | None => None
    | Some (key, s) =>
      match skip_ws s with
      | [] => None
      | c :: s =>
        if negb (c =? 58) then None
        else
          match skip_ws s with
          | [] => None
          | q :: s =>
            if negb (q =? 34) then None
            else
              match scanstring s with
              | None => None
              | Some (value, s) =>
                match skip_ws s with
                | [] => None
                | e :: s =>
                  if e =? 125 then Some ([(key, value)], s)
                  else if negb (e =? 44) then None
                  else
                    match skip_ws s with
                    | [] => None
                    | q2 :: s =>
                      if negb (q2 =? 34) then None
                      else
                        match members fuel' s with
                        | Some (ps, rest) => Some ((key, value) :: ps, rest)
                        | None => None
                        end
                    end
                end
              end
          end
      end
    end
  end.

(** [JSONObject]: the input starts just after the opening brace. *)
Definition JSONObject (s : pystr) : option (pydict * pystr) :=
  match skip_ws s with
  | [] => None
  | c :: s1 =>
    if c =? 125 then Some ([], s1)
    else if c =? 34 then members (List.length s1) s1
    else None
  end.

(** [json.loads(s)] on texts whose value is an object with string
    members, in the order of the text.  [None] stands for every other
    text: one the decoder rejects ([JSONDecodeError]) or one that holds
    another kind of value. *)
Definition loads (s : pystr) : option pydict :=
  match skip_ws s with
  | [] => None
  | c :: s1 =>
    if c =? 123 then
      match JSONObject s1 with
      | Some (d, rest) =>
        match skip_ws rest with
        | [] => Some d
        | _ :: _ => None
        end
      | None => None
      end
    else None
  end.

(** What [loads] makes of the escapes [dumps] writes for one character
    beyond the basic plane: the two surrogates, joined again. *)
Definition rejoin (c : N) : N :=
  if c <? 65536 then c
  else
    let n := c - 65536 in
    join_surrogates (N.lor 55296 (N.land (N.shiftr n 10) 1023))
                    (N.lor 56320 (N.land n 1023)).

(** What [loads] makes of the text [dumps] writes for a string: a high
    surrogate followed by a low one comes back as one character. *)
Fixpoint read_back (s : pystr) : pystr :=
  match s with
  | [] => []
  | c :: t =>
    match t with
    | [] => [rejoin c]
    | c2 :: t2 =>
      if is_high_surrogate c && is_low_surrogate c2
      then join_surrogates c c2 :: read_back t2
      else rejoin c :: read_back t
    end
  end.

(** A string of code points (below 0x110000) in which no high surrogate
    is followed by a low one; every text decoded from UTF-8 is one. *)
Fixpoint no_surrogate_pair (s : pystr) : bool :=
  match s with
  | [] => true
  | c :: t =>
    match t with
    | [] => true
    | c2 :: _ =>
      negb (is_high_surrogate c && is_low_surrogate c2)
      && no_surrogate_pair t
    end
  end.

Definition plain_text (s : pystr) : bool :=
  forallb (fun c => c <? 1114112) s && no_surrogate_pair s.

(** The text does not go on with the escape of a low surrogate. *)
Definition not_low_escape (X : pystr) : Prop :=
  forall g1 g2 g3 g4 Y,
    X = 92 :: 117 :: g1 :: g2 :: g3 :: g4 :: Y ->
    exists u2, decode_uXXXX g1 g2 g3 g4 = Some u2
               /\ is_low_surrogate u2 = false.

(** The text of one member after the opening quote of its name,
    followed by [X]. *)
Definition item_tail (kv : pystr * pystr) (X : pystr) : pystr :=
  encode_chars (fst kv) ++ 34 :: 58 :: 32 :: 34
    :: encode_chars (snd kv) ++ 34 :: X.

(** The text of the members [kv :: d] after the first opening quote, up
    to the closing brace, followed by [X]. *)
Fixpoint items_tail (kv : pystr * pystr) (d : pydict) (X : pystr) : pystr :=
  match d with
  | [] => item_tail kv (125 :: X)
  | kv' :: d' => item_tail kv (44 :: 32 :: 34 :: items_tail kv' d' X)
  end.

Definition read_back_item (kv : pystr * pystr) : pystr * pystr :=
  (read_back (fst kv), read_back (snd kv)).

End Json.

(* ===================================================================== *)
(** ** 3. Tools of Agent4 (agent.py, section 2) *)
(* ===================================================================== *)

(** [agent4_tool1_check_unanswered]; [None] is an exception
    ([JSONDecodeError], [KeyError]). *)
Definition agent4_tool1_check_unanswered (input_json : pystr) : option pystr :=
  match Json.loads input_json with
  | None => None
  | Some data =>
    match dict_get (py "query") data with
    | None => None
    | Some query =>
      match dict_get (py "answer_candidate") data with
      | None => None
      | Some answer_candidate =>
        if contains (py "詳しく") query
           && negb (contains (py "詳しく") answer_candidate)
        then Some (py "No")
        else Some (py "Yes")
      end
    end
  end.

(** [agent4_tool2_check_technical_words] *)
Definition agent4_tool2_check_technical_words (input_json : pystr)
  : option pystr :=
  match Json.loads input_json with
  | None => None
  | Some data =>
    match dict_get (py "answer_candidate") data with
    | None => None
    | Some answer_candidate =>
      if contains (py "専門用語") answer_candidate
      then Some (py "No")
      else Some (py "Yes")
    end
  end.


(* ===================================================================== *)
(** ** 4. Node functions (agent.py, sections 4 to 6) *)
(* ===================================================================== *)

(** The final answer of a judging agent: stripped, and replaced by No when
    it is neither Yes nor No. *)
Definition normalize_judgment (content : pystr) : pystr :=
  let final_ans := strip content in
  if negb (str_in_list final_ans [py "Yes"; py "No"]) then py "No"
  else final_ans.

Section Nodes.

(** [invoke] is the service the node calls: it maps the prompt to the
    content of the last message of the result. *)
Variable invoke : pystr -> pystr.

Definition call_agent1 (state : QueryState) : Command :=
  let instructions :=
    py "User Query: " ++ query state ++ nl
    ++ py "Please finalize your answer now." in
  let final_ans := invoke instructions in
  let query' := query state ++ nl ++ py "[Agent1 says]: " ++ final_ans in
  let debug_info' := debug_info state ++ [py "[Agent1] " ++ final_ans] in
  mkCommand n_agent2 (upd_query_debug query' debug_info').

Definition call_agent2_instructions (state : QueryState) : pystr :=
  py "User Query: " ++ query state ++ nl
  ++ py "Return final answer as 'Yes' or 'No'.".

Definition call_agent2 (state : QueryState) : Command :=
  let instructions := call_agent2_instructions state in
  let final_ans := normalize_judgment (invoke instructions) in
  let debug_info' :=
    debug_info state ++ [py "[Agent2] judged = " ++ final_ans] in
  mkCommand n_router1
    (mkUpdate None (Some (Some final_ans)) None (Some debug_info')).

Definition call_agent3 (state : QueryState) : Command :=
  let instructions :=
    py "We need more info for the user query. Please gather from documents, Slack, GitHub issues, internet. "
    ++ py "User Query: " ++ query state ++ nl
    ++ py "Finally, output a summary of what you found." in
  let final_ans := invoke instructions in
  let query' :=
    query state ++ nl ++ py "[Agent3 additional info]:" ++ nl ++ final_ans in
  let debug_info' := debug_info state ++ [py "[Agent3] " ++ final_ans] in
  mkCommand n_prompt1 (upd_query_debug query' debug_info').

(** The dictionary [call_agent4] serialises. *)
Definition call_agent4_payload (state : QueryState) : pydict :=
  [(py "query", query state); (py "answer_candidate", query state)].

Definition call_agent4_data_json (state : QueryState) : pystr :=
  Json.dumps (call_agent4_payload state).

Definition call_agent4_instructions (state : QueryState) : pystr :=
  py "Check the answer thoroughly using your tools to see if it's fully answered and not too technical."
  ++ nl
  ++ py "JSON to pass to each tool: " ++ call_agent4_data_json state ++ nl
  ++ py "Finally, output 'Yes' if it's fully acceptable, else 'No'.".

Definition call_agent4 (state : QueryState) : Command :=
  let instructions := call_agent4_instructions state in
  let final_ans := normalize_judgment (invoke instructions) in
  let debug_info' :=
    debug_info state ++ [py "[Agent4] judged = " ++ final_ans] in
  mkCommand n_router2
    (mkUpdate None None (Some (Some final_ans)) (Some debug_info')).

Definition prompt1_prompt_text (state : QueryState) : pystr :=
  nl ++ py "あなたはユーザに回答するアシスタントです。" ++ nl
  ++ py "[User Query & Collected Info]: " ++ query state ++ nl
  ++ nl
  ++ py "この質問に対して、一度回答案をまとめてください。" ++ nl.

Definition prompt1 (state : QueryState) : Command :=
  let prompt_text := prompt1_prompt_text state in
  let answer := strip (invoke prompt_text) in
  let query' :=
    query state ++ nl ++ py "[Prompt1's answer draft]:" ++ nl ++ answer in
  let debug_info' :=
    debug_info state
    ++ [py "[Prompt1] generated answer draft:" ++ nl ++ answer] in
  mkCommand n_agent4 (upd_query_debug query' debug_info').

Definition prompt2 (state : QueryState) : Command :=
  let prompt_text :=
    nl ++ py "あなたは回答をブラッシュアップするアシスタントです。" ++ nl
    ++ py "前回の回答案:" ++ nl
    ++ query state ++ nl
    ++ nl
    ++ py "まだ回答が不十分 or 専門的すぎると指摘されました。" ++ nl
    ++ py "より分かりやすく、より詳細に説明する回答を再度作成してください。" ++ nl in
  let refined_answer := strip (invoke prompt_text) in
  let query' :=
    query state ++ nl ++ py "[Prompt2 refined answer]:" ++ nl
    ++ refined_answer in
  let debug_info' :=
    debug_info state
    ++ [py "[Prompt2] refined answer:" ++ nl ++ refined_answer] in
  mkCommand n_agent2 (upd_query_debug query' debug_info').

End Nodes.

Definition router1 (state : QueryState) : Command :=
  let '(goto_node, goto_name) :=
    match agent2_judgment state with
    | Some j => if str_eqb j (py "Yes") then (n_prompt1, py "prompt1")
                else (n_agent3, py "agent3")
    | None => (n_agent3, py "agent3")
    end in
  let debug_info' :=
    debug_info state
    ++ [py "[Router1] Agent2 = " ++ fmt_judgment (agent2_judgment state)
        ++ py " -> " ++ goto_name] in
  mkCommand goto_node (upd_debug debug_info').

Definition router2 (state : QueryState) : Command :=
  let is_yes :=
    match agent4_judgment state with
    | Some j => str_eqb j (py "Yes")
    | None => false
    end in
  if is_yes then
    mkCommand n_END
      (upd_debug (debug_info state ++ [py "[Router2] Agent4=Yes => END"]))
  else
    mkCommand n_prompt2
      (upd_debug (debug_info state ++ [py "[Router2] Agent4=No => prompt2"])).

(* ===================================================================== *)
(** ** 5. The graph (agent.py, [build_graph]) and its execution *)
(* ===================================================================== *)

(** The external services: each maps the number of service calls made so
    far in the run and the prompt to the content of the final message. *)
Record Collaborators : Type := mkCollaborators {
  agent1_graph : nat -> pystr -> pystr;
  agent2_graph : nat -> pystr -> pystr;
  agent3_graph : nat -> pystr -> pystr;
  agent4_graph : nat -> pystr -> pystr;
  llm : nat -> pystr -> pystr
}.

(** [builder.add_node]: the function registered under each name. *)
Definition node_function (C : Collaborators) (k : nat) (n : node)
  : option (QueryState -> Command) :=
  match n with
  | n_agent1 => Some (call_agent1 (agent1_graph C k))
  | n_agent2 => Some (call_agent2 (agent2_graph C k))
  | n_router1 => Some router1
  | n_agent3 => Some (call_agent3 (agent3_graph C k))
  | n_prompt1 => Some (prompt1 (llm C k))
  | n_agent4 => Some (call_agent4 (agent4_graph C k))
  | n_router2 => Some router2
  | n_prompt2 => Some (prompt2 (llm C k))
  | n_START | n_END => None
  end.

(** Whether the node's function calls a service. *)
Definition calls_service (n : node) : bool :=
  match n with
  | n_agent1 | n_agent2 | n_agent3 | n_agent4 | n_prompt1 | n_prompt2 => true
  | n_START | n_router1 | n_router2 | n_END => false
  end.

(** [builder.add_edge], in the order of the calls. *)
Definition graph_edges : list (node * node) :=
  [ (n_START, n_agent1);
    (n_agent1, n_agent2);
    (n_agent2, n_router1);
    (n_router1, n_prompt1);
    (n_router1, n_agent3);
    (n_agent3, n_prompt1);
    (n_prompt1, n_agent4);
    (n_agent4, n_router2);
    (n_router2, n_END);
    (n_router2, n_prompt2);
    (n_prompt2, n_agent2) ].

Definition has_edge (a b : node) : bool :=
  existsb (fun e => node_eqb (fst e) a && node_eqb (snd e) b) graph_edges.

(** A configuration of a run: the node about to run, the state, and the
    number of service calls made so far. *)
Record config : Type := mkConfig {
  cur : node;
  state : QueryState;
  calls : nat
}.

Inductive step_result : Type :=
| Next (c : config)      (* the run goes on from [c] *)
| Finished               (* the terminal marker was reached *)
| ConfigError.           (* a successor that is not a declared edge *)

(** Modelled from the spec: the graph executor (langgraph's compiled
    [StateGraph], which is not part of the repository's sources), after
    section 4.1 of the specification.  One step runs the function of the
    current node on the state, merges the returned update into the state
    and moves to the successor the command names; the successor has to be
    one of the node's declared edges; the run stops at the terminal
    marker; there is no counter of steps. *)
Definition step (C : Collaborators) (c : config) : step_result :=
  match cur c with
  | n_END => Finished
  | n_START =>
    if has_edge n_START n_agent1
    then Next (mkConfig n_agent1 (state c) (calls c))
    else ConfigError
  | n =>
    match node_function C (calls c) n with
    | None => ConfigError
    | Some f =>
      let cmd := f (state c) in
      if has_edge n (goto cmd)
      then Next (mkConfig (goto cmd)
                          (apply_update (state c) (update cmd))
                          (if calls_service n then S (calls c) else calls c))
      else ConfigError
    end
  end.

(** The configuration after [n] steps, when the run gets that far. *)
Fixpoint exec (C : Collaborators) (n : nat) (c : config) : option config :=
  match n with
  | O => Some c
  | S n' =>
    match step C c with
    | Next c' => exec C n' c'
    | Finished | ConfigError => None
    end
  end.

(** The final state of a run that reaches the terminal marker within
    [fuel] steps. *)
Fixpoint run (C : Collaborators) (fuel : nat) (c : config)
  : option QueryState :=
  match step C c with
  | Finished => Some (state c)
  | ConfigError => None
  | Next c' =>
    match fuel with
    | O => None
    | S fuel' => run C fuel' c'
    end
  end.

(** [graph.run(test_state)]: a run from [START]. *)
Definition start (st : QueryState) : config := mkConfig n_START st O.

Definition graph_run (C : Collaborators) (fuel : nat) (st : QueryState)
  : option QueryState :=
  run C fuel (start st).


(** Sample collaborators, for concrete runs.  The first accepts the first
    draft (its classifier pads the answer with white space, its clarifier
    and its retriever say little); the second never accepts; the third has
    a classifier that answers beside the question. *)
Definition accepting_collaborators : Collaborators :=
  mkCollaborators
    (fun _ _ => py "No date appended.")
    (fun _ _ => py " Yes ")
    (fun _ _ => py "nothing found")
    (fun _ _ => py "Yes")
    (fun _ _ => py " a draft ").

Definition rejecting_collaborators : Collaborators :=
  mkCollaborators
    (fun _ _ => py "No date appended.")
    (fun _ _ => py "Yes")
    (fun _ _ => py "nothing found")
    (fun _ _ => py "No")
    (fun _ _ => py "a draft").

Definition vague_collaborators : Collaborators :=
  mkCollaborators
    (fun _ _ => py "No date appended.")
    (fun _ _ => py "Maybe")
    (fun _ _ => py "nothing found")
    (fun _ _ => py "yes, I think")
    (fun _ _ => py "a draft").

(** An evaluator that says Yes to everything, and a question that is
    nothing but the word the second tool of Agent4 looks for. *)
Definition yes_to_all : pystr -> pystr := fun _ => py "Yes".

Definition jargon_state : QueryState := initial_state (py "専門用語").

(* ===================================================================== *)
(** ** 6. Regular expressions of test.py *)
(* ===================================================================== *)

Module Re.

(** The patterns of [preprocess] are sequences of single characters or
    character classes, each with at most one repetition operator. *)
Inductive quantifier : Type :=
| One        (* x    *)
| Opt        (* x?   *)
| Star       (* x*   *)
| Plus       (* x+   *)
| LazyStar.  (* x*?  *)

Definition item : Type := ((N -> bool) * quantifier)%type.
Definition pattern : Type := list item.

(** [x*] followed by [k]: as many characters as possible first. *)
Fixpoint greedy (p : N -> bool) (k : pystr -> option pystr) (s : pystr)
  : option pystr :=
  match s with
  | [] => k s
  | c :: t =>
    if p c then
      match greedy p k t with
      | Some rest => Some rest
      | None => k s
      end
    else k s
  end.

(** [x*?] followed by [k]: as few characters as possible first. *)
Fixpoint reluctant (p : N -> bool) (k : pystr -> option pystr) (s : pystr)
  : option pystr :=
  match k s with
  | Some rest => Some rest
  | None =>
    match s with
    | [] => None
    | c :: t => if p c then reluctant p k t else None
    end
  end.

(** A match of [r] at the start of [s], with backtracking: the text left
    after the match. *)
Fixpoint match_at (r : pattern) (s : pystr) : option pystr :=
  match r with
  | [] => Some s
  | (p, One) :: r' =>
    match s with
    | [] => None
    | c :: t => if p c then match_at r' t else None
    end
  | (p, Opt) :: r' =>
    match (match s with
           | [] => None
           | c :: t => if p c then match_at r' t else None
           end) with
    | Some rest => Some rest
    | None => match_at r' s
    end
  | (p, Star) :: r' => greedy p (match_at r') s
  | (p, Plus) :: r' =>
    match s with
    | [] => None
    | c :: t => if p c then greedy p (match_at r') t else None
    end
  | (p, LazyStar) :: r' => reluctant p (match_at r') s
  end.

(** The scan of [re.sub]: leftmost matches that do not overlap, replaced
    by [repl].  Every pattern of the source needs one character at least,
    so that there is no empty match to handle; each round consumes input,
    so [fuel] as long as the text is enough. *)
Fixpoint sub_scan (fuel : nat) (r : pattern) (repl s : pystr) : pystr :=
  match fuel with
  | O => s
  | S fuel' =>
    match s with
    | [] => []
    | c :: t =>
      match match_at r s with
      | Some rest =>
        if Nat.ltb (List.length rest) (List.length s)
        then repl ++ sub_scan fuel' r repl rest
        else c :: sub_scan fuel' r repl t
      | None => c :: sub_scan fuel' r repl t
      end
    end
  end.

(** [re.sub(r, repl, s)] *)
Definition sub (r : pattern) (repl s : pystr) : pystr :=
  sub_scan (List.length s) r repl s.

Definition chr (c : N) : item := (N.eqb c, One).

(** A pattern without special characters. *)
Definition literal (s : pystr) : pattern := map chr s.

Definition one_of (cs : pystr) (c : N) : bool := existsb (N.eqb c) cs.

Definition in_range (lo hi c : N) : bool := (lo <=? c) && (c <=? hi).

(** [.] (without DOTALL) *)
Definition dot (c : N) : bool := negb (c =? 10).

End Re.

(* ===================================================================== *)
(** ** 7. test.py, [preprocess] *)
(* ===================================================================== *)

(** The argument of [preprocess]: a string, or a float (a missing value). *)
Inductive py_text : Type :=
| PyStr (s : pystr)
| PyFloat.

Inductive index_site : Type :=
| text_last     (* text[-1] *)
| text_first.   (* text[0]  *)

Inductive preprocess_result : Type :=
| Returned (s : pystr)
| ReturnedNaN
| IndexError (site : index_site).

Section Preprocess.

(** The fragment names [re] and [np] without importing them; they are
    read as the standard [re] module and [numpy].  What Unicode says of
    the characters beyond ASCII is left open: which of them are letters
    or digits ([\w]) and the lower case of a text that has some. *)
Variable unicode_alnum : N -> bool.
Variable unicode_lower : pystr -> pystr.

(** [\w] of a [str] pattern. *)
Definition word_char (c : N) : bool :=
  if c <? 128 then
    Re.in_range 97 122 c || Re.in_range 65 90 c || Re.in_range 48 57 c
    || (c =? 95)
  else unicode_alnum c.

(** [text.lower()] *)
Definition lower (text : pystr) : pystr :=
  if forallb (fun c => c <? 128) text
  then map (fun c => if Re.in_range 65 90 c then c + 32 else c) text
  else unicode_lower text.

(** [https?://[\w!\?/\+\-_~=;\.,\*&@#\$%\(\)'\[\]]+] *)
Definition re_url : Re.pattern :=
  Re.literal (py "http") ++ [(N.eqb 115, Re.Opt)] ++ Re.literal (py "://")
  ++ [((fun c => word_char c || Re.one_of (py "!?/+-_~=;.,*&@#$%()'[]") c),
       Re.Plus)].

(** [\(.*?\)] *)
Definition re_parens : Re.pattern :=
  [Re.chr 40; (Re.dot, Re.LazyStar); Re.chr 41].

(** [\s] *)
Definition re_space : Re.pattern := [(isspace, Re.One)].

(** [[^a-zA-z0-9.,?!/&%$']] *)
Definition re_other : Re.pattern :=
  [((fun c => negb (Re.in_range 97 122 c || Re.in_range 65 122 c
                    || Re.in_range 48 57 c || Re.one_of (py ".,?!/&%$'") c)),
    Re.One)].

(** [\.] *)
Definition re_dot : Re.pattern := [Re.chr 46].

(** [\s+] *)
Definition re_spaces : Re.pattern := [(isspace, Re.Plus)].

(** [[\s]*\.[\.\s]+] *)
Definition re_dots : Re.pattern :=
  [(isspace, Re.Star); Re.chr 46;
   ((fun c => (c =? 46) || isspace c), Re.Plus)].

Definition preprocess (text : py_text) : preprocess_result :=
  match text with
  | PyFloat => ReturnedNaN
  | PyStr text =>
    let text := Re.sub re_url (py " ") text in
    let text := lower text in
    let text := Re.sub re_parens (py " ") text in
    let text := Re.sub re_space (py " ") text in
    let text := Re.sub (Re.literal (py "â€™")) (py "'") text in
    let text := Re.sub re_other (py " ") text in
    let text := Re.sub (Re.literal (py ",")) (py " , ") text in
    let text := Re.sub (Re.literal (py "!")) (py ". ") text in
    let text := Re.sub re_dot (py ". ") text in
    let text := Re.sub re_spaces (py " ") text in
    let text := Re.sub re_dots (py ". ") text in
    let text := Re.sub (Re.literal (py "' ")) (py "'") text in
    let text := Re.sub (Re.literal (py " l ")) (py " i ") text in
    let text := Re.sub (Re.literal (py " ,")) (py ",") text in
    match last text 0, text with
    | _, [] => IndexError text_last
    | c_last, _ :: _ =>
      let text := if c_last =? 32 then removelast text else text in
      match text with
      | [] => IndexError text_first
      | c_first :: tail =>
        let text := if c_first =? 32 then tail else text in
        let text :=
          if str_eqb (firstn 2 text) (py "l ")
          then py "i " ++ skipn 2 text
          else text in
        Returned text
      end
    end
  end.

End Preprocess.


(* ===================================================================== *)
(** ** 8. What a verdict is, and the contract given to Agent4 *)
(* ===================================================================== *)

Definition is_verdict (j : pystr) : Prop := j = py "Yes" \/ j = py "No".

(** The state after a node's command has been merged. *)
Definition after (cmd : Command) (st : QueryState) : QueryState :=
  apply_update st (update cmd).

(** The final answer the description of [agent4_graph] asks of the agent,
    from the results of its two tools: Yes if both are Yes, No otherwise. *)
Definition agent4_react_answer (check1 check2 : option pystr) : pystr :=
  match check1, check2 with
  | Some r1, Some r2 =>
    if str_eqb r1 (py "Yes") && str_eqb r2 (py "Yes") then py "Yes"
    else py "No"
  | _, _ => py "No"
  end.

(** What the readers of the verdicts can see in a configuration: a verdict
    that is set is Yes or No, and each router finds its verdict set. *)
Definition verdicts_ok (c : config) : Prop :=
  (forall j, agent2_judgment (state c) = Some j -> is_verdict j)
  /\ (forall j, agent4_judgment (state c) = Some j -> is_verdict j)
  /\ (cur c = n_router1 -> exists j, agent2_judgment (state c) = Some j)
  /\ (cur c = n_router2 -> exists j, agent4_judgment (state c) = Some j).

(** The run is not at the terminal marker, and [router2] finds the
    verdict No. *)
Definition rejected (c : config) : Prop :=
  cur c <> n_END
  /\ (cur c = n_router2 -> agent4_judgment (state c) = Some (py "No")).

(** Number of steps to prompt2, at most. *)
Definition to_prompt2 (n : node) : nat :=
  match n with
  | n_prompt2 | n_END => 0
  | n_router2 => 1
  | n_agent4 => 2
  | n_prompt1 => 3
  | n_agent3 => 4
  | n_router1 => 5
  | n_agent2 => 6
  | n_agent1 => 7
  | n_START => 8
  end.

(* ===================================================================== *)
(** ** 8b. The other tools (agent.py, section 2) and further predicates *)
(* ===================================================================== *)

(** [datetime.date]: a year, a month and a day. *)
Record date : Type := mkDate { year : N; month : N; day : N }.

(** The bounds every [date] object keeps. *)
Definition date_in_range (d : date) : bool :=
  (1 <=? year d) && (year d <=? 9999)
  && (1 <=? month d) && (month d <=? 12)
  && (1 <=? day d) && (day d <=? 31).

Definition decimal_digit (n : N) : N := 48 + n.

(** [%02d] and [%04d], for numbers of that many digits at most. *)
Definition format_02d (n : N) : pystr :=
  [decimal_digit (n / 10); decimal_digit (n mod 10)].

Definition format_04d (n : N) : pystr :=
  [decimal_digit (n / 1000); decimal_digit ((n / 100) mod 10);
   decimal_digit ((n / 10) mod 10); decimal_digit (n mod 10)].

(** [str(d)] for a date, which is [d.isoformat()]: year, month and day
    with hyphens between them. *)
Definition date_str (d : date) : pystr :=
  format_04d (year d) ++ py "-" ++ format_02d (month d) ++ py "-"
  ++ format_02d (day d).

(** [agent1_tool1_check_date_in_query]; [today] is [date.today()]. *)
Definition agent1_tool1_check_date_in_query (today : date)
           (input_text : pystr) : pystr :=
  let keywords := [py "最新の"; py "現在の"] in
  if existsb (fun k => contains k input_text) keywords
  then date_str today
  else [].

(** [agent2_tool1_check_dictionary] *)
Definition agent2_tool1_check_dictionary (input_text : pystr) : pystr :=
  if contains (py "特殊用語") input_text then py "Yes" else py "No".

(** The four search tools of Agent3. *)
Definition agent3_tool1_search_document (query : pystr) : pystr :=
  py "[Document] Found info about '" ++ query ++ py "'".

Definition agent3_tool2_search_slack (query : pystr) : pystr :=
  py "[Slack] Found info about '" ++ query ++ py "'".

Definition agent3_tool3_search_github_issue (query : pystr) : pystr :=
  py "[GitHubIssue] Found info about '" ++ query ++ py "'".

Definition agent3_tool4_search_internet (term : pystr) : pystr :=
  py "[Internet] Found info about '" ++ term ++ py "'".

(** Characters from the start of a text up to its first line break. *)
Fixpoint first_line (s : pystr) : pystr :=
  match s with
  | [] => []
  | c :: t => if c =? 10 then [] else c :: first_line t
  end.

(** An evaluator that does what the description of [agent4_graph] and the
    prompt of [call_agent4] ask: it takes the JSON text from the second
    line of the prompt, after the words that introduce it, calls the two
    tools on it and combines their answers. *)
Definition json_of_instructions (prompt : pystr) : pystr :=
  first_line
    (skipn (List.length
              (py "Check the answer thoroughly using your tools to see if it's fully answered and not too technical."
               ++ nl ++ py "JSON to pass to each tool: "))
           prompt).

Definition faithful_agent4 (prompt : pystr) : pystr :=
  let input_json := json_of_instructions prompt in
  agent4_react_answer (agent4_tool1_check_unanswered input_json)
                      (agent4_tool2_check_technical_words input_json).

Definition faithful_collaborators : Collaborators :=
  mkCollaborators
    (fun _ _ => py "No date appended.")
    (fun _ _ => py "Yes")
    (fun _ _ => py "nothing found")
    (fun _ => faithful_agent4)
    (fun _ _ => py "a draft").

(** A printable ASCII character, [' '] to ['~']. *)
Definition printable (c : N) : bool := (32 <=? c) && (c <=? 126).

(** A character below the surrogates. *)
Definition below_surrogates (c : N) : bool := c <? 55296.


(** A dictionary whose names and values are plain texts. *)
Definition plain_dict (d : pydict) : bool :=
  forallb (fun kv => Json.plain_text (fst kv) && Json.plain_text (snd kv)) d.

(** The run is not at the terminal marker, its query holds the word the
    second tool of Agent4 rejects, and [router2] finds the verdict No. *)
Definition held_by_jargon (c : config) : Prop :=
  cur c <> n_END
  /\ contains (py "専門用語") (query (state c)) = true
  /\ (cur c = n_router2 -> agent4_judgment (state c) = Some (py "No")).

(** A text of the form YYYY-MM-DD: ten characters, digits but for the two
    hyphens. *)
Definition is_digit (c : N) : bool := (48 <=? c) && (c <=? 57).

Definition is_iso_date (s : pystr) : bool :=
  match s with
  | [y1; y2; y3; y4; h1; m1; m2; h2; d1; d2] =>
    is_digit y1 && is_digit y2 && is_digit y3 && is_digit y4 && (h1 =? 45)
    && is_digit m1 && is_digit m2 && (h2 =? 45) && is_digit d1 && is_digit d2
  | _ => false
  end.

(** The tool list given to [agent3_graph], and the call of one of them. *)
Inductive search_tool : Type :=
| search_document | search_slack | search_github_issue | search_internet.

Definition agent3_search (t : search_tool) (term : pystr) : pystr :=
  match t with
  | search_document => agent3_tool1_search_document term
  | search_slack => agent3_tool2_search_slack term
  | search_github_issue => agent3_tool3_search_github_issue term
  | search_internet => agent3_tool4_search_internet term
  end.

(** The least number of steps from a node to the terminal marker. *)
Definition least_to_end (n : node) : nat :=
  match n with
  | n_END => 0
  | n_router2 => 1
  | n_agent4 => 2
  | n_prompt1 => 3
  | n_agent3 => 4
  | n_router1 => 4
  | n_agent2 => 5
  | n_agent1 => 6
  | n_prompt2 => 6
  | n_START => 7
  end.

(** What holds of a configuration of a run from [START]: the node is not
    [START] again; past Classify the classification verdict is set to Yes
    or No; at the terminal marker the evaluation verdict is Yes and the
    last entry of the trace is the line [router2] writes when it stops. *)
Definition settled (c : config) : Prop :=
  cur c <> n_START
  /\ (cur c <> n_agent1 -> cur c <> n_agent2 ->
      exists j, agent2_judgment (state c) = Some j /\ is_verdict j)
  /\ (cur c = n_END ->
      agent4_judgment (state c) = Some (py "Yes")
      /\ last (debug_info (state c)) [] = py "[Router2] Agent4=Yes => END").

(** A sample run of the accepting collaborators: its configuration after
    five steps and the state it ends with. *)
Definition sample_config_after_five : config :=
  Eval vm_compute in
    match exec accepting_collaborators 5 (start (initial_state (py "q"))) with
    | Some c => c
    | None => start (initial_state [])
    end.

Definition sample_final_state : QueryState :=
  Eval vm_compute in
    match graph_run accepting_collaborators 9 (initial_state (py "q")) with
    | Some s => s
    | None => initial_state []
    end.

(** The two halves of [preprocess] on a string, named for the proofs: the
    substitutions from the sixth on, applied to the text the first five
    produce, and the trimming at the end. *)
Definition substitutions_from_sixth (text : pystr) : pystr :=
  let text := Re.sub re_other (py " ") text in
  let text := Re.sub (Re.literal (py ",")) (py " , ") text in
  let text := Re.sub (Re.literal (py "!")) (py ". ") text in
  let text := Re.sub re_dot (py ". ") text in
  let text := Re.sub re_spaces (py " ") text in
  let text := Re.sub re_dots (py ". ") text in
  let text := Re.sub (Re.literal (py "' ")) (py "'") text in
  let text := Re.sub (Re.literal (py " l ")) (py " i ") text in
  Re.sub (Re.literal (py " ,")) (py ",") text.

Definition substitutions_to_fifth (unicode_alnum : N -> bool)
           (unicode_lower : pystr -> pystr) (text : pystr) : pystr :=
  let text := Re.sub (re_url unicode_alnum) (py " ") text in
  let text := lower unicode_lower text in
  let text := Re.sub re_parens (py " ") text in
  let text := Re.sub re_space (py " ") text in
  Re.sub (Re.literal (py "â€™")) (py "'") text.

Definition trimmed (text : pystr) : preprocess_result :=
  match text with
  | [] => IndexError text_last
  | _ :: _ =>
    let text := if last text 0 =? 32 then removelast text else text in
    match text with
    | [] => IndexError text_first
    | c_first :: tail =>
      let text := if c_first =? 32 then tail else text in
      let text :=
        if str_eqb (firstn 2 text) (py "l ")
        then py "i " ++ skipn 2 text
        else text in
      Returned text
    end
  end.


(** The list [old] is an initial segment of the list [new]. *)
Definition trace_prefix (old new : list pystr) : Prop :=
  exists more, new = old ++ more.

(* ===================================================================== *)
(** ** 8c. The state as an object of a store: assignments in place *)
(* ===================================================================== *)

(** The node functions of agent.py assign to the attributes of the state
    object they are handed and append to the list object its [debug_info]
    names, and only then return a command, whose update holds the string
    just assigned and that same list object.  In this module the state is
    an object of a store and the trace a list object of its own, reached
    through a reference: two state objects may name one list, and one
    object may be handed to two runs. *)
Module Imp.

Definition ref : Type := nat.

(** A [QueryState] object: the strings are values, [debug_info] is a
    reference to a list object. *)
Record object : Type := mkObject {
  o_query : pystr;
  o_agent2_judgment : option pystr;
  o_agent4_judgment : option pystr;
  o_debug_info : ref
}.

Fixpoint lookup {A : Type} (m : list (ref * A)) (r : ref) : option A :=
  match m with
  | [] => None
  | (k, v) :: m' => if Nat.eqb k r then Some v else lookup m' r
  end.

Fixpoint insert {A : Type} (r : ref) (v : A) (m : list (ref * A))
  : list (ref * A) :=
  match m with
  | [] => [(r, v)]
  | (k, w) :: m' =>
    if Nat.eqb k r then (k, v) :: m' else (k, w) :: insert r v m'
  end.

Record store : Type := mkStore {
  objects : list (ref * object);
  lists : list (ref * list pystr)
}.

(** Code that reads and writes the store; [None] is a reference to
    nothing. *)
Definition M (A : Type) : Type := store -> option (A * store).

Definition ret {A : Type} (a : A) : M A := fun s => Some (a, s).

Definition bind {A B : Type} (m : M A) (k : A -> M B) : M B :=
  fun s =>
    match m s with
    | Some (a, s') => k a s'
    | None => None
    end.

#[local] Notation "x <- m ;; k" := (bind m (fun x => k))
  (at level 61, m at next level, right associativity).
#[local] Notation "m ;; k" := (bind m (fun _ => k))
  (at level 61, right associativity).

(** [state.field] *)
Definition getattr {A : Type} (state : ref) (field : object -> A) : M A :=
  fun s =>
    match lookup (objects s) state with
    | Some o => Some (field o, s)
    | None => None
    end.

(** [state.field = v], with [set] the object with the field replaced *)
Definition setattr (state : ref) (set : object -> object) : M unit :=
  fun s =>
    match lookup (objects s) state with
    | Some o => Some (tt, mkStore (insert state (set o) (objects s)) (lists s))
    | None => None
    end.

Definition with_query (v : pystr) (o : object) : object :=
  mkObject v (o_agent2_judgment o) (o_agent4_judgment o) (o_debug_info o).

Definition with_agent2_judgment (v : option pystr) (o : object) : object :=
  mkObject (o_query o) v (o_agent4_judgment o) (o_debug_info o).

Definition with_agent4_judgment (v : option pystr) (o : object) : object :=
  mkObject (o_query o) (o_agent2_judgment o) v (o_debug_info o).

Definition with_debug_info (v : ref) (o : object) : object :=
  mkObject (o_query o) (o_agent2_judgment o) (o_agent4_judgment o) v.

(** [l.append(x)]: the list object itself changes. *)
Definition append (l : ref) (x : pystr) : M unit :=
  fun s =>
    match lookup (lists s) l with
    | Some xs => Some (tt, mkStore (objects s) (insert l (xs ++ [x]) (lists s)))
    | None => None
    end.

(** The [update] dictionary of a [Command]: under [debug_info] it holds
    the list object, not a copy of its entries. *)
Record RefUpdate : Type := mkRefUpdate {
  r_query : option pystr;
  r_agent2_judgment : option (option pystr);
  r_agent4_judgment : option (option pystr);
  r_debug_info : option ref
}.

Record RefCommand : Type := mkRefCommand {
  r_goto : node;
  r_update : RefUpdate
}.

Section Nodes.

Variable invoke : pystr -> pystr.

Definition call_agent1 (state : ref) : M RefCommand :=
  q <- getattr state o_query ;;
  let instructions :=
    py "User Query: " ++ q ++ nl ++ py "Please finalize your answer now." in
  let final_ans := invoke instructions in
  q <- getattr state o_query ;;
  setattr state (with_query (q ++ nl ++ py "[Agent1 says]: " ++ final_ans)) ;;
  d <- getattr state o_debug_info ;;
  append d (py "[Agent1] " ++ final_ans) ;;
  q <- getattr state o_query ;;
  d <- getattr state o_debug_info ;;
  ret (mkRefCommand n_agent2 (mkRefUpdate (Some q) None None (Some d))).

Definition call_agent2 (state : ref) : M RefCommand :=
  q <- getattr state o_query ;;
  let instructions :=
    py "User Query: " ++ q ++ nl
    ++ py "Return final answer as 'Yes' or 'No'." in
  let final_ans := normalize_judgment (invoke instructions) in
  setattr state (with_agent2_judgment (Some final_ans)) ;;
  d <- getattr state o_debug_info ;;
  append d (py "[Agent2] judged = " ++ final_ans) ;;
  j <- getattr state o_agent2_judgment ;;
  d <- getattr state o_debug_info ;;
  ret (mkRefCommand n_router1 (mkRefUpdate None (Some j) None (Some d))).

Definition call_agent3 (state : ref) : M RefCommand :=
  q <- getattr state o_query ;;
  let instructions :=
    py "We need more info for the user query. Please gather from documents, Slack, GitHub issues, internet. "
    ++ py "User Query: " ++ q ++ nl
    ++ py "Finally, output a summary of what you found." in
  let final_ans := invoke instructions in
  q <- getattr state o_query ;;
  setattr state
    (with_query
       (q ++ nl ++ py "[Agent3 additional info]:" ++ nl ++ final_ans)) ;;
  d <- getattr state o_debug_info ;;
  append d (py "[Agent3] " ++ final_ans) ;;
  q <- getattr state o_query ;;
  d <- getattr state o_debug_info ;;
  ret (mkRefCommand n_prompt1 (mkRefUpdate (Some q) None None (Some d))).

Definition call_agent4 (state : ref) : M RefCommand :=
  q1 <- getattr state o_query ;;
  q2 <- getattr state o_query ;;
  let data_json :=
    Json.dumps [(py "query", q1); (py "answer_candidate", q2)] in
  let instructions :=
    py "Check the answer thoroughly using your tools to see if it's fully answered and not too technical."
    ++ nl
    ++ py "JSON to pass to each tool: " ++ data_json ++ nl
    ++ py "Finally, output 'Yes' if it's fully acceptable, else 'No'." in
  let final_ans := normalize_judgment (invoke instructions) in
  setattr state (with_agent4_judgment (Some final_ans)) ;;
  d <- getattr state o_debug_info ;;
  append d (py "[Agent4] judged = " ++ final_ans) ;;
  j <- getattr state o_agent4_judgment ;;
  d <- getattr state o_debug_info ;;
  ret (mkRefCommand n_router2 (mkRefUpdate None None (Some j) (Some d))).

Definition prompt1 (state : ref) : M RefCommand :=
  q <- getattr state o_query ;;
  let prompt_text :=
    nl ++ py "あなたはユーザに回答するアシスタントです。" ++ nl
    ++ py "[User Query & Collected Info]: " ++ q ++ nl
    ++ nl
    ++ py "この質問に対して、一度回答案をまとめてください。" ++ nl in
  let answer := strip (invoke prompt_text) in
  q <- getattr state o_query ;;
  setattr state
    (with_query (q ++ nl ++ py "[Prompt1's answer draft]:" ++ nl ++ answer)) ;;
  d <- getattr state o_debug_info ;;
  append d (py "[Prompt1] generated answer draft:" ++ nl ++ answer) ;;
  q <- getattr state o_query ;;
  d <- getattr state o_debug_info ;;
  ret (mkRefCommand n_agent4 (mkRefUpdate (Some q) None None (Some d))).

Definition prompt2 (state : ref) : M RefCommand :=
  q <- getattr state o_query ;;
  let prompt_text :=
    nl ++ py "あなたは回答をブラッシュアップするアシスタントです。" ++ nl
    ++ py "前回の回答案:" ++ nl
    ++ q ++ nl
    ++ nl
    ++ py "まだ回答が不十分 or 専門的すぎると指摘されました。" ++ nl
    ++ py "より分かりやすく、より詳細に説明する回答を再度作成してください。" ++ nl in
  let refined_answer := strip (invoke prompt_text) in
  q <- getattr state o_query ;;
  setattr state
    (with_query
       (q ++ nl ++ py "[Prompt2 refined answer]:" ++ nl ++ refined_answer)) ;;
  d <- getattr state o_debug_info ;;
  append d (py "[Prompt2] refined answer:" ++ nl ++ refined_answer) ;;
  q <- getattr state o_query ;;
  d <- getattr state o_debug_info ;;
  ret (mkRefCommand n_agent2 (mkRefUpdate (Some q) None None (Some d))).

End Nodes.

Definition router1 (state : ref) : M RefCommand :=
  j <- getattr state o_agent2_judgment ;;
  let '(goto_node, goto_name) :=
    match j with
    | Some j' => if str_eqb j' (py "Yes") then (n_prompt1, py "prompt1")
                 else (n_agent3, py "agent3")
    | None => (n_agent3, py "agent3")
    end in
  d <- getattr state o_debug_info ;;
  j <- getattr state o_agent2_judgment ;;
  append d (py "[Router1] Agent2 = " ++ fmt_judgment j
            ++ py " -> " ++ goto_name) ;;
  d <- getattr state o_debug_info ;;
  ret (mkRefCommand goto_node (mkRefUpdate None None None (Some d))).

Definition router2 (state : ref) : M RefCommand :=
  j <- getattr state o_agent4_judgment ;;
  let is_yes :=
    match j with
    | Some j' => str_eqb j' (py "Yes")
    | None => false
    end in
  if is_yes then
    d <- getattr state o_debug_info ;;
    append d (py "[Router2] Agent4=Yes => END") ;;
    d <- getattr state o_debug_info ;;
    ret (mkRefCommand n_END (mkRefUpdate None None None (Some d)))
  else
    d <- getattr state o_debug_info ;;
    append d (py "[Router2] Agent4=No => prompt2") ;;
    d <- getattr state o_debug_info ;;
    ret (mkRefCommand n_prompt2 (mkRefUpdate None None None (Some d))).

(** [builder.add_node]: the function registered under each name. *)
Definition node_function (C : Collaborators) (k : nat) (n : node)
  : option (ref -> M RefCommand) :=
  match n with
  | n_agent1 => Some (call_agent1 (agent1_graph C k))
  | n_agent2 => Some (call_agent2 (agent2_graph C k))
  | n_router1 => Some router1
  | n_agent3 => Some (call_agent3 (agent3_graph C k))
  | n_prompt1 => Some (prompt1 (llm C k))
  | n_agent4 => Some (call_agent4 (agent4_graph C k))
  | n_router2 => Some router2
  | n_prompt2 => Some (prompt2 (llm C k))
  | n_START | n_END => None
  end.

(** Modelled from the spec: the executor merges the update of a command
    into the running state (section 4.1 of the specification); here the
    running state is the object the nodes were handed, and each key of the
    update is assigned to its attribute, [debug_info] to the list object
    the update holds. *)
Definition merge (state : ref) (u : RefUpdate) : M unit :=
  (match r_query u with
   | Some v => setattr state (with_query v)
   | None => ret tt
   end) ;;
  (match r_agent2_judgment u with
   | Some v => setattr state (with_agent2_judgment v)
   | None => ret tt
   end) ;;
  (match r_agent4_judgment u with
   | Some v => setattr state (with_agent4_judgment v)
   | None => ret tt
   end) ;;
  (match r_debug_info u with
   | Some d => setattr state (with_debug_info d)
   | None => ret tt
   end).

(** A configuration of a run: the node about to run, the state object and
    the number of service calls made so far. *)
Record rconfig : Type := mkRConfig {
  at_node : node;
  state_ref : ref;
  calls_made : nat
}.

Inductive outcome : Type :=
| Next (c : rconfig) (s : store)   (* the run goes on from [c] in [s] *)
| Finished                         (* the terminal marker was reached *)
| ConfigError                      (* a successor that is not a declared edge *)
| Fault.                           (* a reference to nothing *)

(** Modelled from the spec: one step of the executor of section 4.1 on a
    state object.  The function of the current node runs on the object
    (and may assign to it), its successor has to be a declared edge, its
    update is merged into the object. *)
Definition step (C : Collaborators) (c : rconfig) (s : store) : outcome :=
  match at_node c with
  | n_END => Finished
  | n_START =>
    if has_edge n_START n_agent1
    then Next (mkRConfig n_agent1 (state_ref c) (calls_made c)) s
    else ConfigError
  | n =>
    match node_function C (calls_made c) n with
    | None => ConfigError
    | Some f =>
      match f (state_ref c) s with
      | None => Fault
      | Some (cmd, s1) =>
        if has_edge n (r_goto cmd)
        then
          match merge (state_ref c) (r_update cmd) s1 with
          | None => Fault
          | Some (_, s2) =>
            Next (mkRConfig (r_goto cmd) (state_ref c)
                            (if calls_service n then S (calls_made c)
                             else calls_made c))
                 s2
          end
        else ConfigError
      end
    end
  end.

(** The store a run leaves when it reaches the terminal marker within
    [fuel] steps; the state it returns is the object it was handed. *)
Fixpoint run (C : Collaborators) (fuel : nat) (c : rconfig) (s : store)
  : option store :=
  match step C c s with
  | Finished => Some s
  | ConfigError | Fault => None
  | Next c' s' =>
    match fuel with
    | O => None
    | S fuel' => run C fuel' c' s'
    end
  end.

(** [graph.run(test_state)] *)
Definition graph_run (C : Collaborators) (fuel : nat) (state : ref)
           (s : store) : option store :=
  run C fuel (mkRConfig n_START state O) s.

(** What a state object holds: its attributes and the entries of its
    list. *)
Definition contents (s : store) (state : ref) : option QueryState :=
  match lookup (objects s) state with
  | None => None
  | Some o =>
    match lookup (lists s) (o_debug_info o) with
    | None => None
    | Some l =>
      Some (mkState (o_query o) (o_agent2_judgment o) (o_agent4_judgment o) l)
    end
  end.

(** The object that holds the attributes of [st] and names the list [d]. *)
Definition obj_of (st : QueryState) (d : ref) : object :=
  mkObject (query st) (agent2_judgment st) (agent4_judgment st) d.

(** The state object [state] names the list [d] and holds [st]. *)
Definition holds (s : store) (state d : ref) (st : QueryState) : Prop :=
  lookup (objects s) state = Some (obj_of st d)
  /\ lookup (lists s) d = Some (debug_info st).

(** Nothing but the object [state] and the list [d] differs. *)
Definition same_elsewhere (s s' : store) (state d : ref) : Prop :=
  (forall a, a <> state -> lookup (objects s') a = lookup (objects s) a)
  /\ (forall a, a <> d -> lookup (lists s') a = lookup (lists s) a).

(** A command of the functional node functions, with the list [d] in
    place of the entries. *)
Definition ref_command (cmd : Command) (d : ref) : RefCommand :=
  mkRefCommand
    (goto cmd)
    (mkRefUpdate (u_query (update cmd))
                 (u_agent2_judgment (update cmd))
                 (u_agent4_judgment (update cmd))
                 (match u_debug_info (update cmd) with
                  | Some _ => Some d
                  | None => None
                  end)).

End Imp.

(** Two state objects, each with a list of its own, and two that share
    one list; all of them hold the question q and an empty trace. *)
Definition sample_store : Imp.store :=
  Imp.mkStore
    [(0%nat, Imp.mkObject (py "q") None None 1%nat);
     (2%nat, Imp.mkObject (py "q") None None 3%nat)]
    [(1%nat, []); (3%nat, [])].

Definition sharing_store : Imp.store :=
  Imp.mkStore
    [(0%nat, Imp.mkObject (py "q") None None 1%nat);
     (2%nat, Imp.mkObject (py "q") None None 1%nat)]
    [(1%nat, [])].

Definition store_or (s : Imp.store) (r : option Imp.store) : Imp.store :=
  match r with
  | Some s' => s'
  | None => s
  end.

Definition sample_store_after_first : Imp.store :=
  Eval vm_compute in
    store_or sample_store
      (Imp.graph_run accepting_collaborators 7 0%nat sample_store).

Definition sample_store_after_second : Imp.store :=
  Eval vm_compute in
    store_or sample_store
      (Imp.graph_run accepting_collaborators 20 2%nat
                     sample_store_after_first).

Definition sharing_store_after_first : Imp.store :=
  Eval vm_compute in
    store_or sharing_store
      (Imp.graph_run accepting_collaborators 7 0%nat sharing_store).

(* ===================================================================== *)
(** ** 9. Strings and verdicts: basic facts *)
(* ===================================================================== *)

Unset Implicit Arguments.

#[local] Arguments py _ : simpl never.
#[local] Arguments strip _ : simpl never.
#[local] Arguments normalize_judgment _ : simpl never.
#[local] Arguments Json.dumps _ : simpl never.

Lemma str_eqb_eq (a b : pystr) : str_eqb a b = true <-> a = b.
Proof.
  revert b; induction a as [|x a IH]; intros [|y b]; simpl;
    try (split; (discriminate || reflexivity)).
  rewrite andb_true_iff, N.eqb_eq, IH.
  split; [intros [-> ->]; reflexivity | intros E; injection E; auto].
Qed.

Lemma str_eqb_refl (a : pystr) : str_eqb a a = true.
Proof. apply str_eqb_eq; reflexivity. Qed.

Lemma normalize_judgment_cases (content : pystr) :
  (strip content = py "Yes" /\ normalize_judgment content = py "Yes")
  \/ (strip content <> py "Yes" /\ normalize_judgment content = py "No").
Proof.
  unfold normalize_judgment, str_in_list; simpl existsb.
  destruct (str_eqb (strip content) (py "Yes")) eqn:EY.
  - apply str_eqb_eq in EY. left; split; [exact EY | simpl; exact EY].
  - assert (NY : strip content <> py "Yes")
      by (intros E; apply str_eqb_eq in E; congruence).
    right; split; [exact NY|].
    destruct (str_eqb (strip content) (py "No")) eqn:EN; simpl.
    + apply str_eqb_eq in EN; exact EN.
    + reflexivity.
Qed.

Lemma normalize_judgment_is_verdict (content : pystr) :
  is_verdict (normalize_judgment content).
Proof.
  destruct (normalize_judgment_cases content) as [[_ E]|[_ E]];
    rewrite E; [left | right]; reflexivity.
Qed.

Lemma normalize_judgment_yes_iff (content : pystr) :
  normalize_judgment content = py "Yes" <-> strip content = py "Yes".
Proof.
  destruct (normalize_judgment_cases content) as [[S E]|[S E]]; rewrite E.
  - split; auto.
  - split; [discriminate | intros; contradiction].
Qed.

(** A response that is not Yes or No once stripped is stored as No. *)
Lemma normalize_judgment_fallback (content : pystr) :
  ~ is_verdict (strip content) -> normalize_judgment content = py "No".
Proof.
  intros H.
  destruct (normalize_judgment_cases content) as [[S _]|[_ E]]; [|exact E].
  exfalso; apply H; left; exact S.
Qed.

Lemma is_prefix_refl (s : pystr) : is_prefix s s.
Proof. exists []; rewrite app_nil_r; reflexivity. Qed.

Lemma is_prefix_app (s t : pystr) : is_prefix s (s ++ t).
Proof. exists t; reflexivity. Qed.

Lemma is_prefix_trans (a b c : pystr) :
  is_prefix a b -> is_prefix b c -> is_prefix a c.
Proof.
  intros [t ->] [u ->]. exists (t ++ u). rewrite app_assoc; reflexivity.
Qed.

Lemma is_prefix_length (a b : pystr) :
  is_prefix a b -> (List.length a <= List.length b)%nat.
Proof. intros [t ->]. rewrite length_app. lia. Qed.

(* ===================================================================== *)
(** ** 10. One step of the executor *)
(* ===================================================================== *)

Lemma exec_add (C : Collaborators) (a b : nat) (c : config) :
  exec C (a + b) c =
  match exec C a c with
  | Some c' => exec C b c'
  | None => None
  end.
Proof.
  revert c; induction a as [|a IH]; intros c; simpl; [reflexivity|].
  destruct (step C c); auto.
Qed.

Lemma exec_S_last (C : Collaborators) (n : nat) (c : config) :
  exec C (S n) c =
  match exec C n c with
  | Some c' => exec C 1 c'
  | None => None
  end.
Proof. replace (S n) with (n + 1)%nat by lia. apply exec_add. Qed.

Lemma router1_goto (st : QueryState) :
  goto (router1 st) = n_prompt1 \/ goto (router1 st) = n_agent3.
Proof.
  unfold router1.
  destruct (agent2_judgment st) as [j|];
    [destruct (str_eqb j (py "Yes"))|]; cbn [goto]; auto.
Qed.

Lemma router2_goto (st : QueryState) :
  goto (router2 st) = n_END \/ goto (router2 st) = n_prompt2.
Proof.
  unfold router2.
  destruct (match agent4_judgment st with
            | Some j => str_eqb j (py "Yes") | None => false end);
    cbn [goto]; auto.
Qed.

(** Every successor a node function names is a declared edge of the
    graph. *)
Lemma node_goto_edge (C : Collaborators) (k : nat) (n : node)
      (f : QueryState -> Command) (st : QueryState) :
  node_function C k n = Some f -> has_edge n (goto (f st)) = true.
Proof.
  destruct n; cbn [node_function]; intros E; try discriminate;
    injection E as <-; try reflexivity.
  - destruct (router1_goto st) as [-> | ->]; reflexivity.
  - destruct (router2_goto st) as [-> | ->]; reflexivity.
Qed.

Lemma step_node (C : Collaborators) (n : node) (st : QueryState) (k : nat)
      (f : QueryState -> Command) :
  node_function C k n = Some f ->
  step C (mkConfig n st k) =
  Next (mkConfig (goto (f st)) (after (f st) st)
                 (if calls_service n then S k else k)).
Proof.
  intros E. pose proof (node_goto_edge C k n f st E) as He.
  unfold step; cbn [cur state calls].
  destruct n; try (cbn [node_function] in E; discriminate);
    rewrite E, He; reflexivity.
Qed.

Lemma step_start (C : Collaborators) (st : QueryState) (k : nat) :
  step C (mkConfig n_START st k) = Next (mkConfig n_agent1 st k).
Proof. reflexivity. Qed.

Lemma step_end (C : Collaborators) (st : QueryState) (k : nat) :
  step C (mkConfig n_END st k) = Finished.
Proof. reflexivity. Qed.

Lemma node_function_defined (C : Collaborators) (k : nat) (n : node) :
  n <> n_START -> n <> n_END -> exists f, node_function C k n = Some f.
Proof.
  destruct n; intros H1 H2; try congruence; cbn [node_function]; eauto.
Qed.

(** A step from a node other than the terminal marker never fails. *)
Lemma step_total (C : Collaborators) (c : config) :
  cur c <> n_END -> exists c', step C c = Next c'.
Proof.
  destruct c as [n st k]; cbn [cur]; intros Hn.
  destruct (node_eqb n n_START) eqn:Es.
  - destruct n; try discriminate. rewrite step_start; eauto.
  - destruct (node_function_defined C k n) as [f Hf];
      [intros ->; discriminate | exact Hn |].
    rewrite (step_node C n st k f Hf); eauto.
Qed.

(** The shape of a step: either the entry edge, or the command of the
    current node's function. *)
Lemma step_inv (C : Collaborators) (c c' : config) :
  step C c = Next c' ->
  (cur c = n_START /\ cur c' = n_agent1 /\ state c' = state c
   /\ calls c' = calls c)
  \/ exists f, node_function C (calls c) (cur c) = Some f
               /\ cur c' = goto (f (state c))
               /\ state c' = after (f (state c)) (state c)
               /\ calls c' = if calls_service (cur c) then S (calls c)
                             else calls c.
Proof.
  destruct c as [n st k]; cbn [cur state calls]; intros H.
  destruct (node_eqb n n_START) eqn:Es.
  - destruct n; try discriminate. rewrite step_start in H.
    injection H as <-. left; auto.
  - destruct (node_eqb n n_END) eqn:Ee.
    + destruct n; try discriminate.
    + destruct (node_function_defined C k n) as [f Hf];
        [intros ->; discriminate | intros ->; discriminate |].
      rewrite (step_node C n st k f Hf) in H. injection H as <-.
      right; exists f; auto.
Qed.


(* ===================================================================== *)
(** ** 11. What each node does to the state *)
(* ===================================================================== *)

Ltac node_cases n E :=
  destruct n; cbn [node_function] in E; try discriminate E;
  injection E as <-.

Lemma router1_shape (st : QueryState) :
  exists d, router1 st = mkCommand (goto (router1 st)) (upd_debug d).
Proof.
  unfold router1.
  destruct (agent2_judgment st) as [j|];
    [destruct (str_eqb j (py "Yes"))|]; eexists; reflexivity.
Qed.

Lemma router2_shape (st : QueryState) :
  exists d, router2 st = mkCommand (goto (router2 st)) (upd_debug d).
Proof.
  unfold router2.
  destruct (match agent4_judgment st with
            | Some j => str_eqb j (py "Yes") | None => false end);
    eexists; reflexivity.
Qed.

(** The routers update the trace and nothing else. *)
Ltac open_router :=
  match goal with
  | |- context [router1 ?st] =>
    let d := fresh "d" in let E := fresh "E" in
    destruct (router1_shape st) as [d E]; rewrite E
  | |- context [router2 ?st] =>
    let d := fresh "d" in let E := fresh "E" in
    destruct (router2_shape st) as [d E]; rewrite E
  end.

Lemma node_query_prefix (C : Collaborators) (k : nat) (n : node)
      (f : QueryState -> Command) (st : QueryState) :
  node_function C k n = Some f ->
  is_prefix (query st) (query (after (f st) st)).
Proof.
  intros E; node_cases n E; try open_router;
    first [ apply is_prefix_refl | apply is_prefix_app ].
Qed.

Lemma node_agent2_judgment (C : Collaborators) (k : nat) (n : node)
      (f : QueryState -> Command) (st : QueryState) :
  node_function C k n = Some f ->
  agent2_judgment (after (f st) st) =
  if node_eqb n n_agent2
  then Some (normalize_judgment
               (agent2_graph C k (call_agent2_instructions st)))
  else agent2_judgment st.
Proof.
  intros E; node_cases n E; try open_router; reflexivity.
Qed.

Lemma node_agent4_judgment (C : Collaborators) (k : nat) (n : node)
      (f : QueryState -> Command) (st : QueryState) :
  node_function C k n = Some f ->
  agent4_judgment (after (f st) st) =
  if node_eqb n n_agent4
  then Some (normalize_judgment
               (agent4_graph C k (call_agent4_instructions st)))
  else agent4_judgment st.
Proof.
  intros E; node_cases n E; try open_router; reflexivity.
Qed.

(** The successor of every node but the routers is fixed. *)
Lemma node_goto_fixed (C : Collaborators) (k : nat) (n : node)
      (f : QueryState -> Command) (st : QueryState) :
  node_function C k n = Some f ->
  match n with
  | n_agent1 => goto (f st) = n_agent2
  | n_agent2 => goto (f st) = n_router1
  | n_agent3 => goto (f st) = n_prompt1
  | n_prompt1 => goto (f st) = n_agent4
  | n_agent4 => goto (f st) = n_router2
  | n_prompt2 => goto (f st) = n_agent2
  | n_router1 => goto (f st) = n_prompt1 \/ goto (f st) = n_agent3
  | n_router2 => goto (f st) = n_END \/ goto (f st) = n_prompt2
  | n_START | n_END => True
  end.
Proof.
  intros E; node_cases n E; try reflexivity.
  - apply router1_goto.
  - apply router2_goto.
Qed.

(** An invariant of single steps holds along a run. *)
Lemma exec_invariant (C : Collaborators) (P : config -> Prop) :
  (forall c c', P c -> step C c = Next c' -> P c') ->
  forall n c c', P c -> exec C n c = Some c' -> P c'.
Proof.
  intros Hstep; induction n as [|n IH]; intros c c' Hc E.
  - injection E as <-; exact Hc.
  - cbn [exec] in E. destruct (step C c) as [c1| |] eqn:S1; try discriminate.
    eapply IH; [eapply Hstep; eauto | exact E].
Qed.

(* ===================================================================== *)
(** ** 12. Verdicts (C1) *)
(* ===================================================================== *)

Lemma verdicts_ok_step (C : Collaborators) (c c' : config) :
  verdicts_ok c -> step C c = Next c' -> verdicts_ok c'.
Proof.
  intros (H2 & H4 & _ & _) S1.
  destruct (step_inv C c c' S1) as [(Hs & Hc & Hst & _)|(f & Hf & Hc & Hst & _)].
  - unfold verdicts_ok. rewrite Hst, Hc. repeat split; auto; discriminate.
  - pose proof (node_agent2_judgment C _ _ f (state c) Hf) as A2.
    pose proof (node_agent4_judgment C _ _ f (state c) Hf) as A4.
    pose proof (node_goto_fixed C _ _ f (state c) Hf) as G.
    unfold verdicts_ok. rewrite Hst, Hc, A2, A4.
    destruct (cur c); cbn [node_eqb] in *; try discriminate Hf;
      repeat split; auto;
      try (intros j [= <-]; apply normalize_judgment_is_verdict);
      try (rewrite G; discriminate);
      try (intros _; eexists; reflexivity);
      try (destruct G as [G|G]; rewrite G; discriminate).
Qed.

(** What [call_agent2] and [call_agent4] store, by the stripped answer. *)
Lemma normalize_judgment_by_stripped (content : pystr) :
  is_verdict (normalize_judgment content)
  /\ (strip content = py "Yes" -> normalize_judgment content = py "Yes")
  /\ (strip content = py "No" -> normalize_judgment content = py "No")
  /\ (strip content <> py "Yes" -> strip content <> py "No" ->
      normalize_judgment content = py "No").
Proof.
  split; [apply normalize_judgment_is_verdict|].
  destruct (normalize_judgment_cases content) as [[S E]|[S E]]; rewrite E.
  - split; [reflexivity|]. split; [|intros NY; contradiction].
    intros N. rewrite S in N. vm_compute in N. discriminate N.
  - split; [intros Y; contradiction|]. split; reflexivity.
Qed.

(** The claim C1 fails as it is stated: the answer Yes followed by a blank
    is neither the string Yes nor the string No, yet the Classify node and
    the Evaluate node both store Yes for it, not No. *)
Lemma padded_yes_is_stored_as_yes :
  let response := py "Yes " in
  let st := initial_state (py "q") in
  response <> py "Yes" /\ response <> py "No"
  /\ agent2_judgment (after (call_agent2 (fun _ => response) st) st)
     = Some (py "Yes")
  /\ agent2_judgment (after (call_agent2 (fun _ => response) st) st)
     <> Some (py "No")
  /\ agent4_judgment (after (call_agent4 (fun _ => response) st) st)
     = Some (py "Yes")
  /\ agent4_judgment (after (call_agent4 (fun _ => response) st) st)
     <> Some (py "No").
Proof.
  cbv zeta.
  split; [intros E; vm_compute in E; discriminate E|].
  split; [intros E; vm_compute in E; discriminate E|].
  split; [vm_compute; reflexivity|].
  split; [intros E; vm_compute in E; discriminate E|].
  split; [vm_compute; reflexivity|].
  intros E; vm_compute in E; discriminate E.
Qed.

(** C1, amended.  The verdict a judging node stores is Yes or No whatever
    the collaborator answers.  The answer is first stripped of the white
    space around it: a stripped answer that is Yes is stored as Yes, one
    that is No as No, and one that is neither is stored as No.  Along
    every run from a fresh state, a verdict that is set is Yes or No, and
    each router finds its verdict set. *)
Theorem verdicts_are_yes_or_no :
  (forall (invoke : pystr -> pystr) (st : QueryState),
      let answer := strip (invoke (call_agent2_instructions st)) in
      let v := agent2_judgment (after (call_agent2 invoke st) st) in
      (v = Some (py "Yes") \/ v = Some (py "No"))
      /\ (answer = py "Yes" -> v = Some (py "Yes"))
      /\ (answer = py "No" -> v = Some (py "No"))
      /\ (answer <> py "Yes" -> answer <> py "No" -> v = Some (py "No")))
  /\ (forall (invoke : pystr -> pystr) (st : QueryState),
      let answer := strip (invoke (call_agent4_instructions st)) in
      let v := agent4_judgment (after (call_agent4 invoke st) st) in
      (v = Some (py "Yes") \/ v = Some (py "No"))
      /\ (answer = py "Yes" -> v = Some (py "Yes"))
      /\ (answer = py "No" -> v = Some (py "No"))
      /\ (answer <> py "Yes" -> answer <> py "No" -> v = Some (py "No")))
  /\ (forall (C : Collaborators) (q : pystr) (n : nat) (c : config),
      exec C n (start (initial_state q)) = Some c -> verdicts_ok c).
Proof.
  split; [|split].
  - intros invoke st answer v. subst answer v.
    change (agent2_judgment (after (call_agent2 invoke st) st))
      with (Some (normalize_judgment (invoke (call_agent2_instructions st)))).
    destruct (normalize_judgment_by_stripped
                (invoke (call_agent2_instructions st)))
      as (V & HY & HN & HF).
    split; [destruct V as [-> | ->]; auto|].
    split; [intros E; f_equal; exact (HY E)|].
    split; [intros E; f_equal; exact (HN E)|].
    intros NY NN; f_equal; exact (HF NY NN).
  - intros invoke st answer v. subst answer v.
    change (agent4_judgment (after (call_agent4 invoke st) st))
      with (Some (normalize_judgment (invoke (call_agent4_instructions st)))).
    destruct (normalize_judgment_by_stripped
                (invoke (call_agent4_instructions st)))
      as (V & HY & HN & HF).
    split; [destruct V as [-> | ->]; auto|].
    split; [intros E; f_equal; exact (HY E)|].
    split; [intros E; f_equal; exact (HN E)|].
    intros NY NN; f_equal; exact (HF NY NN).
  - intros C q n c E.
    apply (exec_invariant C verdicts_ok (verdicts_ok_step C) n
                          (start (initial_state q)) c); [|exact E].
    repeat split; cbn; try discriminate.
Qed.


Lemma verdicts_are_yes_or_no_witness :
  agent2_judgment
    (after (call_agent2 (agent2_graph vague_collaborators 0)
                        (initial_state (py "q")))
           (initial_state (py "q"))) = Some (py "No")
  /\ agent2_judgment
       (after (call_agent2 (agent2_graph accepting_collaborators 0)
                           (initial_state (py "q")))
              (initial_state (py "q"))) = Some (py "Yes")
  /\ agent4_judgment
       (after (call_agent4 (agent4_graph rejecting_collaborators 0)
                           (initial_state (py "q")))
              (initial_state (py "q"))) = Some (py "No")
  /\ exists c,
       exec accepting_collaborators 6 (start (initial_state (py "q")))
       = Some c /\ verdicts_ok c.
Proof.
  split; [|split; [|split]].
  - apply (proj2 (proj2 (proj2 (proj1 verdicts_are_yes_or_no
                 (agent2_graph vague_collaborators 0)
                 (initial_state (py "q"))))));
      intros E; vm_compute in E; discriminate E.
  - apply (proj1 (proj2 (proj1 verdicts_are_yes_or_no
                 (agent2_graph accepting_collaborators 0)
                 (initial_state (py "q"))))).
    vm_compute; reflexivity.
  - apply (proj1 (proj2 (proj2 (proj1 (proj2 verdicts_are_yes_or_no)
                 (agent4_graph rejecting_collaborators 0)
                 (initial_state (py "q")))))).
    vm_compute; reflexivity.
  - eexists; split; [vm_compute; reflexivity|].
    apply (proj2 (proj2 verdicts_are_yes_or_no)
                 accepting_collaborators (py "q") 6%nat).
    vm_compute; reflexivity.
Defined.

(* ===================================================================== *)
(** ** 13. The routers (C2, C3) *)
(* ===================================================================== *)

(** C2. [router1] goes to prompt1 when the classification verdict is Yes
    and to agent3 when it is No, unset or anything but Yes, so that it
    always goes to one of the two; the successor depends on the verdict alone; it
    changes the trace and nothing else of the state. *)
Theorem router1_routes_by_classification :
  forall st : QueryState,
    (agent2_judgment st = Some (py "Yes") -> goto (router1 st) = n_prompt1)
    /\ (agent2_judgment st = Some (py "No") -> goto (router1 st) = n_agent3)
    /\ (agent2_judgment st = None -> goto (router1 st) = n_agent3)
    /\ (agent2_judgment st <> Some (py "Yes") -> goto (router1 st) = n_agent3)
    /\ (goto (router1 st) = n_prompt1 \/ goto (router1 st) = n_agent3)
    /\ (forall st' : QueryState,
           agent2_judgment st' = agent2_judgment st ->
           goto (router1 st') = goto (router1 st))
    /\ (query (after (router1 st) st) = query st
        /\ agent2_judgment (after (router1 st) st) = agent2_judgment st
        /\ agent4_judgment (after (router1 st) st) = agent4_judgment st).
Proof.
  intros st. repeat split.
  - intros E. unfold router1. rewrite E. reflexivity.
  - intros E. unfold router1. rewrite E. reflexivity.
  - intros E. unfold router1. rewrite E. reflexivity.
  - intros NE. unfold router1.
    destruct (agent2_judgment st) as [j|]; [|reflexivity].
    destruct (str_eqb j (py "Yes")) eqn:Ej; [|reflexivity].
    apply str_eqb_eq in Ej. subst j. contradiction NE; reflexivity.
  - apply router1_goto.
  - intros st' E. unfold router1. rewrite E.
    destruct (agent2_judgment st) as [j|];
      [destruct (str_eqb j (py "Yes"))|]; reflexivity.
  - open_router; reflexivity.
  - open_router; reflexivity.
  - open_router; reflexivity.
Qed.

Lemma router1_routes_by_classification_witness :
  goto (router1 (mkState (py "q") (Some (py "Yes")) None [])) = n_prompt1
  /\ goto (router1 (mkState (py "q") (Some (py "No")) None [])) = n_agent3
  /\ goto (router1 (initial_state (py "q"))) = n_agent3
  /\ goto (router1 (mkState (py "other") (Some (py "Yes")) (Some (py "No")) []))
     = goto (router1 (mkState (py "q") (Some (py "Yes")) None [])).
Proof.
  split; [|split; [|split]].
  - apply (router1_routes_by_classification
             (mkState (py "q") (Some (py "Yes")) None [])). reflexivity.
  - apply (router1_routes_by_classification
             (mkState (py "q") (Some (py "No")) None [])). reflexivity.
  - apply (router1_routes_by_classification (initial_state (py "q"))).
    reflexivity.
  - apply (router1_routes_by_classification
             (mkState (py "q") (Some (py "Yes")) None [])). reflexivity.
Defined.

(** C3. [router2] goes to the terminal marker when the evaluation verdict
    is Yes and to prompt2 when it is No, unset or anything but Yes, so
    that it always goes to one of the two; the successor depends on the
    verdict alone; it changes the trace and nothing else of the state. *)
Theorem router2_routes_by_evaluation :
  forall st : QueryState,
    (agent4_judgment st = Some (py "Yes") -> goto (router2 st) = n_END)
    /\ (agent4_judgment st = Some (py "No") -> goto (router2 st) = n_prompt2)
    /\ (agent4_judgment st = None -> goto (router2 st) = n_prompt2)
    /\ (agent4_judgment st <> Some (py "Yes") -> goto (router2 st) = n_prompt2)
    /\ (goto (router2 st) = n_END \/ goto (router2 st) = n_prompt2)
    /\ (forall st' : QueryState,
           agent4_judgment st' = agent4_judgment st ->
           goto (router2 st') = goto (router2 st))
    /\ (query (after (router2 st) st) = query st
        /\ agent2_judgment (after (router2 st) st) = agent2_judgment st
        /\ agent4_judgment (after (router2 st) st) = agent4_judgment st).
Proof.
  intros st. repeat split.
  - intros E. unfold router2. rewrite E. reflexivity.
  - intros E. unfold router2. rewrite E. reflexivity.
  - intros E. unfold router2. rewrite E. reflexivity.
  - intros NE. unfold router2.
    destruct (agent4_judgment st) as [j|]; [|reflexivity].
    destruct (str_eqb j (py "Yes")) eqn:Ej; [|reflexivity].
    apply str_eqb_eq in Ej. subst j. contradiction NE; reflexivity.
  - apply router2_goto.
  - intros st' E. unfold router2. rewrite E.
    destruct (match agent4_judgment st with
              | Some j => str_eqb j (py "Yes") | None => false end);
      reflexivity.
  - open_router; reflexivity.
  - open_router; reflexivity.
  - open_router; reflexivity.
Qed.

Lemma router2_routes_by_evaluation_witness :
  goto (router2 (mkState (py "q") None (Some (py "Yes")) [])) = n_END
  /\ goto (router2 (mkState (py "q") None (Some (py "No")) [])) = n_prompt2
  /\ goto (router2 (initial_state (py "q"))) = n_prompt2
  /\ goto (router2 (mkState (py "other") (Some (py "No")) (Some (py "Yes")) []))
     = goto (router2 (mkState (py "q") None (Some (py "Yes")) [])).
Proof.
  split; [|split; [|split]].
  - apply (router2_routes_by_evaluation
             (mkState (py "q") None (Some (py "Yes")) [])). reflexivity.
  - apply (router2_routes_by_evaluation
             (mkState (py "q") None (Some (py "No")) [])). reflexivity.
  - apply (router2_routes_by_evaluation (initial_state (py "q"))).
    reflexivity.
  - apply (router2_routes_by_evaluation
             (mkState (py "q") None (Some (py "Yes")) [])). reflexivity.
Defined.

(* ===================================================================== *)
(** ** 14. The query buffer (C4) *)
(* ===================================================================== *)

Lemma step_query_prefix (C : Collaborators) (c c' : config) :
  step C c = Next c' -> is_prefix (query (state c)) (query (state c')).
Proof.
  intros S1.
  destruct (step_inv C c c' S1) as [(_ & _ & Hst & _)|(f & Hf & _ & Hst & _)];
    rewrite Hst.
  - apply is_prefix_refl.
  - eapply node_query_prefix; eauto.
Qed.

(** Any number of steps leaves the query it started from as a prefix. *)
Lemma exec_query_prefix (C : Collaborators) (n : nat) (c c' : config) :
  exec C n c = Some c' ->
  is_prefix (query (state c)) (query (state c')).
Proof.
  intros E.
  apply (exec_invariant C
           (fun x => is_prefix (query (state c)) (query (state x))))
    with (n := n) (c := c); [|apply is_prefix_refl|exact E].
  intros x x' Hx Sx. eapply is_prefix_trans; [exact Hx|].
  eapply step_query_prefix; eauto.
Qed.

(** C4. Every node function registered in the graph leaves the query it
    was given as a prefix of the query it stores, and so does any number
    of steps of a run from any configuration: the buffer only grows at its
    end and its length never decreases. *)
Theorem query_is_append_only :
  (forall (C : Collaborators) (k : nat) (n : node)
          (f : QueryState -> Command) (st : QueryState),
      node_function C k n = Some f ->
      is_prefix (query st) (query (after (f st) st)))
  /\ (forall (C : Collaborators) (n : nat) (c c' : config),
      exec C n c = Some c' ->
      is_prefix (query (state c)) (query (state c'))
      /\ (List.length (query (state c))
          <= List.length (query (state c')))%nat).
Proof.
  split.
  - apply node_query_prefix.
  - intros C n c c' E.
    pose proof (exec_query_prefix C n c c' E) as P.
    split; [exact P | apply is_prefix_length; exact P].
Qed.

Lemma query_is_append_only_witness :
  is_prefix (py "q")
            (query (after (prompt2 (llm rejecting_collaborators 0)
                                   (initial_state (py "q")))
                          (initial_state (py "q"))))
  /\ exists c',
       exec rejecting_collaborators 12 (start (initial_state (py "q")))
       = Some c'
       /\ is_prefix (py "q") (query (state c'))
       /\ (1 <= List.length (query (state c')))%nat.
Proof.
  split.
  - apply (proj1 query_is_append_only rejecting_collaborators 0%nat
                 n_prompt2 (prompt2 (llm rejecting_collaborators 0))
                 (initial_state (py "q"))).
    reflexivity.
  - eexists; split; [vm_compute; reflexivity|].
    apply (proj2 query_is_append_only rejecting_collaborators 12%nat
                 (start (initial_state (py "q")))).
    vm_compute; reflexivity.
Defined.


(* ===================================================================== *)
(** ** 15. A collaborator that always rejects (C7) *)
(* ===================================================================== *)

Section Rejecting.

Variable C : Collaborators.
Hypothesis always_no : forall k p, agent4_graph C k p = py "No".

Lemma router2_after_no (st : QueryState) :
  agent4_judgment st = Some (py "No") -> goto (router2 st) = n_prompt2.
Proof. intros E. unfold router2. rewrite E. reflexivity. Qed.

Lemma rejected_step (c c' : config) :
  rejected c -> step C c = Next c' ->
  rejected c'
  /\ (cur c <> n_prompt2 -> (to_prompt2 (cur c') < to_prompt2 (cur c))%nat)
  /\ (cur c = n_prompt2 -> cur c' = n_agent2).
Proof.
  intros [Hne Hr] S1.
  destruct (step_inv C c c' S1)
    as [(Hs & Hc & Hst & _)|(f & Hf & Hc & Hst & _)].
  - unfold rejected. rewrite Hc, Hs. cbn [to_prompt2].
    repeat split; try discriminate. lia.
  - pose proof (node_agent4_judgment C _ _ f (state c) Hf) as A4.
    pose proof (node_goto_fixed C _ _ f (state c) Hf) as G.
    unfold rejected. rewrite Hst, Hc, A4. rewrite always_no.
    destruct (cur c); cbn [node_eqb to_prompt2] in *;
      try discriminate Hf; try congruence;
      try (rewrite G; cbn [to_prompt2];
           repeat split; try discriminate; try reflexivity; try lia;
           intros; congruence).
    + (* router1 *)
      destruct G as [G|G]; rewrite G; cbn [to_prompt2];
        repeat split; try discriminate; lia.
    + (* router2 *)
      assert (G2 : goto (f (state c)) = n_prompt2).
      { cbn [node_function] in Hf. injection Hf as <-.
        apply router2_after_no. apply Hr. reflexivity. }
      rewrite G2; cbn [to_prompt2].
      repeat split; try discriminate; lia.
Qed.

Lemma rejected_start (st : QueryState) : rejected (start st).
Proof. split; cbn; discriminate. Qed.

(** A run never stops: after any number of steps there is a
    configuration, and it is not the terminal one. *)
Lemma rejected_exec (n : nat) (c : config) :
  rejected c -> exists c', exec C n c = Some c' /\ rejected c'.
Proof.
  revert c; induction n as [|n IH]; intros c Hc.
  - exists c; split; [reflexivity | exact Hc].
  - destruct (step_total C c (proj1 Hc)) as [c1 S1].
    destruct (rejected_step c c1 Hc S1) as (Hc1 & _ & _).
    destruct (IH c1 Hc1) as (c' & E & Hc').
    exists c'; split; [cbn [exec]; rewrite S1; exact E | exact Hc'].
Qed.

Lemma rejected_run (fuel : nat) (c : config) :
  rejected c -> run C fuel c = None.
Proof.
  revert c; induction fuel as [|fuel IH]; intros c Hc;
    destruct (step_total C c (proj1 Hc)) as [c1 S1];
    cbn [run]; rewrite S1; [reflexivity|].
  apply IH. apply (rejected_step c c1 Hc S1).
Qed.

(** From any configuration of such a run, prompt2 comes within
    [to_prompt2] steps. *)
Lemma rejected_reaches_prompt2 (m : nat) (c : config) :
  rejected c -> (to_prompt2 (cur c) <= m)%nat ->
  exists d c', exec C d c = Some c' /\ rejected c' /\ cur c' = n_prompt2.
Proof.
  revert c; induction m as [|m IH]; intros c Hc Hm.
  - exists 0%nat, c; repeat split; try apply Hc.
    destruct Hc as [Hne _].
    destruct (cur c); cbn [to_prompt2] in Hm; try lia; congruence.
  - destruct (node_eqb (cur c) n_prompt2) eqn:Ep.
    + exists 0%nat, c; repeat split; try apply Hc.
      destruct (cur c); try discriminate; reflexivity.
    + destruct (step_total C c (proj1 Hc)) as [c1 S1].
      destruct (rejected_step c c1 Hc S1) as (Hc1 & Hlt & _).
      assert (Hnp : cur c <> n_prompt2)
        by (intros E; rewrite E in Ep; discriminate).
      specialize (Hlt Hnp).
      destruct (IH c1 Hc1 ltac:(lia)) as (d & c' & E & Hc' & Hp).
      exists (S d), c'; repeat split; try apply Hc'; [|exact Hp].
      cbn [exec]; rewrite S1; exact E.
Qed.

End Rejecting.

(** C7. With an evaluation collaborator that answers No to every call, a
    run from any state has a configuration after any number [n] of steps,
    none of them at the terminal marker, so that no amount of fuel lets
    the run finish; and after step [n] the run is again at prompt2 and
    goes from there to agent2. *)
Theorem rejecting_evaluator_runs_forever :
  forall C : Collaborators,
    (forall k p, agent4_graph C k p = py "No") ->
    forall (st : QueryState) (n : nat),
      (exists c, exec C n (start st) = Some c /\ cur c <> n_END)
      /\ graph_run C n st = None
      /\ (exists m c1 c2,
             (n < m)%nat
             /\ exec C m (start st) = Some c1 /\ cur c1 = n_prompt2
             /\ exec C (S m) (start st) = Some c2 /\ cur c2 = n_agent2).
Proof.
  intros C HC st n. split; [|split].
  - destruct (rejected_exec C HC n (start st) (rejected_start st))
      as (c & E & Hc & _).
    exists c; auto.
  - apply (rejected_run C HC). apply rejected_start.
  - destruct (rejected_exec C HC (S n) (start st) (rejected_start st))
      as (c & E & Hc).
    destruct (rejected_reaches_prompt2 C HC _ c Hc (Nat.le_refl _))
      as (d & c1 & E1 & Hc1 & Hp).
    destruct (step_total C c1 (proj1 Hc1)) as [c2 S2].
    destruct (rejected_step C HC c1 c2 Hc1 S2) as (_ & _ & Ha).
    assert (Em : exec C (S n + d) (start st) = Some c1)
      by (rewrite exec_add, E; exact E1).
    exists (S n + d)%nat, c1, c2. repeat split; auto; [lia|].
    rewrite exec_S_last, Em. cbn [exec]. rewrite S2. reflexivity.
Qed.

Lemma rejecting_evaluator_runs_forever_witness :
  graph_run rejecting_collaborators 50 (initial_state (py "q")) = None
  /\ exists c,
       exec rejecting_collaborators 50 (start (initial_state (py "q")))
       = Some c /\ cur c <> n_END.
Proof.
  assert (H : forall k p, agent4_graph rejecting_collaborators k p = py "No")
    by (intros k p; reflexivity).
  split.
  - apply (rejecting_evaluator_runs_forever rejecting_collaborators H
             (initial_state (py "q")) 50%nat).
  - apply (rejecting_evaluator_runs_forever rejecting_collaborators H
             (initial_state (py "q")) 50%nat).
Defined.

(* ===================================================================== *)
(** ** 16. Runs on the same responses *)
(* ===================================================================== *)

(** More fuel does not change the result of a run that finishes. *)
Lemma run_more_fuel (C : Collaborators) (fuel extra : nat) (c : config)
      (s : QueryState) :
  run C fuel c = Some s -> run C (fuel + extra) c = Some s.
Proof.
  revert c; induction fuel as [|fuel IH]; intros c; cbn [run Nat.add].
  - destruct (step C c) eqn:S1; try discriminate.
    intros E. destruct extra; cbn [run]; rewrite S1; exact E.
  - destruct (step C c) eqn:S1; try discriminate; auto.
Qed.

Lemma run_deterministic (C : Collaborators) (f1 f2 : nat) (c : config)
      (s1 s2 : QueryState) :
  run C f1 c = Some s1 -> run C f2 c = Some s2 -> s1 = s2.
Proof.
  intros E1 E2.
  apply (run_more_fuel C f1 f2) in E1.
  apply (run_more_fuel C f2 f1) in E2.
  rewrite Nat.add_comm in E2. congruence.
Qed.

(** A run that finishes within [fuel] steps ends at the terminal marker
    with the state it returns. *)
Lemma run_reaches_end (C : Collaborators) (fuel : nat) (c : config)
      (s : QueryState) :
  run C fuel c = Some s ->
  exists n c', (n <= fuel)%nat /\ exec C n c = Some c'
               /\ cur c' = n_END /\ state c' = s.
Proof.
  revert c; induction fuel as [|fuel IH]; intros c; cbn [run].
  - destruct (step C c) eqn:S1; try discriminate.
    intros [= <-]. exists 0%nat, c; repeat split; auto.
    destruct (node_eqb (cur c) n_END) eqn:Ee;
      [destruct (cur c); try discriminate; reflexivity|].
    destruct (step_total C c) as [c1 S2];
      [intros E; rewrite E in Ee; discriminate | congruence].
  - destruct (step C c) as [c1| |] eqn:S1; try discriminate.
    + intros E. destruct (IH c1 E) as (n & c' & Hn & En & He & Hs).
      exists (S n), c'; repeat split; auto; [lia|].
      cbn [exec]; rewrite S1; exact En.
    + intros [= <-]. exists 0%nat, c; repeat split; auto; [lia|].
      destruct (node_eqb (cur c) n_END) eqn:Ee;
        [destruct (cur c); try discriminate; reflexivity|].
      destruct (step_total C c) as [c2 S2];
        [intros E; rewrite E in Ee; discriminate | congruence].
Qed.


(* ===================================================================== *)
(** ** 17. The clean-up fragment (C9) *)
(* ===================================================================== *)

(** C9. [preprocess] indexes its text without checking that it is not
    empty.  On the empty string every substitution leaves the text empty
    and [text[-1]] is out of range; on a string of one space, or one whose
    content the substitutions turn into one space, such as a bracketed
    word, the trailing space is removed and [text[0]] is out of range.  In
    each case the function fails and returns no string. *)
Theorem preprocess_index_out_of_range :
  forall (unicode_alnum : N -> bool) (unicode_lower : pystr -> pystr),
    preprocess unicode_alnum unicode_lower (PyStr [])
    = IndexError text_last
    /\ preprocess unicode_alnum unicode_lower (PyStr (py " "))
       = IndexError text_first
    /\ preprocess unicode_alnum unicode_lower (PyStr (py "(a)"))
       = IndexError text_first
    /\ (exists s site,
           preprocess unicode_alnum unicode_lower (PyStr s)
           = IndexError site
           /\ forall r,
               preprocess unicode_alnum unicode_lower (PyStr s)
               <> Returned r).
Proof.
  intros ua ul.
  assert (E : preprocess ua ul (PyStr (py "(a)")) = IndexError text_first)
    by (vm_compute; reflexivity).
  split; [vm_compute; reflexivity|].
  split; [vm_compute; reflexivity|].
  split; [exact E|].
  exists (py "(a)"), text_first. split; [exact E|].
  intros r; rewrite E; discriminate.
Qed.

(* ===================================================================== *)
(** ** 18. Reading back what [json.dumps] wrote *)
(* ===================================================================== *)

Module JsonFacts.
Import Json.

Lemma below_cases (P : N -> Prop) (n : nat) :
  (forall i, (i < n)%nat -> P (N.of_nat i)) ->
  forall d, d < N.of_nat n -> P d.
Proof.
  intros H d Hd. rewrite <- (N2Nat.id d). apply H. lia.
Qed.

Lemma unhex_hexdigit (d : N) : d < 16 -> unhex (hexdigit d) = Some d.
Proof.
  revert d. apply (below_cases (fun d => unhex (hexdigit d) = Some d) 16).
  intros i Hi.
  do 16 (destruct i as [|i]; [reflexivity|]). lia.
Qed.

Lemma decode_format_04x (n : N) :
  n < 65536 ->
  decode_uXXXX (hexdigit (n / 4096)) (hexdigit ((n / 256) mod 16))
               (hexdigit ((n / 16) mod 16)) (hexdigit (n mod 16))
  = Some n.
Proof.
  intros Hn. unfold decode_uXXXX.
  assert (E2 : n / 256 = n / 16 / 16)
    by (rewrite N.Div0.div_div; reflexivity).
  assert (E3 : n / 4096 = n / 16 / 16 / 16)
    by (rewrite !N.Div0.div_div; reflexivity).
  rewrite E2, E3.
  pose proof (N.Div0.div_mod n 16) as D1.
  pose proof (N.Div0.div_mod (n / 16) 16) as D2.
  pose proof (N.Div0.div_mod (n / 16 / 16) 16) as D3.
  pose proof (N.mod_lt n 16 ltac:(discriminate)) as M1.
  pose proof (N.mod_lt (n / 16) 16 ltac:(discriminate)) as M2.
  pose proof (N.mod_lt (n / 16 / 16) 16 ltac:(discriminate)) as M3.
  clear E2 E3.
  generalize dependent (n / 16 / 16 / 16); intros a3.
  generalize dependent ((n / 16 / 16) mod 16); intros d2.
  generalize dependent (n / 16 / 16); intros a2.
  generalize dependent ((n / 16) mod 16); intros d1.
  generalize dependent (n / 16); intros a1.
  generalize dependent (n mod 16); intros d0.
  intros. rewrite !unhex_hexdigit by lia.
  f_equal. lia.
Qed.

(** Bits below 1024 and multiples of 1024 do not meet. *)
Lemma lor_high_low (a b : N) : b < 1024 -> N.lor (a * 1024) b = a * 1024 + b.
Proof.
  intros Hb.
  assert (D : N.land (a * 1024) b = 0).
  { rewrite <- (N.mod_small b 1024) by exact Hb.
    change 1024 with (2 ^ 10).
    rewrite <- (N.land_ones b 10), (N.land_comm b), N.land_assoc,
      N.land_ones, N.Div0.mod_mul. apply N.land_0_l. }
  rewrite <- N.lxor_lor by exact D.
  symmetry. apply N.add_nocarry_lxor. exact D.
Qed.

Lemma land_1023 (x : N) : N.land x 1023 = x mod 1024.
Proof. change 1023 with (N.ones 10). apply N.land_ones. Qed.

Lemma high_half (n : N) :
  let s1 := N.lor 55296 (N.land (N.shiftr n 10) 1023) in
  s1 = 55296 + (n / 1024) mod 1024.
Proof.
  cbv zeta. rewrite land_1023, N.shiftr_div_pow2.
  change 55296 with (54 * 1024). change (2 ^ 10) with 1024.
  apply lor_high_low. apply N.mod_lt; discriminate.
Qed.

Lemma low_half (n : N) :
  let s2 := N.lor 56320 (N.land n 1023) in
  s2 = 56320 + n mod 1024.
Proof.
  cbv zeta. rewrite land_1023.
  change 56320 with (55 * 1024).
  apply lor_high_low. apply N.mod_lt; discriminate.
Qed.

Lemma join_surrogates_value (hi lo : N) :
  join_surrogates hi lo = (hi mod 1024) * 1024 + lo mod 1024 + 65536.
Proof.
  unfold join_surrogates.
  rewrite !land_1023, N.shiftl_mul_pow2. change (2 ^ 10) with 1024.
  rewrite lor_high_low by (apply N.mod_lt; discriminate). reflexivity.
Qed.

Lemma mod_1024_add (k a : N) : a < 1024 -> (k * 1024 + a) mod 1024 = a.
Proof.
  intros Ha. rewrite N.add_comm, N.Div0.mod_add. apply N.mod_small, Ha.
Qed.

(** A character below 0x110000 comes back as itself. *)
Lemma rejoin_id (c : N) : c < 1114112 -> rejoin c = c.
Proof.
  intros Hc. unfold rejoin.
  destruct (c <? 65536) eqn:E; [reflexivity|].
  apply N.ltb_ge in E.
  rewrite join_surrogates_value, high_half, low_half.
  assert (Hv : c - 65536 < 1048576) by lia.
  assert (Hc' : c = (c - 65536) + 65536) by lia.
  revert Hv Hc'. generalize (c - 65536); intros v Hv ->.
  pose proof (N.Div0.div_mod v 1024) as D.
  pose proof (N.mod_lt v 1024 ltac:(discriminate)) as M.
  assert (Q : v / 1024 < 1024)
    by (apply N.Div0.div_lt_upper_bound; exact Hv).
  rewrite (N.mod_small (v / 1024) 1024) by exact Q.
  change 55296 with (54 * 1024). change 56320 with (55 * 1024).
  rewrite !mod_1024_add by assumption.
  revert D M Q. generalize (v / 1024) (v mod 1024). intros a b D M Q.
  lia.
Qed.

(** The two escapes written for a character beyond the basic plane
    are a high and a low surrogate. *)
Lemma halves_are_surrogates (n : N) :
  let s1 := N.lor 55296 (N.land (N.shiftr n 10) 1023) in
  let s2 := N.lor 56320 (N.land n 1023) in
  is_high_surrogate s1 = true /\ is_low_surrogate s2 = true
  /\ s1 < 65536 /\ s2 < 65536.
Proof.
  cbv zeta. rewrite high_half, low_half.
  pose proof (N.mod_lt (n / 1024) 1024 ltac:(discriminate)) as M1.
  pose proof (N.mod_lt n 1024 ltac:(discriminate)) as M2.
  revert M1 M2. generalize ((n / 1024) mod 1024) (n mod 1024).
  intros a b M1 M2. unfold is_high_surrogate, is_low_surrogate.
  repeat split; try lia;
    apply andb_true_iff; split; apply N.leb_le; lia.
Qed.

(** *** Scanning one escape *)

Lemma scan_plain (c : N) (X : pystr) :
  (c =? 34) = false -> (c =? 92) = false -> (c <=? 31) = false ->
  scanstring (c :: X) = cons_char c (scanstring X).
Proof.
  intros H1 H2 H3. cbn [scanstring]. rewrite H1, H2, H3. reflexivity.
Qed.

Lemma scan_u (h1 h2 h3 h4 u : N) (X : pystr) :
  decode_uXXXX h1 h2 h3 h4 = Some u ->
  scanstring (92 :: 117 :: h1 :: h2 :: h3 :: h4 :: X) =
  if is_high_surrogate u then
    match X with
    | b :: e' :: g1 :: g2 :: g3 :: g4 :: s12 =>
      if (b =? 92) && (e' =? 117) then
        match decode_uXXXX g1 g2 g3 g4 with
        | None => None
        | Some u2 =>
          if is_low_surrogate u2
          then cons_char (join_surrogates u u2) (scanstring s12)
          else cons_char u (scanstring X)
        end
      else cons_char u (scanstring X)
    | _ => cons_char u (scanstring X)
    end
  else cons_char u (scanstring X).
Proof.
  intros E. cbn [scanstring].
  change (92 =? 34) with false. change (92 =? 92) with true.
  change (117 =? 117) with true. cbv iota. rewrite E. reflexivity.
Qed.

Lemma scan_u_other (h1 h2 h3 h4 u : N) (X : pystr) :
  decode_uXXXX h1 h2 h3 h4 = Some u -> is_high_surrogate u = false ->
  scanstring (92 :: 117 :: h1 :: h2 :: h3 :: h4 :: X)
  = cons_char u (scanstring X).
Proof. intros E H. rewrite (scan_u _ _ _ _ u X E), H. reflexivity. Qed.

Lemma scan_u_pair (h1 h2 h3 h4 g1 g2 g3 g4 u u2 : N) (Y : pystr) :
  decode_uXXXX h1 h2 h3 h4 = Some u -> is_high_surrogate u = true ->
  decode_uXXXX g1 g2 g3 g4 = Some u2 -> is_low_surrogate u2 = true ->
  scanstring (92 :: 117 :: h1 :: h2 :: h3 :: h4
              :: 92 :: 117 :: g1 :: g2 :: g3 :: g4 :: Y)
  = cons_char (join_surrogates u u2) (scanstring Y).
Proof.
  intros E H E2 H2. rewrite (scan_u _ _ _ _ u _ E), H.
  change (92 =? 92) with true. change (117 =? 117) with true.
  cbn [andb]. rewrite E2, H2. reflexivity.
Qed.

Lemma scan_u_lone (h1 h2 h3 h4 u : N) (X : pystr) :
  decode_uXXXX h1 h2 h3 h4 = Some u -> not_low_escape X ->
  scanstring (92 :: 117 :: h1 :: h2 :: h3 :: h4 :: X)
  = cons_char u (scanstring X).
Proof.
  intros E HX. rewrite (scan_u _ _ _ _ u X E).
  destruct (is_high_surrogate u); [|reflexivity].
  destruct X as [|b [|e' [|g1 [|g2 [|g3 [|g4 s12]]]]]]; try reflexivity.
  destruct (b =? 92) eqn:Eb; [|reflexivity].
  destruct (e' =? 117) eqn:Ee; [|reflexivity].
  apply N.eqb_eq in Eb, Ee. subst b e'.
  destruct (HX g1 g2 g3 g4 s12 eq_refl) as (u2 & -> & ->). reflexivity.
Qed.

Lemma rejoin_small (c : N) : c < 65536 -> rejoin c = c.
Proof. intros H. unfold rejoin. replace (c <? 65536) with true by lia.
       reflexivity. Qed.

Lemma escape_surrogate (c : N) :
  55296 <= c <= 57343 -> escape_char c = 92 :: 117 :: format_04x c.
Proof.
  intros H. unfold escape_char.
  replace (c =? 92) with false by lia. replace (c =? 34) with false by lia.
  replace (c =? 8) with false by lia. replace (c =? 12) with false by lia.
  replace (c =? 10) with false by lia. replace (c =? 13) with false by lia.
  replace (c =? 9) with false by lia.
  replace ((32 <=? c) && (c <=? 126)) with false by lia.
  replace (c <? 65536) with true by lia. reflexivity.
Qed.

(** What one character's escape reads back as, a high surrogate
    apart. *)
Lemma scan_escape_other (c : N) (X : pystr) :
  is_high_surrogate c = false ->
  scanstring (escape_char c ++ X) = cons_char (rejoin c) (scanstring X).
Proof.
  intros Hh. unfold escape_char.
  destruct (c =? 92) eqn:E1;
    [replace c with 92 by lia; reflexivity|].
  destruct (c =? 34) eqn:E2;
    [replace c with 34 by lia; reflexivity|].
  destruct (c =? 8) eqn:E3;
    [replace c with 8 by lia; reflexivity|].
  destruct (c =? 12) eqn:E4;
    [replace c with 12 by lia; reflexivity|].
  destruct (c =? 10) eqn:E5;
    [replace c with 10 by lia; reflexivity|].
  destruct (c =? 13) eqn:E6;
    [replace c with 13 by lia; reflexivity|].
  destruct (c =? 9) eqn:E7;
    [replace c with 9 by lia; reflexivity|].
  destruct ((32 <=? c) && (c <=? 126)) eqn:E8.
  - cbn [app]. rewrite scan_plain by lia.
    rewrite rejoin_small by lia. reflexivity.
  - destruct (c <? 65536) eqn:E9.
    + unfold format_04x; cbn [app].
      rewrite (scan_u_other _ _ _ _ c X) by
          (try apply decode_format_04x; try exact Hh; lia).
      rewrite rejoin_small by lia. reflexivity.
    + destruct (halves_are_surrogates (c - 65536)) as (H1 & H2 & B1 & B2).
      cbv zeta. unfold format_04x; cbn [app].
      rewrite (scan_u_pair _ _ _ _ _ _ _ _ _ _ X
                 (decode_format_04x _ B1) H1
                 (decode_format_04x _ B2) H2).
      unfold rejoin. rewrite E9. reflexivity.
Qed.

Lemma high_not_low (u : N) :
  is_high_surrogate u = true -> is_low_surrogate u = false.
Proof. unfold is_high_surrogate, is_low_surrogate. lia. Qed.

Lemma not_low_escape_quote (X : pystr) : not_low_escape (34 :: X).
Proof. intros g1 g2 g3 g4 Y E. discriminate E. Qed.

Lemma not_low_escape_char (c : N) (X : pystr) :
  is_low_surrogate c = false -> not_low_escape (escape_char c ++ X).
Proof.
  intros Hl g1 g2 g3 g4 Y. unfold escape_char.
  destruct (c =? 92) eqn:E1; [intros E; discriminate E|].
  destruct (c =? 34) eqn:E2; [intros E; discriminate E|].
  destruct (c =? 8) eqn:E3; [intros E; discriminate E|].
  destruct (c =? 12) eqn:E4; [intros E; discriminate E|].
  destruct (c =? 10) eqn:E5; [intros E; discriminate E|].
  destruct (c =? 13) eqn:E6; [intros E; discriminate E|].
  destruct (c =? 9) eqn:E7; [intros E; discriminate E|].
  destruct ((32 <=? c) && (c <=? 126)) eqn:E8.
  - cbn [app]. intros E. injection E as Ec _. lia.
  - destruct (c <? 65536) eqn:E9.
    + unfold format_04x; cbn [app]. intros E.
      injection E as <- <- <- <- _.
      exists c; split; [apply decode_format_04x; lia | exact Hl].
    + destruct (halves_are_surrogates (c - 65536)) as (H1 & _ & B1 & _).
      cbv zeta in *. revert H1 B1.
      generalize (N.lor 55296 (N.land (N.shiftr (c - 65536) 10) 1023)).
      generalize (N.lor 56320 (N.land (c - 65536) 1023)).
      intros s2 s1 H1 B1.
      unfold format_04x; cbn [app]. intros E.
      injection E as <- <- <- <- _.
      exists s1; split; [apply decode_format_04x; exact B1|].
      apply high_not_low, H1.
Qed.

(** *** Scanning a whole string *)

Lemma encode_chars_cons (c : N) (t : pystr) :
  encode_chars (c :: t) = escape_char c ++ encode_chars t.
Proof. reflexivity. Qed.

Lemma read_back_pair (c c2 : N) (t2 : pystr) :
  is_high_surrogate c = true -> is_low_surrogate c2 = true ->
  read_back (c :: c2 :: t2) = join_surrogates c c2 :: read_back t2.
Proof.
  intros H1 H2.
  change (read_back (c :: c2 :: t2))
    with (if is_high_surrogate c && is_low_surrogate c2
          then join_surrogates c c2 :: read_back t2
          else rejoin c :: read_back (c2 :: t2)).
  rewrite H1, H2. reflexivity.
Qed.

Lemma read_back_single (c : N) (t : pystr) :
  is_high_surrogate c = false
  \/ match t with [] => True | c2 :: _ => is_low_surrogate c2 = false end ->
  read_back (c :: t) = rejoin c :: read_back t.
Proof.
  intros H. destruct t as [|c2 t2]; [reflexivity|].
  change (read_back (c :: c2 :: t2))
    with (if is_high_surrogate c && is_low_surrogate c2
          then join_surrogates c c2 :: read_back t2
          else rejoin c :: read_back (c2 :: t2)).
  destruct H as [-> | ->]; [reflexivity | rewrite andb_false_r; reflexivity].
Qed.

(** [scanstring] reads the text of an encoded string up to its closing
    quote, whatever the string is. *)
Lemma scan_encoded_upto (n : nat) (q rest : pystr) :
  (List.length q <= n)%nat ->
  scanstring (encode_chars q ++ 34 :: rest) = Some (read_back q, rest).
Proof.
  revert q rest; induction n as [|n IH]; intros q rest Hq.
  - destruct q; [reflexivity | cbn [List.length] in Hq; lia].
  - destruct q as [|c t]; [reflexivity|]. cbn [List.length] in Hq.
    rewrite encode_chars_cons, <- app_assoc.
    destruct (is_high_surrogate c) eqn:Hh.
    + assert (Bc : 55296 <= c <= 56319)
        by (revert Hh; unfold is_high_surrogate; lia).
      rewrite escape_surrogate by lia. unfold format_04x at 1. cbn [app].
      destruct t as [|c2 t2].
      * change (encode_chars [] ++ 34 :: rest) with (34 :: rest).
        rewrite (scan_u_lone _ _ _ _ c _
                   (decode_format_04x c ltac:(lia))
                   (not_low_escape_quote rest)).
        cbn [read_back]. rewrite rejoin_small by lia. reflexivity.
      * cbn [List.length] in Hq.
        destruct (is_low_surrogate c2) eqn:Hl.
        -- assert (Bc2 : 56320 <= c2 <= 57343)
             by (revert Hl; unfold is_low_surrogate; lia).
           rewrite encode_chars_cons, <- app_assoc.
           rewrite escape_surrogate by lia. unfold format_04x at 1.
           cbn [app].
           rewrite (scan_u_pair _ _ _ _ _ _ _ _ c c2 _
                      (decode_format_04x c ltac:(lia)) Hh
                      (decode_format_04x c2 ltac:(lia)) Hl).
           rewrite IH by lia.
           rewrite (read_back_pair c c2 t2) by assumption. reflexivity.
        -- rewrite encode_chars_cons, <- app_assoc.
           rewrite (scan_u_lone _ _ _ _ c _
                      (decode_format_04x c ltac:(lia))
                      (not_low_escape_char c2 _ Hl)).
           rewrite app_assoc, <- encode_chars_cons.
           rewrite IH by (cbn [List.length]; lia).
           rewrite (read_back_single c (c2 :: t2)) by (right; exact Hl).
           rewrite rejoin_small by lia. reflexivity.
    + rewrite scan_escape_other by exact Hh.
      rewrite IH by lia.
      rewrite (read_back_single c t) by (left; exact Hh). reflexivity.
Qed.

Lemma scan_encoded (q rest : pystr) :
  scanstring (encode_chars q ++ 34 :: rest) = Some (read_back q, rest).
Proof. apply (scan_encoded_upto (List.length q)). apply Nat.le_refl. Qed.

(** A plain text reads back as itself. *)
Lemma read_back_plain_upto (n : nat) (q : pystr) :
  (List.length q <= n)%nat -> plain_text q = true -> read_back q = q.
Proof.
  unfold plain_text.
  revert q; induction n as [|n IH]; intros q Hq Hp.
  - destruct q; [reflexivity | cbn [List.length] in Hq; lia].
  - destruct q as [|c t]; [reflexivity|]. cbn [List.length] in Hq.
    apply andb_true_iff in Hp. destruct Hp as [Hb Hn].
    cbn [forallb] in Hb. apply andb_true_iff in Hb. destruct Hb as [Hc Ht].
    assert (Hn' : no_surrogate_pair t = true
                  /\ (is_high_surrogate c = false
                      \/ match t with
                         | [] => True
                         | c2 :: _ => is_low_surrogate c2 = false
                         end)).
    { destruct t as [|c2 t2]; [split; [reflexivity | right; exact I]|].
      change (no_surrogate_pair (c :: c2 :: t2))
        with (negb (is_high_surrogate c && is_low_surrogate c2)
              && no_surrogate_pair (c2 :: t2)) in Hn.
      apply andb_true_iff in Hn. destruct Hn as [Hn1 Hn2].
      split; [exact Hn2|].
      apply negb_true_iff, andb_false_iff in Hn1. exact Hn1. }
    destruct Hn' as [Hn1 Hn2].
    rewrite (read_back_single c t) by exact Hn2.
    rewrite rejoin_id by lia.
    f_equal. apply IH; [lia|]. rewrite Ht, Hn1. reflexivity.
Qed.

Lemma read_back_plain (q : pystr) : plain_text q = true -> read_back q = q.
Proof. apply (read_back_plain_upto (List.length q)). apply Nat.le_refl. Qed.

(** *** Reading an object *)

Lemma encode_item_shape (kv : pystr * pystr) (X : pystr) :
  encode_item kv ++ X = 34 :: item_tail kv X.
Proof.
  unfold encode_item, encode_str, item_tail.
  repeat (rewrite <- app_assoc; cbn [app]). reflexivity.
Qed.

Lemma join_items_shape (d : pydict) (kv : pystr * pystr) (X : pystr) :
  join_items (map encode_item (kv :: d)) ++ 125 :: X
  = 34 :: items_tail kv d X.
Proof.
  revert kv; induction d as [|kv' d IH]; intros kv.
  - cbn [map join_items items_tail]. apply encode_item_shape.
  - change (join_items (map encode_item (kv :: kv' :: d)))
      with (encode_item kv ++ [44; 32]
            ++ join_items (map encode_item (kv' :: d))).
    rewrite <- !app_assoc. cbn [app]. rewrite IH.
    rewrite encode_item_shape. reflexivity.
Qed.

Lemma dumps_shape (d : pydict) (kv : pystr * pystr) :
  dumps (kv :: d) = 123 :: 34 :: items_tail kv d [].
Proof.
  unfold dumps. cbn [app]. rewrite join_items_shape. reflexivity.
Qed.

Ltac read_members :=
  cbn [members]; rewrite scan_encoded;
  cbn [skip_ws is_ws N.eqb Pos.eqb orb negb];
  rewrite scan_encoded;
  cbn [skip_ws is_ws N.eqb Pos.eqb orb negb].

Lemma members_last (fuel : nat) (kv : pystr * pystr) (X : pystr) :
  members (S fuel) (item_tail kv (125 :: X))
  = Some ([read_back_item kv], X).
Proof. unfold item_tail. read_members. reflexivity. Qed.

Lemma members_more (fuel : nat) (kv : pystr * pystr) (X : pystr) :
  members (S fuel) (item_tail kv (44 :: 32 :: 34 :: X))
  = match members fuel X with
    | Some (ps, rest) => Some (read_back_item kv :: ps, rest)
    | None => None
    end.
Proof. unfold item_tail. read_members. reflexivity. Qed.

Lemma members_items (d : pydict) (kv : pystr * pystr) (fuel : nat)
      (X : pystr) :
  (List.length d < fuel)%nat ->
  members fuel (items_tail kv d X)
  = Some (map read_back_item (kv :: d), X).
Proof.
  revert kv fuel; induction d as [|kv' d IH]; intros kv fuel Hf;
    (destruct fuel as [|fuel]; [lia|]); cbn [items_tail].
  - apply members_last.
  - rewrite members_more. cbn [List.length] in Hf.
    rewrite IH by lia. reflexivity.
Qed.

Lemma item_tail_length (kv : pystr * pystr) (X : pystr) :
  (List.length X < List.length (item_tail kv X))%nat.
Proof.
  unfold item_tail. rewrite length_app. cbn [List.length].
  rewrite length_app. cbn [List.length]. lia.
Qed.

Lemma items_tail_length (d : pydict) (kv : pystr * pystr) (X : pystr) :
  (List.length d < List.length (items_tail kv d X))%nat.
Proof.
  revert kv; induction d as [|kv' d IH]; intros kv; cbn [items_tail].
  - pose proof (item_tail_length kv (125 :: X)). cbn [List.length] in *. lia.
  - pose proof (item_tail_length kv (44 :: 32 :: 34 :: items_tail kv' d X)).
    specialize (IH kv'). cbn [List.length] in *. lia.
Qed.

(** [json.loads(json.dumps(d))], for every dictionary of strings: the
    same names and values in the same order, each read back. *)
Lemma loads_dumps (d : pydict) :
  loads (dumps d) = Some (map read_back_item d).
Proof.
  destruct d as [|kv d]; [reflexivity|].
  rewrite dumps_shape. unfold loads, JSONObject.
  cbn [skip_ws is_ws N.eqb Pos.eqb orb].
  rewrite members_items by apply items_tail_length.
  reflexivity.
Qed.

End JsonFacts.


(* ===================================================================== *)
(** ** 19. The payload of the Evaluate node (C10, C6) *)
(* ===================================================================== *)

Lemma payload_get_query (a b : pystr) :
  dict_get (py "query") [(py "query", a); (py "answer_candidate", b)]
  = Some a.
Proof. reflexivity. Qed.

Lemma payload_get_answer (a b : pystr) :
  dict_get (py "answer_candidate")
           [(py "query", a); (py "answer_candidate", b)]
  = Some b.
Proof. reflexivity. Qed.

(** What a tool gets when it loads the text [call_agent4] wrote. *)
Lemma payload_loads (st : QueryState) :
  Json.loads (call_agent4_data_json st)
  = Some [(py "query", Json.read_back (query st));
          (py "answer_candidate", Json.read_back (query st))].
Proof.
  unfold call_agent4_data_json. rewrite JsonFacts.loads_dumps. reflexivity.
Qed.

Lemma tool1_on_payload (st : QueryState) :
  agent4_tool1_check_unanswered (call_agent4_data_json st) = Some (py "Yes").
Proof.
  unfold agent4_tool1_check_unanswered.
  rewrite payload_loads, payload_get_query, payload_get_answer.
  destruct (contains (py "詳しく") (Json.read_back (query st))); reflexivity.
Qed.

Lemma tool2_on_payload (st : QueryState) :
  agent4_tool2_check_technical_words (call_agent4_data_json st)
  = Some (if contains (py "専門用語") (Json.read_back (query st))
          then py "No" else py "Yes").
Proof.
  unfold agent4_tool2_check_technical_words.
  rewrite payload_loads, payload_get_answer.
  destruct (contains (py "専門用語") (Json.read_back (query st)));
    reflexivity.
Qed.

(** C10. On the text the Evaluate node builds, whatever the state, the
    completeness tool loads the two fields without error and answers Yes:
    both fields are the same string, so the word it looks for cannot be in
    one and not in the other. *)
Theorem check_unanswered_always_yes :
  forall st : QueryState,
    agent4_tool1_check_unanswered (call_agent4_data_json st) = Some (py "Yes")
    /\ agent4_tool1_check_unanswered (call_agent4_data_json st)
       <> Some (py "No")
    /\ (exists data a,
           Json.loads (call_agent4_data_json st) = Some data
           /\ dict_get (py "query") data = Some a
           /\ dict_get (py "answer_candidate") data = Some a).
Proof.
  intros st. rewrite tool1_on_payload. split; [reflexivity|].
  split; [discriminate|].
  eexists; eexists. split; [apply payload_loads|].
  rewrite payload_get_query, payload_get_answer. split; reflexivity.
Qed.

(** The claim C6 fails as it is stated: with an evaluator that says Yes to
    a question made of the word the second tool rejects, the node accepts
    although that check answers No. *)
Lemma evaluate_accepts_against_a_check :
  ~ (agent4_judgment (after (call_agent4 yes_to_all jargon_state) jargon_state)
     = Some (py "Yes")
     <-> agent4_tool1_check_unanswered (call_agent4_data_json jargon_state)
         = Some (py "Yes")
         /\ agent4_tool2_check_technical_words
              (call_agent4_data_json jargon_state)
            = Some (py "Yes")).
Proof.
  intros [H _].
  assert (V : agent4_judgment
                (after (call_agent4 yes_to_all jargon_state) jargon_state)
              = Some (py "Yes")) by (vm_compute; reflexivity).
  destruct (H V) as [_ H2]. vm_compute in H2. discriminate H2.
Qed.

(** C6, amended.  The Evaluate node stores Yes exactly when the final
    answer of the evaluation collaborator, stripped, is Yes, and No
    otherwise; it runs neither check itself.  When that answer is the one
    the description of the agent asks for (Yes if both tools answer Yes on
    the payload, No otherwise), the node accepts exactly when both checks
    answer Yes. *)
Theorem evaluate_accepts_on_collaborator_answer :
  forall (invoke : pystr -> pystr) (st : QueryState),
    let v := agent4_judgment (after (call_agent4 invoke st) st) in
    let answer := invoke (call_agent4_instructions st) in
    let check1 := agent4_tool1_check_unanswered (call_agent4_data_json st) in
    let check2 :=
      agent4_tool2_check_technical_words (call_agent4_data_json st) in
    (v = Some (py "Yes") <-> strip answer = py "Yes")
    /\ (v = Some (py "Yes") \/ v = Some (py "No"))
    /\ (answer = agent4_react_answer check1 check2 ->
        (v = Some (py "Yes")
         <-> check1 = Some (py "Yes") /\ check2 = Some (py "Yes"))).
Proof.
  intros invoke st v answer check1 check2.
  assert (Ev : v = Some (normalize_judgment answer)) by reflexivity.
  split; [|split].
  - rewrite Ev. rewrite <- normalize_judgment_yes_iff.
    split; [intros E; injection E; auto | intros ->; reflexivity].
  - rewrite Ev.
    destruct (normalize_judgment_is_verdict answer) as [-> | ->]; auto.
  - intros Ea. rewrite Ev, Ea. subst check1 check2.
    rewrite tool1_on_payload, tool2_on_payload.
    destruct (contains (py "専門用語") (Json.read_back (query st))).
    + split; [intros E; vm_compute in E; discriminate E
             | intros [_ E]; discriminate E].
    + split; [intros _; split; reflexivity | intros _; reflexivity].
Qed.

Lemma evaluate_accepts_on_collaborator_answer_witness :
  agent4_judgment
    (after (call_agent4 (fun _ => py "No") jargon_state) jargon_state)
  = Some (py "Yes")
  <-> agent4_tool1_check_unanswered (call_agent4_data_json jargon_state)
      = Some (py "Yes")
      /\ agent4_tool2_check_technical_words
           (call_agent4_data_json jargon_state)
         = Some (py "Yes").
Proof.
  apply (evaluate_accepts_on_collaborator_answer
           (fun _ => py "No") jargon_state).
  vm_compute; reflexivity.
Defined.

(* ===================================================================== *)
(** ** 20. Substrings and stripping *)
(* ===================================================================== *)

Lemma startswith_spec (p s : pystr) :
  startswith p s = true <-> exists post, s = p ++ post.
Proof.
  revert s; induction p as [|x p IH]; intros s.
  - split; [intros _; exists s; reflexivity | reflexivity].
  - destruct s as [|y s]; cbn [startswith].
    + split; [discriminate | intros [post E]; discriminate E].
    + rewrite andb_true_iff, N.eqb_eq, IH. split.
      * intros [-> [post ->]]. exists post; reflexivity.
      * intros [post E]. injection E as -> ->. split; eauto.
Qed.

(** [needle in hay] holds exactly when [hay] is some text, the needle,
    and some more text. *)
Lemma contains_spec (needle hay : pystr) :
  contains needle hay = true <-> exists pre post, hay = pre ++ needle ++ post.
Proof.
  induction hay as [|c hay IH]; cbn [contains]; rewrite orb_true_iff.
  - rewrite startswith_spec. split.
    + intros [[post E]|E]; [|discriminate]. exists [], post. exact E.
    + intros (pre & post & E). left.
      destruct pre; [exists post; exact E | discriminate E].
  - rewrite startswith_spec, IH. split.
    + intros [[post E]|(pre & post & E)].
      * exists [], post. exact E.
      * exists (c :: pre), post. rewrite E. reflexivity.
    + intros (pre & post & E). destruct pre as [|c' pre].
      * left. exists post. exact E.
      * right. injection E as _ E. eauto.
Qed.

Lemma contains_extend (needle hay more : pystr) :
  contains needle hay = true -> contains needle (hay ++ more) = true.
Proof.
  rewrite !contains_spec. intros (pre & post & ->).
  exists pre, (post ++ more). rewrite <- !app_assoc. reflexivity.
Qed.

Lemma contains_prefix (needle old new : pystr) :
  is_prefix old new -> contains needle old = true ->
  contains needle new = true.
Proof. intros [t ->]. apply contains_extend. Qed.

Lemma lstrip_spaces (a s : pystr) :
  forallb isspace a = true -> lstrip (a ++ s) = lstrip s.
Proof.
  induction a as [|c a IH]; cbn [forallb app lstrip]; [reflexivity|].
  intros H. apply andb_true_iff in H. destruct H as [-> H]. auto.
Qed.

Lemma lstrip_all_spaces (a : pystr) :
  forallb isspace a = true -> lstrip a = [].
Proof.
  intros H. rewrite <- (app_nil_r a). rewrite lstrip_spaces by exact H.
  reflexivity.
Qed.

Lemma lstrip_app (r b : pystr) :
  lstrip r <> [] -> lstrip (r ++ b) = lstrip r ++ b.
Proof.
  induction r as [|c r IH]; cbn [lstrip app]; [congruence|].
  destruct (isspace c); [exact IH | reflexivity].
Qed.

Lemma lstrip_only_spaces (r : pystr) :
  lstrip r = [] -> forallb isspace r = true.
Proof.
  induction r as [|c r IH]; cbn [lstrip forallb]; [reflexivity|].
  destruct (isspace c); [exact IH | discriminate].
Qed.

Lemma forallb_rev (f : N -> bool) (l : pystr) :
  forallb f (rev l) = forallb f l.
Proof.
  induction l as [|c l IH]; [reflexivity|].
  cbn [rev forallb]. rewrite forallb_app, IH. cbn [forallb].
  rewrite andb_true_r. apply andb_comm.
Qed.

Lemma rstrip_spaces (s b : pystr) :
  forallb isspace b = true -> rstrip (s ++ b) = rstrip s.
Proof.
  intros H. unfold rstrip. rewrite rev_app_distr.
  rewrite lstrip_spaces by (rewrite forallb_rev; exact H). reflexivity.
Qed.

(** White space around a text does not change what [strip] returns. *)
Lemma strip_padding (a r b : pystr) :
  forallb isspace a = true -> forallb isspace b = true ->
  strip (a ++ r ++ b) = strip r.
Proof.
  intros Ha Hb. unfold strip. rewrite lstrip_spaces by exact Ha.
  destruct (lstrip r) as [|c t] eqn:E.
  - apply lstrip_only_spaces in E.
    rewrite lstrip_all_spaces; [reflexivity|].
    rewrite forallb_app, E, Hb. reflexivity.
  - rewrite lstrip_app by (rewrite E; discriminate).
    rewrite E. apply rstrip_spaces, Hb.
Qed.

Lemma normalize_judgment_padding (a r b : pystr) :
  forallb isspace a = true -> forallb isspace b = true ->
  normalize_judgment (a ++ r ++ b) = normalize_judgment r.
Proof.
  intros Ha Hb. unfold normalize_judgment.
  rewrite strip_padding by assumption. reflexivity.
Qed.

(* ===================================================================== *)
(** ** 21. Node functions: trace, fields, successors *)
(* ===================================================================== *)

(** One entry is added to the trace by each node function. *)
Lemma node_trace_entry :
  forall (C : Collaborators) (k : nat) (n : node)
         (f : QueryState -> Command) (st : QueryState),
    node_function C k n = Some f ->
    exists entry,
      debug_info (after (f st) st) = debug_info st ++ [entry].
Proof.
  intros C k n f st E; node_cases n E;
    try (eexists; reflexivity).
  - unfold router1.
    destruct (agent2_judgment st) as [j|];
      [destruct (str_eqb j (py "Yes"))|]; eexists; reflexivity.
  - unfold router2.
    destruct (match agent4_judgment st with
              | Some j => str_eqb j (py "Yes") | None => false end);
      eexists; reflexivity.
Qed.

(** X1. Every node function registered in the graph keeps the entries
    already in the trace and adds exactly one entry at its end. *)
Theorem node_appends_one_trace_entry :
  forall (C : Collaborators) (k : nat) (n : node)
         (f : QueryState -> Command) (st : QueryState),
    node_function C k n = Some f ->
    exists entry,
      debug_info (after (f st) st) = debug_info st ++ [entry].
Proof.
  intros C k n f st E; node_cases n E;
    try (eexists; reflexivity).
  - unfold router1.
    destruct (agent2_judgment st) as [j|];
      [destruct (str_eqb j (py "Yes"))|]; eexists; reflexivity.
  - unfold router2.
    destruct (match agent4_judgment st with
              | Some j => str_eqb j (py "Yes") | None => false end);
      eexists; reflexivity.
Qed.

Lemma node_appends_one_trace_entry_witness :
  exists entry,
    debug_info (after (router1 (initial_state (py "q")))
                      (initial_state (py "q")))
    = [] ++ [entry].
Proof.
  apply (node_appends_one_trace_entry accepting_collaborators 0 n_router1
           router1 (initial_state (py "q"))).
  reflexivity.
Defined.

(** X2. The successors a node function can name are exactly the targets
    of the edges [build_graph] declares for its node: every command goes
    along a declared edge, and every declared edge out of a node is taken
    for some state and some answers of the collaborators. *)
Theorem gotos_are_the_declared_edges :
  forall a b : node,
    a <> n_START ->
    (has_edge a b = true
     <-> exists (C : Collaborators) (k : nat) (f : QueryState -> Command)
                (st : QueryState),
           node_function C k a = Some f /\ goto (f st) = b).
Proof.
  intros a b Ha. split.
  - intros E.
    destruct a, b; try discriminate E; try congruence;
      first
        [ exists accepting_collaborators, 0%nat; eexists;
          exists (mkState [] (Some (py "Yes")) (Some (py "Yes")) []);
          split; reflexivity
        | exists accepting_collaborators, 0%nat; eexists;
          exists (initial_state []);
          split; reflexivity ].
  - intros (C & k & f & st & Hf & <-).
    apply (node_goto_edge C k a f st Hf).
Qed.

Lemma gotos_are_the_declared_edges_witness :
  has_edge n_router2 n_END = true
  <-> exists (C : Collaborators) (k : nat) (f : QueryState -> Command)
             (st : QueryState),
        node_function C k n_router2 = Some f /\ goto (f st) = n_END.
Proof.
  apply (gotos_are_the_declared_edges n_router2 n_END). discriminate.
Defined.

(** X3. Each field of the state has its writers: only [call_agent2]
    changes the classification verdict, only [call_agent4] changes the
    evaluation verdict, and the two judging nodes and the two routers
    leave the query as it is. *)
Theorem fields_have_their_writers :
  forall (C : Collaborators) (k : nat) (n : node)
         (f : QueryState -> Command) (st : QueryState),
    node_function C k n = Some f ->
    (n <> n_agent2 ->
     agent2_judgment (after (f st) st) = agent2_judgment st)
    /\ (n <> n_agent4 ->
        agent4_judgment (after (f st) st) = agent4_judgment st)
    /\ (n = n_agent2 \/ n = n_router1 \/ n = n_agent4 \/ n = n_router2 ->
        query (after (f st) st) = query st).
Proof.
  intros C k n f st Hf.
  pose proof (node_agent2_judgment C k n f st Hf) as A2.
  pose proof (node_agent4_judgment C k n f st Hf) as A4.
  split; [|split].
  - intros Hn. rewrite A2. destruct n; try reflexivity. congruence.
  - intros Hn. rewrite A4. destruct n; try reflexivity. congruence.
  - intros Hn. node_cases n Hf; try open_router; try reflexivity;
      destruct Hn as [Hn|[Hn|[Hn|Hn]]]; discriminate Hn.
Qed.

Lemma fields_have_their_writers_witness :
  agent2_judgment
    (after (call_agent4 yes_to_all (mkState (py "q") (Some (py "No")) None []))
           (mkState (py "q") (Some (py "No")) None []))
  = Some (py "No")
  /\ query (after (call_agent4 yes_to_all jargon_state) jargon_state)
     = query jargon_state.
Proof.
  split.
  - apply (fields_have_their_writers accepting_collaborators 0 n_agent4
             (call_agent4 yes_to_all)
             (mkState (py "q") (Some (py "No")) None []) eq_refl).
    discriminate.
  - apply (fields_have_their_writers accepting_collaborators 0 n_agent4
             (call_agent4 yes_to_all) jargon_state eq_refl).
    right; right; left; reflexivity.
Defined.

(** X4. White space around the answer of a judging collaborator changes
    nothing: [call_agent2] and [call_agent4] return the same command,
    verdict and trace entry included, for an answer and for the same
    answer with white space before and after it. *)
Theorem judges_ignore_padding :
  forall (invoke padded : pystr -> pystr) (st : QueryState)
         (a b : pystr),
    forallb isspace a = true -> forallb isspace b = true ->
    (padded (call_agent2_instructions st)
     = a ++ invoke (call_agent2_instructions st) ++ b ->
     call_agent2 padded st = call_agent2 invoke st)
    /\ (padded (call_agent4_instructions st)
        = a ++ invoke (call_agent4_instructions st) ++ b ->
        call_agent4 padded st = call_agent4 invoke st).
Proof.
  intros invoke padded st a b Ha Hb. split; intros E.
  - unfold call_agent2. rewrite E.
    rewrite normalize_judgment_padding by assumption. reflexivity.
  - unfold call_agent4. rewrite E.
    rewrite normalize_judgment_padding by assumption. reflexivity.
Qed.

Lemma judges_ignore_padding_witness :
  call_agent2 (fun _ => py " Yes ") (initial_state (py "q"))
  = call_agent2 (fun _ => py "Yes") (initial_state (py "q")).
Proof.
  apply (judges_ignore_padding (fun _ => py "Yes") (fun _ => py " Yes ")
           (initial_state (py "q")) (py " ") (py " "));
    reflexivity.
Defined.

(** X5. A judging node followed by its router: after [call_agent2] the
    first router goes to prompt1 exactly when the stripped answer is Yes,
    and to agent3 for every other answer; after [call_agent4] the second
    router goes to the terminal marker exactly when the stripped answer is
    Yes, and to prompt2 for every other answer. *)
Theorem routing_after_judgment :
  forall (invoke : pystr -> pystr) (st : QueryState),
    (goto (router1 (after (call_agent2 invoke st) st)) = n_prompt1
     <-> strip (invoke (call_agent2_instructions st)) = py "Yes")
    /\ (goto (router1 (after (call_agent2 invoke st) st)) = n_agent3
        <-> strip (invoke (call_agent2_instructions st)) <> py "Yes")
    /\ (goto (router2 (after (call_agent4 invoke st) st)) = n_END
        <-> strip (invoke (call_agent4_instructions st)) = py "Yes")
    /\ (goto (router2 (after (call_agent4 invoke st) st)) = n_prompt2
        <-> strip (invoke (call_agent4_instructions st)) <> py "Yes").
Proof.
  intros invoke st.
  assert (R1 : forall s, agent2_judgment s = Some (py "Yes") ->
                         goto (router1 s) = n_prompt1)
    by (intros s E; unfold router1; rewrite E; reflexivity).
  assert (R1' : forall s, agent2_judgment s = Some (py "No") ->
                          goto (router1 s) = n_agent3)
    by (intros s E; unfold router1; rewrite E; reflexivity).
  assert (R2 : forall s, agent4_judgment s = Some (py "Yes") ->
                         goto (router2 s) = n_END)
    by (intros s E; unfold router2; rewrite E; reflexivity).
  assert (R2' : forall s, agent4_judgment s = Some (py "No") ->
                          goto (router2 s) = n_prompt2)
    by (intros s E; unfold router2; rewrite E; reflexivity).
  assert (V2 : agent2_judgment (after (call_agent2 invoke st) st)
               = Some (normalize_judgment
                         (invoke (call_agent2_instructions st))))
    by reflexivity.
  assert (V4 : agent4_judgment (after (call_agent4 invoke st) st)
               = Some (normalize_judgment
                         (invoke (call_agent4_instructions st))))
    by reflexivity.
  destruct (normalize_judgment_cases (invoke (call_agent2_instructions st)))
    as [[S2 N2]|[S2 N2]];
    destruct (normalize_judgment_cases (invoke (call_agent4_instructions st)))
      as [[S4 N4]|[S4 N4]];
    rewrite N2 in V2; rewrite N4 in V4;
    try rewrite (R1 _ V2); try rewrite (R1' _ V2);
    try rewrite (R2 _ V4); try rewrite (R2' _ V4);
    repeat split; intros; try assumption; try reflexivity;
      try discriminate; try contradiction; congruence.
Qed.

(* ===================================================================== *)
(** ** 22. The tools of Agent4 on JSON texts *)
(* ===================================================================== *)

Lemma read_back_plain_dict (d : pydict) :
  plain_dict d = true -> map Json.read_back_item d = d.
Proof.
  induction d as [|[k v] d IH]; cbn [plain_dict forallb map]; [reflexivity|].
  intros H. apply andb_true_iff in H. destruct H as [H Hd].
  apply andb_true_iff in H. destruct H as [Hk Hv]. cbn [fst snd] in *.
  unfold Json.read_back_item; cbn [fst snd].
  rewrite !JsonFacts.read_back_plain by assumption.
  f_equal. apply IH, Hd.
Qed.

(** Written by [json.dumps] and read by [json.loads], a dictionary of
    plain texts comes back as it was. *)
Lemma loads_dumps_plain (d : pydict) :
  plain_dict d = true -> Json.loads (Json.dumps d) = Some d.
Proof.
  intros H. rewrite JsonFacts.loads_dumps, read_back_plain_dict by exact H.
  reflexivity.
Qed.

(** X6. [agent4_tool1_check_unanswered] on the JSON text of a dictionary
    of plain texts, whatever its other members and their order: a missing
    [query] or [answer_candidate] is an error; otherwise the answer is No
    exactly when 詳しく occurs in the query and not in the candidate, and
    Yes in every other case.  A text that is not JSON is an error. *)
Theorem check_unanswered_on_json :
  forall d : pydict,
    plain_dict d = true ->
    agent4_tool1_check_unanswered (Json.dumps d)
    = match dict_get (py "query") d, dict_get (py "answer_candidate") d with
      | Some q, Some a =>
        Some (if contains (py "詳しく") q && negb (contains (py "詳しく") a)
              then py "No" else py "Yes")
      | _, _ => None
      end
    /\ (dict_get (py "query") d = None ->
        agent4_tool1_check_unanswered (Json.dumps d) = None)
    /\ (dict_get (py "answer_candidate") d = None ->
        agent4_tool1_check_unanswered (Json.dumps d) = None)
    /\ agent4_tool1_check_unanswered [] = None
    /\ agent4_tool1_check_unanswered (py "Yes") = None.
Proof.
  intros d H.
  assert (E : agent4_tool1_check_unanswered (Json.dumps d)
              = match dict_get (py "query") d,
                      dict_get (py "answer_candidate") d with
                | Some q, Some a =>
                  Some (if contains (py "詳しく") q
                           && negb (contains (py "詳しく") a)
                        then py "No" else py "Yes")
                | _, _ => None
                end).
  { unfold agent4_tool1_check_unanswered.
    rewrite loads_dumps_plain by exact H.
    destruct (dict_get (py "query") d) as [q|]; [|reflexivity].
    destruct (dict_get (py "answer_candidate") d) as [a|]; [|reflexivity].
    destruct (contains (py "詳しく") q && negb (contains (py "詳しく") a));
      reflexivity. }
  split; [exact E|]. rewrite E.
  split; [intros ->; reflexivity|].
  split; [intros ->; destruct (dict_get (py "query") d); reflexivity|].
  split; reflexivity.
Qed.

Lemma check_unanswered_on_json_witness :
  agent4_tool1_check_unanswered
    (Json.dumps [(py "answer_candidate", py "short"); (py "note", py "x");
                 (py "query", py "詳しく教えて")])
  = Some (py "No")
  /\ agent4_tool1_check_unanswered (Json.dumps [(py "query", py "q")]) = None.
Proof.
  split.
  - rewrite (proj1 (check_unanswered_on_json
                      [(py "answer_candidate", py "short"); (py "note", py "x");
                       (py "query", py "詳しく教えて")] eq_refl)).
    reflexivity.
  - apply (proj1 (proj2 (proj2 (check_unanswered_on_json
                                  [(py "query", py "q")] eq_refl)))).
    reflexivity.
Defined.

(** X7. [agent4_tool2_check_technical_words] on the JSON text of a
    dictionary of plain texts reads [answer_candidate] only: without that
    member it is an error, with it the answer is No exactly when 専門用語
    occurs in the candidate; the [query] member may be missing and what it
    holds never matters. *)
Theorem check_technical_words_on_json :
  forall d : pydict,
    plain_dict d = true ->
    agent4_tool2_check_technical_words (Json.dumps d)
    = match dict_get (py "answer_candidate") d with
      | Some a =>
        Some (if contains (py "専門用語") a then py "No" else py "Yes")
      | None => None
      end
    /\ (forall q a : pystr,
           Json.plain_text q = true -> Json.plain_text a = true ->
           agent4_tool2_check_technical_words
             (Json.dumps [(py "query", q); (py "answer_candidate", a)])
           = agent4_tool2_check_technical_words
               (Json.dumps [(py "answer_candidate", a)])).
Proof.
  assert (E : forall d, plain_dict d = true ->
              agent4_tool2_check_technical_words (Json.dumps d)
              = match dict_get (py "answer_candidate") d with
                | Some a =>
                  Some (if contains (py "専門用語") a
                        then py "No" else py "Yes")
                | None => None
                end).
  { intros d H. unfold agent4_tool2_check_technical_words.
    rewrite loads_dumps_plain by exact H.
    destruct (dict_get (py "answer_candidate") d) as [a|]; [|reflexivity].
    destruct (contains (py "専門用語") a); reflexivity. }
  intros d H. split; [apply E, H|].
  intros q a Hq Ha.
  rewrite !E; [reflexivity | |];
    cbn [plain_dict forallb fst snd]; rewrite ?Hq, ?Ha; reflexivity.
Qed.

Lemma check_technical_words_on_json_witness :
  agent4_tool2_check_technical_words
    (Json.dumps [(py "answer_candidate", py "専門用語だらけ")])
  = Some (py "No").
Proof.
  rewrite (proj1 (check_technical_words_on_json
                    [(py "answer_candidate", py "専門用語だらけ")] eq_refl)).
  reflexivity.
Defined.

(* ===================================================================== *)
(** ** 23. The JSON text in the prompt of the Evaluate node *)
(* ===================================================================== *)

Lemma hexdigit_printable (d : N) :
  d < 16 -> printable (Json.hexdigit d) = true.
Proof.
  revert d.
  apply (JsonFacts.below_cases
           (fun d => printable (Json.hexdigit d) = true) 16).
  intros i Hi. do 16 (destruct i as [|i]; [reflexivity|]). lia.
Qed.

Lemma format_04x_printable (n : N) :
  n < 65536 -> forallb printable (Json.format_04x n) = true.
Proof.
  intros Hn. unfold Json.format_04x. cbn [forallb].
  rewrite !hexdigit_printable; try reflexivity;
    try (apply N.mod_lt; discriminate).
  apply N.Div0.div_lt_upper_bound. exact Hn.
Qed.

Lemma escape_char_printable (c : N) :
  forallb printable (Json.escape_char c) = true.
Proof.
  unfold Json.escape_char.
  destruct (c =? 92); [reflexivity|].
  destruct (c =? 34); [reflexivity|].
  destruct (c =? 8); [reflexivity|].
  destruct (c =? 12); [reflexivity|].
  destruct (c =? 10); [reflexivity|].
  destruct (c =? 13); [reflexivity|].
  destruct (c =? 9); [reflexivity|].
  destruct ((32 <=? c) && (c <=? 126)) eqn:E8.
  - cbn [forallb]. unfold printable. rewrite E8. reflexivity.
  - destruct (c <? 65536) eqn:E9.
    + cbn [app forallb]. rewrite format_04x_printable by lia. reflexivity.
    + destruct (JsonFacts.halves_are_surrogates (c - 65536))
        as (_ & _ & B1 & B2).
      cbv zeta in *. cbn [app forallb]. rewrite forallb_app.
      rewrite format_04x_printable by exact B1. cbn [app forallb].
      rewrite format_04x_printable by exact B2. reflexivity.
Qed.

Lemma encode_str_printable (s : pystr) :
  forallb printable (Json.encode_str s) = true.
Proof.
  unfold Json.encode_str, Json.encode_chars. cbn [app forallb].
  rewrite forallb_app. cbn [forallb]. rewrite andb_true_r.
  induction s as [|c s IH]; [reflexivity|].
  cbn [flat_map]. rewrite forallb_app, escape_char_printable. exact IH.
Qed.

Lemma join_items_printable (items : list pystr) :
  forallb (forallb printable) items = true ->
  forallb printable (Json.join_items items) = true.
Proof.
  induction items as [|x items IH]; [reflexivity|].
  cbn [forallb]. intros H. apply andb_true_iff in H. destruct H as [Hx Hi].
  destruct items as [|y items]; [exact Hx|].
  change (Json.join_items (x :: y :: items))
    with (x ++ [44; 32] ++ Json.join_items (y :: items)).
  rewrite !forallb_app, Hx, (IH Hi). reflexivity.
Qed.

Lemma dumps_printable (d : pydict) :
  forallb printable (Json.dumps d) = true.
Proof.
  unfold Json.dumps. cbn [app forallb]. rewrite forallb_app.
  cbn [forallb]. rewrite andb_true_r.
  apply join_items_printable.
  induction d as [|kv d IH]; [reflexivity|].
  cbn [map forallb]. rewrite IH, andb_true_r.
  unfold Json.encode_item. rewrite !forallb_app, !encode_str_printable.
  reflexivity.
Qed.

Lemma contains_needs_its_characters (P : N -> bool) (needle hay : pystr) :
  forallb P hay = true -> contains needle hay = true ->
  forallb P needle = true.
Proof.
  intros Hh Hc. apply contains_spec in Hc. destruct Hc as (pre & post & ->).
  rewrite !forallb_app in Hh.
  apply andb_true_iff in Hh. destruct Hh as [_ Hh].
  apply andb_true_iff in Hh. apply Hh.
Qed.

(** X8. Whatever the query, the JSON text [call_agent4] puts in its prompt
    is made of printable ASCII characters only: it has no line break, and
    neither word the tools of Agent4 look for occurs in it as written. *)
Theorem data_json_is_printable_ascii :
  forall st : QueryState,
    forallb printable (call_agent4_data_json st) = true
    /\ contains nl (call_agent4_data_json st) = false
    /\ contains (py "詳しく") (call_agent4_data_json st) = false
    /\ contains (py "専門用語") (call_agent4_data_json st) = false.
Proof.
  intros st.
  pose proof (dumps_printable (call_agent4_payload st)) as H.
  fold (call_agent4_data_json st) in H.
  split; [exact H|].
  repeat split;
    match goal with
    | |- contains ?w ?t = false =>
      destruct (contains w t) eqn:E; [|reflexivity];
        apply (contains_needs_its_characters printable w t H) in E;
        vm_compute in E; discriminate E
    end.
Qed.

Lemma first_line_upto (j rest : pystr) :
  forallb printable j = true -> first_line (j ++ nl ++ rest) = j.
Proof.
  induction j as [|c j IH]; cbn [forallb app first_line]; [reflexivity|].
  intros H. apply andb_true_iff in H. destruct H as [Hc Hj].
  replace (c =? 10) with false by (revert Hc; unfold printable; lia).
  f_equal. apply IH, Hj.
Qed.

Lemma skipn_exact (a b : pystr) : skipn (List.length a) (a ++ b) = b.
Proof. induction a as [|c a IH]; [reflexivity | exact IH]. Qed.

(** An evaluator that reads the prompt of [call_agent4] finds in it the
    JSON text the node wrote. *)
Lemma json_of_instructions_found (st : QueryState) :
  json_of_instructions (call_agent4_instructions st)
  = call_agent4_data_json st.
Proof.
  unfold json_of_instructions, call_agent4_instructions.
  rewrite (app_assoc nl), (app_assoc (py _) (nl ++ _)).
  rewrite skipn_exact. rewrite first_line_upto; [reflexivity|].
  apply dumps_printable.
Qed.

Lemma faithful_agent4_follows (st : QueryState) :
  faithful_agent4 (call_agent4_instructions st)
  = agent4_react_answer
      (agent4_tool1_check_unanswered (call_agent4_data_json st))
      (agent4_tool2_check_technical_words (call_agent4_data_json st)).
Proof.
  unfold faithful_agent4. rewrite json_of_instructions_found. reflexivity.
Qed.

(** The answer asked of Agent4 is a verdict already: the normalisation of
    [call_agent4] leaves it as it is. *)
Lemma normalize_react_answer (r1 r2 : option pystr) :
  normalize_judgment (agent4_react_answer r1 r2) = agent4_react_answer r1 r2.
Proof.
  unfold agent4_react_answer.
  destruct r1 as [r1|]; [|reflexivity]. destruct r2 as [r2|]; [|reflexivity].
  destruct (str_eqb r1 (py "Yes") && str_eqb r2 (py "Yes")); reflexivity.
Qed.

(* ===================================================================== *)
(** ** 24. A query that holds the rejected word *)
(* ===================================================================== *)

Lemma read_back_app_upto (n : nat) (a b : pystr) :
  (List.length a <= n)%nat ->
  match b with
  | [] => True
  | c :: _ => Json.is_low_surrogate c = false
  end ->
  Json.read_back (a ++ b) = Json.read_back a ++ Json.read_back b.
Proof.
  revert a; induction n as [|n IH]; intros a Ha Hb.
  - destruct a; [reflexivity | cbn [List.length] in Ha; lia].
  - destruct a as [|x a]; [reflexivity|]. cbn [List.length] in Ha.
    destruct a as [|y a].
    + cbn [app]. rewrite (JsonFacts.read_back_single x b).
      * reflexivity.
      * right. exact Hb.
    + cbn [List.length] in Ha. cbn [app].
      destruct (Json.is_high_surrogate x && Json.is_low_surrogate y) eqn:E.
      * apply andb_true_iff in E. destruct E as [E1 E2].
        rewrite (JsonFacts.read_back_pair x y (a ++ b)) by assumption.
        rewrite (JsonFacts.read_back_pair x y a) by assumption.
        rewrite IH by (assumption || lia). reflexivity.
      * apply andb_false_iff in E.
        rewrite (JsonFacts.read_back_single x (y :: a ++ b)) by exact E.
        rewrite (JsonFacts.read_back_single x (y :: a)) by exact E.
        change (y :: a ++ b) with ((y :: a) ++ b).
        rewrite IH by (assumption || (cbn [List.length]; lia)). reflexivity.
Qed.

Lemma read_back_below_surrogates (w rest : pystr) :
  forallb below_surrogates w = true ->
  Json.read_back (w ++ rest) = w ++ Json.read_back rest.
Proof.
  induction w as [|c w IH]; cbn [forallb app]; [reflexivity|].
  intros H. apply andb_true_iff in H. destruct H as [Hc Hw].
  unfold below_surrogates in Hc.
  rewrite (JsonFacts.read_back_single c (w ++ rest))
    by (left; unfold Json.is_high_surrogate; lia).
  rewrite JsonFacts.rejoin_small by lia. rewrite IH by exact Hw. reflexivity.
Qed.

(** A word written below the surrogates that occurs in a text still
    occurs in it once the text has gone through [dumps] and [loads]. *)
Lemma contains_read_back (w x : pystr) :
  forallb below_surrogates w = true ->
  contains w x = true -> contains w (Json.read_back x) = true.
Proof.
  intros Hw Hc. apply contains_spec in Hc. destruct Hc as (pre & post & ->).
  apply contains_spec.
  destruct w as [|c w].
  - exists [], (Json.read_back (pre ++ post)). reflexivity.
  - rewrite (read_back_app_upto (List.length pre)); [|apply Nat.le_refl|].
    + rewrite read_back_below_surrogates by exact Hw. eauto.
    + cbn [app]. cbn [forallb] in Hw. apply andb_true_iff in Hw.
      destruct Hw as [Hc _]. unfold below_surrogates in Hc.
      unfold Json.is_low_surrogate. lia.
Qed.

(** The rejected word stays in every extension of the query. *)
Lemma jargon_rejected_for_good :
  forall st st' : QueryState,
    contains (py "専門用語") (query st) = true ->
    is_prefix (query st) (query st') ->
    agent4_tool2_check_technical_words (call_agent4_data_json st')
    = Some (py "No")
    /\ (forall invoke : pystr -> pystr,
           invoke (call_agent4_instructions st')
           = agent4_react_answer
               (agent4_tool1_check_unanswered (call_agent4_data_json st'))
               (agent4_tool2_check_technical_words
                  (call_agent4_data_json st')) ->
           agent4_judgment (after (call_agent4 invoke st') st')
           = Some (py "No")).
Proof.
  intros st st' Hc Hp.
  assert (T : agent4_tool2_check_technical_words (call_agent4_data_json st')
              = Some (py "No")).
  { rewrite tool2_on_payload.
    rewrite contains_read_back;
      [reflexivity | reflexivity | exact (contains_prefix _ _ _ Hp Hc)]. }
  split; [exact T|].
  intros invoke E.
  change (agent4_judgment (after (call_agent4 invoke st') st'))
    with (Some (normalize_judgment (invoke (call_agent4_instructions st')))).
  rewrite E, normalize_react_answer, tool1_on_payload, T. reflexivity.
Qed.

(** X9. Once the query holds 専門用語 it holds it for good: in that state
    and in every state whose query extends it, the too-technical tool
    answers No on the payload of the Evaluate node, and an evaluator whose
    answer is the one its description asks for makes [call_agent4] store
    No. *)
Theorem jargon_is_never_forgiven :
  forall st st' : QueryState,
    contains (py "専門用語") (query st) = true ->
    is_prefix (query st) (query st') ->
    agent4_tool2_check_technical_words (call_agent4_data_json st')
    = Some (py "No")
    /\ (forall invoke : pystr -> pystr,
           invoke (call_agent4_instructions st')
           = agent4_react_answer
               (agent4_tool1_check_unanswered (call_agent4_data_json st'))
               (agent4_tool2_check_technical_words
                  (call_agent4_data_json st')) ->
           agent4_judgment (after (call_agent4 invoke st') st')
           = Some (py "No")).
Proof.
  intros st st' Hc Hp.
  assert (T : agent4_tool2_check_technical_words (call_agent4_data_json st')
              = Some (py "No")).
  { rewrite tool2_on_payload.
    rewrite contains_read_back;
      [reflexivity | reflexivity | exact (contains_prefix _ _ _ Hp Hc)]. }
  split; [exact T|].
  intros invoke E.
  change (agent4_judgment (after (call_agent4 invoke st') st'))
    with (Some (normalize_judgment (invoke (call_agent4_instructions st')))).
  rewrite E, normalize_react_answer, tool1_on_payload, T. reflexivity.
Qed.

Lemma jargon_is_never_forgiven_witness :
  agent4_judgment
    (after (call_agent4 faithful_agent4
              (after (prompt2 (fun _ => py "a plain answer") jargon_state)
                     jargon_state))
           (after (prompt2 (fun _ => py "a plain answer") jargon_state)
                  jargon_state))
  = Some (py "No").
Proof.
  apply (jargon_is_never_forgiven jargon_state
           (after (prompt2 (fun _ => py "a plain answer") jargon_state)
                  jargon_state)).
  - reflexivity.
  - exact (is_prefix_app _ _).
  - apply faithful_agent4_follows.
Defined.

Section FaithfulEvaluator.

Variable C : Collaborators.
Hypothesis follows :
  forall k st,
    agent4_graph C k (call_agent4_instructions st)
    = agent4_react_answer
        (agent4_tool1_check_unanswered (call_agent4_data_json st))
        (agent4_tool2_check_technical_words (call_agent4_data_json st)).

Lemma held_by_jargon_step (c c' : config) :
  held_by_jargon c -> step C c = Next c' -> held_by_jargon c'.
Proof.
  intros (Hne & Hq & Hr) S1.
  pose proof (step_query_prefix C c c' S1) as Hp.
  pose proof (contains_prefix _ _ _ Hp Hq) as Hq'.
  destruct (step_inv C c c' S1)
    as [(Hs & Hc & Hst & _)|(f & Hf & Hc & Hst & _)].
  - unfold held_by_jargon. rewrite Hc.
    repeat split; try discriminate. exact Hq'.
  - pose proof (node_agent4_judgment C _ _ f (state c) Hf) as A4.
    pose proof (node_goto_fixed C _ _ f (state c) Hf) as G.
    unfold held_by_jargon. split; [|split; [exact Hq'|]];
      rewrite Hc; [|rewrite Hst, A4];
      destruct (cur c); cbn [node_eqb] in *;
        try discriminate Hf; try congruence;
        try (rewrite G; discriminate);
        try (destruct G as [G|G]; rewrite G; discriminate).
    + (* router2 does not leave *)
      cbn [node_function] in Hf. injection Hf as <-.
      rewrite (router2_after_no (state c) (Hr eq_refl)). discriminate.
    + (* agent4 stores No *)
      intros _.
      destruct (jargon_rejected_for_good (state c) (state c) Hq
                  (is_prefix_refl _)) as [_ H].
      apply (H (agent4_graph C (calls c))). apply follows.
Qed.

Lemma held_by_jargon_exec (n : nat) (c : config) :
  held_by_jargon c -> exists c', exec C n c = Some c' /\ held_by_jargon c'.
Proof.
  revert c; induction n as [|n IH]; intros c Hc.
  - exists c; split; [reflexivity | exact Hc].
  - destruct (step_total C c (proj1 Hc)) as [c1 S1].
    destruct (IH c1 (held_by_jargon_step c c1 Hc S1)) as (c' & E & Hc').
    exists c'; split; [cbn [exec]; rewrite S1; exact E | exact Hc'].
Qed.

Lemma held_by_jargon_run (fuel : nat) (c : config) :
  held_by_jargon c -> run C fuel c = None.
Proof.
  revert c; induction fuel as [|fuel IH]; intros c Hc;
    destruct (step_total C c (proj1 Hc)) as [c1 S1];
    cbn [run]; rewrite S1; [reflexivity|].
  apply IH. apply (held_by_jargon_step c c1 Hc S1).
Qed.

End FaithfulEvaluator.

(** X10. With an evaluator that answers as its description asks (Yes if
    both tools answer Yes on the payload, No otherwise), a run whose
    initial query holds 専門用語 never finishes, whatever the other
    collaborators answer: the candidate handed to the tools is the whole
    buffer, which keeps the word, so that every evaluation is No. *)
Theorem faithful_evaluator_never_accepts_jargon :
  forall C : Collaborators,
    (forall k st,
        agent4_graph C k (call_agent4_instructions st)
        = agent4_react_answer
            (agent4_tool1_check_unanswered (call_agent4_data_json st))
            (agent4_tool2_check_technical_words (call_agent4_data_json st))) ->
    forall st : QueryState,
      contains (py "専門用語") (query st) = true ->
      forall n : nat,
        graph_run C n st = None
        /\ exists c, exec C n (start st) = Some c /\ cur c <> n_END.
Proof.
  intros C HC st Hq n.
  assert (H0 : held_by_jargon (start st))
    by (repeat split; cbn; (discriminate || exact Hq)).
  split.
  - apply (held_by_jargon_run C HC). exact H0.
  - destruct (held_by_jargon_exec C HC n (start st) H0) as (c & E & Hc & _).
    exists c; auto.
Qed.

Lemma faithful_evaluator_never_accepts_jargon_witness :
  graph_run faithful_collaborators 40 jargon_state = None.
Proof.
  apply (faithful_evaluator_never_accepts_jargon faithful_collaborators
           (fun _ st => faithful_agent4_follows st)
           jargon_state eq_refl 40%nat).
Defined.

(** X11. The dictionary tool of Agent2 answers Yes or No and nothing
    else, so that the normalisation of [call_agent2] leaves its answer as
    it is; and a Yes is kept along the run: if the tool says Yes on a
    query it says Yes on every query that extends it, in particular on
    the query any node function stores. *)
Theorem check_dictionary_is_monotone :
  (forall text : pystr,
      is_verdict (agent2_tool1_check_dictionary text)
      /\ normalize_judgment (agent2_tool1_check_dictionary text)
         = agent2_tool1_check_dictionary text
      /\ (agent2_tool1_check_dictionary text = py "Yes"
          <-> exists pre post, text = pre ++ py "特殊用語" ++ post))
  /\ (forall old new : pystr,
         is_prefix old new ->
         agent2_tool1_check_dictionary old = py "Yes" ->
         agent2_tool1_check_dictionary new = py "Yes")
  /\ (forall (C : Collaborators) (k : nat) (n : node)
             (f : QueryState -> Command) (st : QueryState),
         node_function C k n = Some f ->
         agent2_tool1_check_dictionary (query st) = py "Yes" ->
         agent2_tool1_check_dictionary (query (after (f st) st)) = py "Yes").
Proof.
  assert (Y : forall text, agent2_tool1_check_dictionary text = py "Yes"
                           <-> contains (py "特殊用語") text = true).
  { intros text. unfold agent2_tool1_check_dictionary.
    destruct (contains (py "特殊用語") text);
      split; intros E; (reflexivity || discriminate E). }
  assert (M : forall old new, is_prefix old new ->
                agent2_tool1_check_dictionary old = py "Yes" ->
                agent2_tool1_check_dictionary new = py "Yes").
  { intros old new Hp. rewrite !Y. apply contains_prefix, Hp. }
  split; [|split].
  - intros text. split; [|split].
    + unfold agent2_tool1_check_dictionary.
      destruct (contains (py "特殊用語") text); [left | right]; reflexivity.
    + unfold agent2_tool1_check_dictionary.
      destruct (contains (py "特殊用語") text); reflexivity.
    + rewrite Y. apply contains_spec.
  - exact M.
  - intros C k n f st Hf. apply M. eapply node_query_prefix; eauto.
Qed.

Lemma check_dictionary_is_monotone_witness :
  agent2_tool1_check_dictionary
    (query (after (call_agent1 (fun _ => py "No date appended.")
                               (initial_state (py "特殊用語とは")))
                  (initial_state (py "特殊用語とは"))))
  = py "Yes".
Proof.
  apply (proj2 (proj2 check_dictionary_is_monotone)
               accepting_collaborators 0%nat n_agent1
               (call_agent1 (fun _ => py "No date appended."))
               (initial_state (py "特殊用語とは")));
    reflexivity.
Defined.

(* ===================================================================== *)
(** ** 24b. What the evaluation collaborator is handed (C5) *)
(* ===================================================================== *)

Lemma rejoin_line_break (c : N) : Json.rejoin c = 10 <-> c = 10.
Proof.
  unfold Json.rejoin. destruct (c <? 65536) eqn:E; [tauto|].
  unfold Json.join_surrogates.
  generalize (N.lor (N.shiftl (N.land (N.lor 55296
                       (N.land (N.shiftr (c - 65536) 10) 1023)) 1023) 10)
                    (N.land (N.lor 56320 (N.land (c - 65536) 1023)) 1023)).
  intros x. lia.
Qed.

Lemma join_surrogates_line_break (hi lo : N) :
  Json.join_surrogates hi lo <> 10.
Proof.
  unfold Json.join_surrogates.
  generalize (N.lor (N.shiftl (N.land hi 1023) 10) (N.land lo 1023)).
  intros x. lia.
Qed.

(** Reading a text back neither adds nor removes a line break. *)
Lemma read_back_line_breaks (n : nat) (s : pystr) :
  (List.length s <= n)%nat ->
  count_occ N.eq_dec (Json.read_back s) 10 = count_occ N.eq_dec s 10.
Proof.
  revert s; induction n as [|n IH]; intros s Hs.
  - destruct s; [reflexivity | cbn [List.length] in Hs; lia].
  - destruct s as [|x s]; [reflexivity|]. cbn [List.length] in Hs.
    assert (One : Json.read_back (x :: s) = Json.rejoin x :: Json.read_back s
                  -> count_occ N.eq_dec (Json.read_back (x :: s)) 10
                     = count_occ N.eq_dec (x :: s) 10).
    { intros ->. destruct (N.eq_dec x 10) as [Ex|Ex].
      - rewrite (count_occ_cons_eq N.eq_dec s Ex).
        rewrite (count_occ_cons_eq N.eq_dec _
                   (proj2 (rejoin_line_break x) Ex)).
        rewrite IH by lia. reflexivity.
      - rewrite (count_occ_cons_neq N.eq_dec s Ex).
        rewrite count_occ_cons_neq
          by (intros E; apply Ex; apply rejoin_line_break; exact E).
        apply IH; lia. }
    destruct s as [|y s]; [apply One; reflexivity|].
    destruct (Json.is_high_surrogate x && Json.is_low_surrogate y) eqn:E.
    + apply andb_true_iff in E. destruct E as [E1 E2].
      rewrite (JsonFacts.read_back_pair x y s E1 E2).
      rewrite count_occ_cons_neq by apply join_surrogates_line_break.
      rewrite count_occ_cons_neq
        by (intros ->; vm_compute in E1; discriminate E1).
      rewrite count_occ_cons_neq
        by (intros ->; vm_compute in E2; discriminate E2).
      cbn [List.length] in Hs. apply IH; lia.
    + apply One. apply JsonFacts.read_back_single.
      apply andb_false_iff in E. exact E.
Qed.

(** The buffer [prompt1] leaves, read back: the marker and its two line
    breaks stay where they are. *)
Lemma read_back_after_draft (q0 draft : pystr) :
  Json.read_back (q0 ++ nl ++ py "[Prompt1's answer draft]:" ++ nl ++ draft)
  = Json.read_back q0 ++ nl ++ py "[Prompt1's answer draft]:" ++ nl
    ++ Json.read_back draft.
Proof.
  rewrite (read_back_app_upto (List.length q0)) by
    (apply Nat.le_refl || reflexivity).
  f_equal.
  rewrite (app_assoc (py "[Prompt1's answer draft]:") nl draft).
  rewrite (app_assoc nl (py "[Prompt1's answer draft]:" ++ nl) draft).
  rewrite read_back_below_surrogates by (vm_compute; reflexivity).
  rewrite <- (app_assoc nl (py "[Prompt1's answer draft]:" ++ nl)).
  rewrite <- (app_assoc (py "[Prompt1's answer draft]:") nl).
  reflexivity.
Qed.

(** The prompt is the only text on which the answer of the collaborator
    matters to [call_agent4]. *)
Lemma call_agent4_prompt_unique (st : QueryState) (p : pystr) :
  (forall invoke : pystr -> pystr,
      agent4_judgment (after (call_agent4 invoke st) st)
      = Some (normalize_judgment (invoke p))) ->
  p = call_agent4_instructions st.
Proof.
  intros H.
  pose (invoke := fun x : pystr =>
                    if str_eqb x p then py "Yes" else py "No").
  specialize (H invoke).
  change (agent4_judgment (after (call_agent4 invoke st) st))
    with (Some (normalize_judgment (invoke (call_agent4_instructions st))))
    in H.
  unfold invoke in H. rewrite str_eqb_refl in H.
  destruct (str_eqb (call_agent4_instructions st) p) eqn:E.
  - apply str_eqb_eq in E. symmetry; exact E.
  - exfalso. injection H as H. vm_compute in H. discriminate H.
Qed.

(** C5.  The Evaluate node asks the evaluation collaborator one prompt,
    and what it stores is the answer to that prompt, normalised: no other
    text handed to the collaborator matters, and a prompt of which this
    holds is that prompt.  The text after the introducing words on the
    second line of the prompt is the JSON text of the payload; loading it
    gives the same string under query and under answer_candidate: the
    whole query buffer as json reads it back, which is the buffer itself
    when it is plain text.  When Evaluate runs after Draft that string is
    the earlier buffer, the marker and the draft, never the draft alone. *)
Theorem answer_candidate_is_whole_query :
  (forall st : QueryState,
      (forall invoke : pystr -> pystr,
          agent4_judgment (after (call_agent4 invoke st) st)
          = Some (normalize_judgment (invoke (call_agent4_instructions st))))
      /\ (forall invoke1 invoke2 : pystr -> pystr,
             invoke1 (call_agent4_instructions st)
             = invoke2 (call_agent4_instructions st) ->
             call_agent4 invoke1 st = call_agent4 invoke2 st)
      /\ (forall p : pystr,
             (forall invoke : pystr -> pystr,
                 agent4_judgment (after (call_agent4 invoke st) st)
                 = Some (normalize_judgment (invoke p))) ->
             p = call_agent4_instructions st)
      /\ (exists data a,
             Json.loads (json_of_instructions (call_agent4_instructions st))
             = Some data
             /\ data = [(py "query", a); (py "answer_candidate", a)]
             /\ dict_get (py "answer_candidate") data = Some a
             /\ dict_get (py "query") data = Some a
             /\ a = Json.read_back (query st)
             /\ (Json.plain_text (query st) = true -> a = query st)))
  /\ (forall (invoke0 : pystr -> pystr) (st0 : QueryState),
         let st := after (prompt1 invoke0 st0) st0 in
         let draft := strip (invoke0 (prompt1_prompt_text st0)) in
         exists data a,
           Json.loads (json_of_instructions (call_agent4_instructions st))
           = Some data
           /\ dict_get (py "answer_candidate") data = Some a
           /\ a = Json.read_back (query st0) ++ nl
                  ++ py "[Prompt1's answer draft]:" ++ nl
                  ++ Json.read_back draft
           /\ a <> draft
           /\ a <> Json.read_back draft).
Proof.
  split; [intros st; split; [|split; [|split]] | intros invoke0 st0 st draft].
  - intros invoke. reflexivity.
  - intros invoke1 invoke2 E. unfold call_agent4. rewrite E. reflexivity.
  - apply call_agent4_prompt_unique.
  - exists [(py "query", Json.read_back (query st));
            (py "answer_candidate", Json.read_back (query st))],
           (Json.read_back (query st)).
    rewrite json_of_instructions_found, payload_loads.
    rewrite payload_get_query, payload_get_answer.
    repeat split. apply JsonFacts.read_back_plain.
  - exists [(py "query", Json.read_back (query st));
            (py "answer_candidate", Json.read_back (query st))],
           (Json.read_back (query st)).
    rewrite json_of_instructions_found, payload_loads, payload_get_answer.
    split; [reflexivity|]. split; [reflexivity|].
    change (query st)
      with (query st0 ++ nl ++ py "[Prompt1's answer draft]:" ++ nl ++ draft).
    rewrite read_back_after_draft.
    split; [reflexivity|]. split.
    + intros E. apply (f_equal (fun s => count_occ N.eq_dec s 10)) in E.
      rewrite !count_occ_app in E.
      rewrite (read_back_line_breaks (List.length draft) draft) in E
        by apply Nat.le_refl.
      replace (count_occ N.eq_dec nl 10) with 1%nat in E by reflexivity.
      lia.
    + intros E. apply (f_equal (@List.length N)) in E.
      rewrite !length_app in E. cbn [List.length nl] in E. lia.
Qed.

Lemma answer_candidate_is_whole_query_witness :
  call_agent4 yes_to_all jargon_state
  = call_agent4 (agent4_graph accepting_collaborators 3) jargon_state
  /\ exists data,
       Json.loads (json_of_instructions
                     (call_agent4_instructions jargon_state)) = Some data
       /\ dict_get (py "answer_candidate") data = Some (py "専門用語").
Proof.
  destruct (proj1 answer_candidate_is_whole_query jargon_state)
    as (_ & H2 & _ & data & a & H4 & _ & H5 & _ & _ & H6).
  split.
  - apply H2. reflexivity.
  - exists data. split; [exact H4|].
    rewrite H5. f_equal. apply H6. vm_compute; reflexivity.
Defined.

(* ===================================================================== *)
(** ** 25. The tools of Agent1 and Agent3 *)
(* ===================================================================== *)

Lemma decimal_digit_is_digit (n : N) :
  n < 10 -> is_digit (decimal_digit n) = true.
Proof. unfold is_digit, decimal_digit. lia. Qed.

Lemma date_str_is_iso (d : date) :
  date_in_range d = true -> is_iso_date (date_str d) = true.
Proof.
  unfold date_in_range. destruct d as [y m dd]. cbn [year month day].
  intros H.
  assert (Hy : y <= 9999) by lia.
  assert (Hm : m <= 12) by lia.
  assert (Hd : dd <= 31) by lia.
  clear H.
  unfold date_str, format_04d, format_02d. cbn [year month day].
  change (py "-") with [45]. cbn [app is_iso_date].
  rewrite !decimal_digit_is_digit; try reflexivity;
    try (apply N.mod_lt; discriminate);
    apply N.Div0.div_lt_upper_bound; lia.
Qed.

(** X12. [agent1_tool1_check_date_in_query] answers the empty string
    exactly when neither 最新の nor 現在の occurs in the text; otherwise it
    answers the text of today's date, which has the form YYYY-MM-DD its
    docstring gives, whatever else the text holds. *)
Theorem check_date_in_query_format :
  forall (today : date) (text : pystr),
    date_in_range today = true ->
    let answer := agent1_tool1_check_date_in_query today text in
    (answer = []
     <-> contains (py "最新の") text = false
         /\ contains (py "現在の") text = false)
    /\ (answer <> [] -> answer = date_str today /\ is_iso_date answer = true)
    /\ (contains (py "最新の") text = true \/ contains (py "現在の") text = true
        -> answer = date_str today).
Proof.
  intros today text Hr answer. subst answer.
  pose proof (date_str_is_iso today Hr) as Hiso.
  unfold agent1_tool1_check_date_in_query. cbn [existsb].
  rewrite orb_false_r.
  destruct (contains (py "最新の") text), (contains (py "現在の") text);
    cbn [orb];
    (split; [|split]);
    try (split; [intros E; rewrite E in Hiso; discriminate Hiso
                | intros [E1 E2]; discriminate]);
    try (intros _; split; [reflexivity | exact Hiso]);
    try (intros _; reflexivity);
    try (split; [intros _; split; reflexivity | intros _; reflexivity]);
    try (intros E; contradiction E; reflexivity);
    try (intros [E|E]; discriminate E).
Qed.

Lemma check_date_in_query_format_witness :
  agent1_tool1_check_date_in_query (mkDate 2026 11 3)
    (py "最新の情報も教えてください。")
  = py "2026-11-03".
Proof.
  apply (check_date_in_query_format (mkDate 2026 11 3)
           (py "最新の情報も教えてください。") eq_refl).
  left; reflexivity.
Defined.

Lemma tagged_injective (tag q1 q2 : pystr) :
  tag ++ q1 ++ py "'" = tag ++ q2 ++ py "'" -> q1 = q2.
Proof.
  intros E. apply app_inv_head in E. apply app_inv_tail in E. exact E.
Qed.

Lemma search_document_text (q : pystr) :
  agent3_tool1_search_document q
  = py "[Document] Found info about '" ++ q ++ py "'".
Proof. unfold agent3_tool1_search_document. reflexivity. Qed.

Lemma search_slack_text (q : pystr) :
  agent3_tool2_search_slack q = py "[Slack] Found info about '" ++ q ++ py "'".
Proof. unfold agent3_tool2_search_slack. reflexivity. Qed.

Lemma search_github_issue_text (q : pystr) :
  agent3_tool3_search_github_issue q
  = py "[GitHubIssue] Found info about '" ++ q ++ py "'".
Proof. unfold agent3_tool3_search_github_issue. reflexivity. Qed.

Lemma search_internet_text (q : pystr) :
  agent3_tool4_search_internet q
  = py "[Internet] Found info about '" ++ q ++ py "'".
Proof. unfold agent3_tool4_search_internet. reflexivity. Qed.

Lemma agent3_search_text (t : search_tool) (q : pystr) :
  agent3_search t q
  = match t with
    | search_document => py "[Document] Found info about '"
    | search_slack => py "[Slack] Found info about '"
    | search_github_issue => py "[GitHubIssue] Found info about '"
    | search_internet => py "[Internet] Found info about '"
    end ++ q ++ py "'".
Proof.
  destruct t; unfold agent3_search.
  - apply search_document_text.
  - apply search_slack_text.
  - apply search_github_issue_text.
  - apply search_internet_text.
Qed.

(** X13. What a search tool of Agent3 returns tells which tool it was and
    what it was asked: two results are equal only when they come from the
    same tool and the same term, and the term occurs in the result as it
    was given. *)
Theorem search_results_keep_their_source :
  forall (t1 t2 : search_tool) (q1 q2 : pystr),
    (agent3_search t1 q1 = agent3_search t2 q2 -> t1 = t2 /\ q1 = q2)
    /\ contains q1 (agent3_search t1 q1) = true.
Proof.
  intros t1 t2 q1 q2. rewrite !agent3_search_text. split.
  - destruct t1, t2; intros E;
      first
        [ exfalso;
          apply (f_equal (fun l => nth 1 l 0)) in E;
          vm_compute in E; discriminate E
        | split; [reflexivity|];
          apply tagged_injective in E; exact E ].
  - apply contains_spec. eexists; eexists; reflexivity.
Qed.

Lemma search_results_keep_their_source_witness :
  search_slack = search_slack /\ py "LangGraph" = py "LangGraph".
Proof.
  apply (search_results_keep_their_source search_slack search_slack
           (py "LangGraph") (py "LangGraph")).
  reflexivity.
Defined.

(* ===================================================================== *)
(** ** 26. Runs: the trace, and how a run ends *)
(* ===================================================================== *)

Lemma step_from_node (C : Collaborators) (c c' : config) :
  cur c <> n_START -> step C c = Next c' ->
  exists f, node_function C (calls c) (cur c) = Some f
            /\ cur c' = goto (f (state c))
            /\ state c' = after (f (state c)) (state c).
Proof.
  intros Hs S1.
  destruct (step_inv C c c' S1) as [(E & _)|(f & Hf & Hc & Hst & _)];
    [contradiction | eauto].
Qed.

Lemma goto_not_start (C : Collaborators) (k : nat) (n : node)
      (f : QueryState -> Command) (st : QueryState) :
  node_function C k n = Some f -> goto (f st) <> n_START.
Proof.
  intros Hf. pose proof (node_goto_fixed C k n f st Hf) as G.
  destruct n; try discriminate Hf; try (rewrite G; discriminate);
    destruct G as [G|G]; rewrite G; discriminate.
Qed.

Lemma exec_trace (C : Collaborators) (n : nat) (c c' : config) :
  cur c <> n_START -> exec C n c = Some c' ->
  cur c' <> n_START
  /\ exists more, debug_info (state c') = debug_info (state c) ++ more
                  /\ List.length more = n.
Proof.
  revert c; induction n as [|n IH]; intros c Hs E.
  - injection E as <-. split; [exact Hs|].
    exists []. rewrite app_nil_r. split; reflexivity.
  - cbn [exec] in E. destruct (step C c) as [c1| |] eqn:S1; try discriminate.
    destruct (step_from_node C c c1 Hs S1) as (f & Hf & Hc & Hst).
    assert (Hs1 : cur c1 <> n_START)
      by (rewrite Hc; eapply goto_not_start; eauto).
    destruct (IH c1 Hs1 E) as (Hs' & more & Em & Hl).
    split; [exact Hs'|].
    destruct (node_trace_entry C _ _ f (state c) Hf)
      as [entry He].
    exists (entry :: more). rewrite Em, Hst, He, <- app_assoc.
    split; [reflexivity | cbn [List.length]; lia].
Qed.

(** The trace after the entry edge and [n] more steps. *)
Lemma exec_trace_from_start :
  forall (C : Collaborators) (st : QueryState) (n : nat) (c : config),
    exec C (S n) (start st) = Some c ->
    exists more,
      debug_info (state c) = debug_info st ++ more
      /\ List.length more = n.
Proof.
  intros C st n c E. cbn [exec] in E. unfold start in E.
  rewrite step_start in E.
  apply (exec_trace C n (mkConfig n_agent1 st 0) c); [discriminate | exact E].
Qed.

(** X14. One trace entry per node that has run: after the entry edge and
    [n] more steps of a run, the trace is the initial trace followed by
    exactly [n] entries. *)
Theorem trace_counts_the_nodes :
  forall (C : Collaborators) (st : QueryState) (n : nat) (c : config),
    exec C (S n) (start st) = Some c ->
    exists more,
      debug_info (state c) = debug_info st ++ more
      /\ List.length more = n.
Proof.
  intros C st n c E. cbn [exec] in E. unfold start in E.
  rewrite step_start in E.
  apply (exec_trace C n (mkConfig n_agent1 st 0) c); [discriminate | exact E].
Qed.

Lemma trace_counts_the_nodes_witness :
  exists more,
    debug_info (state sample_config_after_five) = [] ++ more
    /\ List.length more = 4%nat.
Proof.
  apply (trace_counts_the_nodes accepting_collaborators
           (initial_state (py "q")) 4 sample_config_after_five).
  vm_compute; reflexivity.
Defined.

Lemma least_to_end_step (C : Collaborators) (c c' : config) :
  step C c = Next c' ->
  (least_to_end (cur c) <= S (least_to_end (cur c')))%nat.
Proof.
  intros S1.
  destruct (step_inv C c c' S1) as [(Hs & Hc & _)|(f & Hf & Hc & _)].
  - rewrite Hs, Hc. cbn. lia.
  - pose proof (node_goto_fixed C _ _ f (state c) Hf) as G. rewrite Hc.
    destruct (cur c); try discriminate Hf;
      try (rewrite G; cbn; lia);
      destruct G as [G|G]; rewrite G; cbn; lia.
Qed.

Lemma least_to_end_exec (C : Collaborators) (n : nat) (c c' : config) :
  exec C n c = Some c' ->
  (least_to_end (cur c) <= n + least_to_end (cur c'))%nat.
Proof.
  revert c; induction n as [|n IH]; intros c E.
  - injection E as <-. lia.
  - cbn [exec] in E. destruct (step C c) as [c1| |] eqn:S1; try discriminate.
    pose proof (least_to_end_step C c c1 S1). specialize (IH c1 E). lia.
Qed.

Lemma last_snoc (l : list pystr) (x d : pystr) : last (l ++ [x]) d = x.
Proof. apply last_last. Qed.

Lemma last_app_nonempty (l m : list pystr) (d : pystr) :
  m <> [] -> last (l ++ m) d = last m d.
Proof.
  intros Hm. induction l as [|x l IH]; [reflexivity|].
  cbn [app]. destruct (l ++ m) as [|y r] eqn:E.
  - apply app_eq_nil in E. destruct E as [_ E]. contradiction.
  - rewrite <- IH. reflexivity.
Qed.

Lemma settled_step (C : Collaborators) (c c' : config) :
  settled c \/ cur c = n_START -> step C c = Next c' -> settled c'.
Proof.
  intros Hc S1.
  destruct (step_inv C c c' S1) as [(Hs & Hn & _)|(f & Hf & Hn & Hst & _)].
  - unfold settled. rewrite Hn. repeat split; try discriminate.
    intros H; contradiction H; reflexivity.
  - assert (Hset : settled c).
    { destruct Hc as [Hc|Hc]; [exact Hc|].
      rewrite Hc in Hf. discriminate Hf. }
    destruct Hset as (_ & H2 & _).
    pose proof (node_agent2_judgment C _ _ f (state c) Hf) as A2.
    pose proof (node_goto_fixed C _ _ f (state c) Hf) as G.
    unfold settled. rewrite Hn, Hst. split; [|split].
    + eapply goto_not_start; eauto.
    + rewrite A2.
      destruct (cur c); cbn [node_eqb] in *; try discriminate Hf;
        try (rewrite G; intros N1 N2;
             solve [ contradiction N1; reflexivity
                   | contradiction N2; reflexivity
                   | apply H2; discriminate
                   | eexists; split;
                     [reflexivity | apply normalize_judgment_is_verdict] ]);
        destruct G as [G|G]; rewrite G; intros _ _; apply H2; discriminate.
    + intros He.
      destruct (cur c); try discriminate Hf;
        try (rewrite G in He; discriminate He);
        try (destruct G as [G|G]; rewrite G in He; discriminate He).
      cbn [node_function] in Hf. injection Hf as <-.
      revert He. unfold router2.
      destruct (agent4_judgment (state c)) as [j|] eqn:E4; [|discriminate].
      destruct (str_eqb j (py "Yes")) eqn:Ej; [|discriminate].
      intros _. apply str_eqb_eq in Ej. subst j.
      split.
      * change (agent4_judgment (after _ (state c)))
          with (agent4_judgment (state c)). exact E4.
      * change (debug_info (after _ (state c)))
          with (debug_info (state c) ++ [py "[Router2] Agent4=Yes => END"]).
        apply last_snoc.
Qed.

Lemma settled_exec (C : Collaborators) (n : nat) (c c' : config) :
  settled c \/ cur c = n_START -> exec C n c = Some c' ->
  settled c' \/ cur c' = n_START.
Proof.
  revert c; induction n as [|n IH]; intros c Hc E.
  - injection E as <-. exact Hc.
  - cbn [exec] in E. destruct (step C c) as [c1| |] eqn:S1; try discriminate.
    apply (IH c1); [left; eapply settled_step; eauto | exact E].
Qed.

(** What holds of the state a finished run returns. *)
Lemma finished_run_facts :
  forall (C : Collaborators) (fuel : nat) (st final : QueryState),
    graph_run C fuel st = Some final ->
    agent4_judgment final = Some (py "Yes")
    /\ (agent2_judgment final = Some (py "Yes")
        \/ agent2_judgment final = Some (py "No"))
    /\ (exists more,
           debug_info final = debug_info st ++ more
           /\ (6 <= List.length more)%nat
           /\ last more [] = py "[Router2] Agent4=Yes => END")
    /\ is_prefix (query st) (query final).
Proof.
  intros C fuel st final E.
  destruct (run_reaches_end C fuel (start st) final E)
    as (n & c & _ & En & He & Hs). subst final.
  pose proof (least_to_end_exec C n (start st) c En) as Hl.
  rewrite He in Hl. cbn [start cur least_to_end] in Hl.
  destruct n as [|n]; [lia|].
  destruct (exec_trace_from_start C st n c En) as (more & Em & Hm).
  destruct (settled_exec C (S n) (start st) c (or_intror eq_refl) En)
    as [(_ & H2 & H3)|Hc]; [|rewrite He in Hc; discriminate Hc].
  destruct (H3 He) as [H4 Hlast].
  destruct H2 as (j & Hj & Hv);
    [rewrite He; discriminate | rewrite He; discriminate |].
  split; [exact H4|]. split.
  - rewrite Hj. destruct Hv as [-> | ->]; auto.
  - split.
    + exists more. split; [exact Em|]. split; [lia|].
      rewrite Em in Hlast.
      destruct more as [|e more]; [cbn [List.length] in Hm; lia|].
      rewrite last_app_nonempty in Hlast by discriminate. exact Hlast.
    + apply (exec_query_prefix C (S n) (start st) c En).
Qed.

(** X15. A run finishes only on acceptance: the state it returns has the
    evaluation verdict Yes and a classification verdict Yes or No; its
    trace is the initial trace followed by six entries at least, the last
    of which is the line [router2] writes when it stops; and its query
    starts with the initial query. *)
Theorem finished_run_was_accepted :
  forall (C : Collaborators) (fuel : nat) (st final : QueryState),
    graph_run C fuel st = Some final ->
    agent4_judgment final = Some (py "Yes")
    /\ (agent2_judgment final = Some (py "Yes")
        \/ agent2_judgment final = Some (py "No"))
    /\ (exists more,
           debug_info final = debug_info st ++ more
           /\ (6 <= List.length more)%nat
           /\ last more [] = py "[Router2] Agent4=Yes => END")
    /\ is_prefix (query st) (query final).
Proof.
  intros C fuel st final E.
  destruct (run_reaches_end C fuel (start st) final E)
    as (n & c & _ & En & He & Hs). subst final.
  pose proof (least_to_end_exec C n (start st) c En) as Hl.
  rewrite He in Hl. cbn [start cur least_to_end] in Hl.
  destruct n as [|n]; [lia|].
  destruct (exec_trace_from_start C st n c En) as (more & Em & Hm).
  destruct (settled_exec C (S n) (start st) c (or_intror eq_refl) En)
    as [(_ & H2 & H3)|Hc]; [|rewrite He in Hc; discriminate Hc].
  destruct (H3 He) as [H4 Hlast].
  destruct H2 as (j & Hj & Hv);
    [rewrite He; discriminate | rewrite He; discriminate |].
  split; [exact H4|]. split.
  - rewrite Hj. destruct Hv as [-> | ->]; auto.
  - split.
    + exists more. split; [exact Em|]. split; [lia|].
      rewrite Em in Hlast.
      destruct more as [|e more]; [cbn [List.length] in Hm; lia|].
      rewrite last_app_nonempty in Hlast by discriminate. exact Hlast.
    + apply (exec_query_prefix C (S n) (start st) c En).
Qed.

Lemma finished_run_was_accepted_witness :
  agent4_judgment sample_final_state = Some (py "Yes").
Proof.
  apply (finished_run_was_accepted accepting_collaborators 9
           (initial_state (py "q")) sample_final_state).
  vm_compute; reflexivity.
Defined.

Lemma run_next (C : Collaborators) (fuel : nat) (c c' : config) :
  step C c = Next c' -> run C (S fuel) c = run C fuel c'.
Proof. intros S1. cbn [run]. rewrite S1. reflexivity. Qed.

Lemma run_out_of_fuel (C : Collaborators) (c c' : config) :
  step C c = Next c' -> run C 0 c = None.
Proof. intros S1. cbn [run]. rewrite S1. reflexivity. Qed.

Lemma run_at_end (C : Collaborators) (fuel : nat) (st : QueryState)
      (k : nat) :
  run C fuel (mkConfig n_END st k) = Some st.
Proof. destruct fuel; reflexivity. Qed.

Lemma router1_on_yes (st : QueryState) :
  agent2_judgment st = Some (py "Yes") -> goto (router1 st) = n_prompt1.
Proof. intros E. unfold router1. rewrite E. reflexivity. Qed.

Lemma router1_on_no (st : QueryState) :
  agent2_judgment st = Some (py "No") -> goto (router1 st) = n_agent3.
Proof. intros E. unfold router1. rewrite E. reflexivity. Qed.

Lemma router2_on_yes (st : QueryState) :
  agent4_judgment st = Some (py "Yes") -> goto (router2 st) = n_END.
Proof. intros E. unfold router2. rewrite E. reflexivity. Qed.

Lemma step_to (C : Collaborators) (n m : node) (st : QueryState) (k : nat)
      (f : QueryState -> Command) :
  node_function C k n = Some f -> goto (f st) = m ->
  step C (mkConfig n st k)
  = Next (mkConfig m (after (f st) st) (if calls_service n then S k else k)).
Proof. intros Hf <-. apply step_node, Hf. Qed.

(** X16. With an evaluator whose stripped answer is always Yes the run
    finishes at the first evaluation, within eight steps.  When the
    classifier's verdict is Yes the run skips Gather: it finishes in
    seven steps and adds six entries to the trace.  When the verdict is
    No, Gather runs once: seven steps are not enough, the run finishes at
    the eighth and adds seven entries. *)
Theorem accepting_evaluator_ends_the_run :
  forall C : Collaborators,
    (forall k p, strip (agent4_graph C k p) = py "Yes") ->
    forall st : QueryState,
    exists final more,
      graph_run C 8 st = Some final
      /\ agent4_judgment final = Some (py "Yes")
      /\ debug_info final = debug_info st ++ more
      /\ ((agent2_judgment final = Some (py "Yes")
           /\ graph_run C 7 st = Some final
           /\ List.length more = 6%nat)
          \/ (agent2_judgment final = Some (py "No")
              /\ graph_run C 7 st = None
              /\ List.length more = 7%nat)).
Proof.
  intros C HC st.
  assert (A4 : forall k s,
             agent4_judgment (after (call_agent4 (agent4_graph C k) s) s)
             = Some (py "Yes")).
  { intros k s.
    change (agent4_judgment (after (call_agent4 (agent4_graph C k) s) s))
      with (Some (normalize_judgment
                    (agent4_graph C k (call_agent4_instructions s)))).
    f_equal. apply normalize_judgment_yes_iff, HC. }
  set (s1 := after (call_agent1 (agent1_graph C 0) st) st).
  set (s2 := after (call_agent2 (agent2_graph C 1) s1) s1).
  set (s3 := after (router1 s2) s2).
  assert (T1 : step C (start st) = Next (mkConfig n_agent1 st 0))
    by apply step_start.
  assert (T2 : step C (mkConfig n_agent1 st 0) = Next (mkConfig n_agent2 s1 1))
    by (apply (step_to C n_agent1 n_agent2 st 0 _ eq_refl); reflexivity).
  assert (T3 : step C (mkConfig n_agent2 s1 1)
               = Next (mkConfig n_router1 s2 2))
    by (apply (step_to C n_agent2 n_router1 s1 1 _ eq_refl); reflexivity).
  assert (V2 : agent2_judgment s2
               = Some (normalize_judgment
                         (agent2_graph C 1 (call_agent2_instructions s1))))
    by reflexivity.
  assert (V3 : agent2_judgment s3 = agent2_judgment s2).
  { subst s3. destruct (router1_shape s2) as [d ->]. reflexivity. }
  unfold graph_run.
  destruct (normalize_judgment_is_verdict
              (agent2_graph C 1 (call_agent2_instructions s1))) as [Ey|En].
  - (* classified: Draft comes next *)
    rewrite Ey in V2.
    set (s4 := after (prompt1 (llm C 2) s3) s3).
    set (s5 := after (call_agent4 (agent4_graph C 3) s4) s4).
    set (s6 := after (router2 s5) s5).
    assert (T4 : step C (mkConfig n_router1 s2 2)
                 = Next (mkConfig n_prompt1 s3 2))
      by (apply (step_to C n_router1 n_prompt1 s2 2 _ eq_refl);
          apply router1_on_yes, V2).
    assert (T5 : step C (mkConfig n_prompt1 s3 2)
                 = Next (mkConfig n_agent4 s4 3))
      by (apply (step_to C n_prompt1 n_agent4 s3 2 _ eq_refl); reflexivity).
    assert (T6 : step C (mkConfig n_agent4 s4 3)
                 = Next (mkConfig n_router2 s5 4))
      by (apply (step_to C n_agent4 n_router2 s4 3 _ eq_refl); reflexivity).
    assert (T7 : step C (mkConfig n_router2 s5 4)
                 = Next (mkConfig n_END s6 4))
      by (apply (step_to C n_router2 n_END s5 4 _ eq_refl);
          apply router2_on_yes, A4).
    assert (R7 : run C 7 (start st) = Some s6).
    { rewrite (run_next C 6 _ _ T1), (run_next C 5 _ _ T2),
        (run_next C 4 _ _ T3), (run_next C 3 _ _ T4), (run_next C 2 _ _ T5),
        (run_next C 1 _ _ T6), (run_next C 0 _ _ T7).
      apply run_at_end. }
    assert (E7 : exec C 7 (start st) = Some (mkConfig n_END s6 4)).
    { cbn [exec]. rewrite T1, T2, T3, T4, T5, T6, T7. reflexivity. }
    destruct (exec_trace_from_start C st 6 _ E7) as (more & Em & Hl).
    exists s6, more. split; [exact (run_more_fuel C 7 1 _ _ R7)|].
    split.
    { subst s6. destruct (router2_shape s5) as [d ->]. apply A4. }
    split; [exact Em|]. left. split; [|split; [exact R7 | exact Hl]].
    subst s6 s5 s4. destruct (router2_shape
      (after (call_agent4 (agent4_graph C 3) (after (prompt1 (llm C 2) s3) s3))
             (after (prompt1 (llm C 2) s3) s3))) as [d ->].
    change (agent2_judgment s3 = Some (py "Yes")). rewrite V3. exact V2.
  - (* not classified: Gather, then Draft *)
    rewrite En in V2.
    set (s4 := after (call_agent3 (agent3_graph C 2) s3) s3).
    set (s5 := after (prompt1 (llm C 3) s4) s4).
    set (s6 := after (call_agent4 (agent4_graph C 4) s5) s5).
    set (s7 := after (router2 s6) s6).
    assert (T4 : step C (mkConfig n_router1 s2 2)
                 = Next (mkConfig n_agent3 s3 2))
      by (apply (step_to C n_router1 n_agent3 s2 2 _ eq_refl);
          apply router1_on_no, V2).
    assert (T5 : step C (mkConfig n_agent3 s3 2)
                 = Next (mkConfig n_prompt1 s4 3))
      by (apply (step_to C n_agent3 n_prompt1 s3 2 _ eq_refl); reflexivity).
    assert (T6 : step C (mkConfig n_prompt1 s4 3)
                 = Next (mkConfig n_agent4 s5 4))
      by (apply (step_to C n_prompt1 n_agent4 s4 3 _ eq_refl); reflexivity).
    assert (T7 : step C (mkConfig n_agent4 s5 4)
                 = Next (mkConfig n_router2 s6 5))
      by (apply (step_to C n_agent4 n_router2 s5 4 _ eq_refl); reflexivity).
    assert (T8 : step C (mkConfig n_router2 s6 5)
                 = Next (mkConfig n_END s7 5))
      by (apply (step_to C n_router2 n_END s6 5 _ eq_refl);
          apply router2_on_yes, A4).
    assert (R8 : run C 8 (start st) = Some s7).
    { rewrite (run_next C 7 _ _ T1), (run_next C 6 _ _ T2),
        (run_next C 5 _ _ T3), (run_next C 4 _ _ T4), (run_next C 3 _ _ T5),
        (run_next C 2 _ _ T6), (run_next C 1 _ _ T7), (run_next C 0 _ _ T8).
      apply run_at_end. }
    assert (R7 : run C 7 (start st) = None).
    { rewrite (run_next C 6 _ _ T1), (run_next C 5 _ _ T2),
        (run_next C 4 _ _ T3), (run_next C 3 _ _ T4), (run_next C 2 _ _ T5),
        (run_next C 1 _ _ T6), (run_next C 0 _ _ T7).
      apply (run_out_of_fuel C _ _ T8). }
    assert (E8 : exec C 8 (start st) = Some (mkConfig n_END s7 5)).
    { cbn [exec]. rewrite T1, T2, T3, T4, T5, T6, T7, T8. reflexivity. }
    destruct (exec_trace_from_start C st 7 _ E8) as (more & Em & Hl).
    exists s7, more. split; [exact R8|].
    split.
    { subst s7. destruct (router2_shape s6) as [d ->]. apply A4. }
    split; [exact Em|]. right. split; [|split; [exact R7 | exact Hl]].
    subst s7 s6 s5 s4. destruct (router2_shape
      (after (call_agent4 (agent4_graph C 4)
                (after (prompt1 (llm C 3)
                          (after (call_agent3 (agent3_graph C 2) s3) s3))
                       (after (call_agent3 (agent3_graph C 2) s3) s3)))
             (after (prompt1 (llm C 3)
                       (after (call_agent3 (agent3_graph C 2) s3) s3))
                    (after (call_agent3 (agent3_graph C 2) s3) s3))))
      as [d ->].
    change (agent2_judgment s3 = Some (py "No")). rewrite V3. exact V2.
Qed.

Lemma accepting_evaluator_ends_the_run_witness :
  exists final more,
    graph_run accepting_collaborators 8 (initial_state (py "q")) = Some final
    /\ agent4_judgment final = Some (py "Yes")
    /\ debug_info final = [] ++ more
    /\ ((agent2_judgment final = Some (py "Yes")
         /\ graph_run accepting_collaborators 7 (initial_state (py "q"))
            = Some final
         /\ List.length more = 6%nat)
        \/ (agent2_judgment final = Some (py "No")
            /\ graph_run accepting_collaborators 7 (initial_state (py "q"))
               = None
            /\ List.length more = 7%nat)).
Proof.
  apply (accepting_evaluator_ends_the_run accepting_collaborators).
  intros k p. vm_compute. reflexivity.
Defined.

(* ===================================================================== *)
(** ** 27. The clean-up fragment: what it lets through *)
(* ===================================================================== *)

Lemma preprocess_halves (ua : N -> bool) (ul : pystr -> pystr) (s : pystr) :
  preprocess ua ul (PyStr s)
  = trimmed (substitutions_from_sixth (substitutions_to_fifth ua ul s)).
Proof.
  unfold preprocess, trimmed, substitutions_from_sixth,
    substitutions_to_fifth. cbv zeta.
  match goal with
  | |- context [Re.sub (Re.literal (py " ,")) (py ",") ?t] =>
    generalize (Re.sub (Re.literal (py " ,")) (py ",") t)
  end.
  intros text. destruct text; reflexivity.
Qed.

Module ReFacts.

Lemma sub_scan_nonempty (fuel : nat) (r : Re.pattern) (repl s : pystr) :
  repl <> [] -> s <> [] -> Re.sub_scan fuel r repl s <> [].
Proof.
  intros Hr Hs. destruct fuel as [|fuel]; [exact Hs|].
  destruct s as [|c t]; [contradiction|]. cbn [Re.sub_scan].
  destruct (Re.match_at r (c :: t)) as [rest|]; [|discriminate].
  destruct (Nat.ltb (List.length rest) (List.length (c :: t)));
    [|discriminate].
  destruct repl; [contradiction | discriminate].
Qed.

Lemma sub_nonempty (r : Re.pattern) (repl s : pystr) :
  repl <> [] -> s <> [] -> Re.sub r repl s <> [].
Proof. apply sub_scan_nonempty. Qed.










End ReFacts.







Lemma substitutions_nonempty (ua : N -> bool) (ul : pystr -> pystr)
      (s : pystr) :
  (forall t, t <> [] -> ul t <> []) -> s <> [] ->
  substitutions_from_sixth (substitutions_to_fifth ua ul s) <> [].
Proof.
  intros Hul Hs.
  unfold substitutions_from_sixth, substitutions_to_fifth. cbv zeta.
  do 12 (apply ReFacts.sub_nonempty; [discriminate|]).
  unfold lower.
  match goal with
  | |- (if ?b then _ else _) <> [] => destruct b
  end.
  - intros E. apply map_eq_nil in E. revert E.
    apply ReFacts.sub_nonempty; [discriminate | exact Hs].
  - apply Hul. apply ReFacts.sub_nonempty; [discriminate | exact Hs].
Qed.

(** X18. Of the two unguarded accesses of [preprocess], [text[-1]] is out
    of range for the empty string only: no substitution empties a text, so
    that on every other string the function returns or fails at
    [text[0]].  (Lower-casing is taken not to empty a text.) *)
Theorem preprocess_last_fails_on_empty_only :
  forall (unicode_alnum : N -> bool) (unicode_lower : pystr -> pystr)
         (s : pystr),
    (forall t, t <> [] -> unicode_lower t <> []) ->
    (preprocess unicode_alnum unicode_lower (PyStr s) = IndexError text_last
     <-> s = [])
    /\ (s <> [] ->
        preprocess unicode_alnum unicode_lower (PyStr s)
        = IndexError text_first
        \/ exists r, preprocess unicode_alnum unicode_lower (PyStr s)
                     = Returned r).
Proof.
  intros ua ul s Hul.
  assert (N : s <> [] ->
              preprocess ua ul (PyStr s) = IndexError text_first
              \/ exists r, preprocess ua ul (PyStr s) = Returned r).
  { intros Hs. rewrite preprocess_halves.
    pose proof (substitutions_nonempty ua ul s Hul Hs) as Hn.
    revert Hn.
    generalize (substitutions_from_sixth (substitutions_to_fifth ua ul s)).
    intros text Hn. unfold trimmed.
    destruct text as [|c t] eqn:Et; [contradiction|]. rewrite <- Et.
    cbv zeta.
    destruct (if last text 0 =? 32 then removelast text else text);
      [left; reflexivity | right; eexists; reflexivity]. }
  split; [|exact N].
  split.
  - intros E. destruct s as [|c t]; [reflexivity|].
    destruct (N ltac:(discriminate)) as [E'|[r E']];
      rewrite E' in E; discriminate E.
  - intros ->. vm_compute. reflexivity.
Qed.

Lemma preprocess_last_fails_on_empty_only_witness :
  preprocess (fun _ => false) (fun t => t) (PyStr (py " "))
  = IndexError text_first
  \/ exists r,
      preprocess (fun _ => false) (fun t => t) (PyStr (py " ")) = Returned r.
Proof.
  apply (preprocess_last_fails_on_empty_only (fun _ => false) (fun t => t)
           (py " ")).
  - intros t Ht. exact Ht.
  - discriminate.
Defined.

(* ===================================================================== *)
(** ** 28. Runs on a state object (C8) *)
(* ===================================================================== *)

Lemma lookup_insert {A : Type} (m : list (Imp.ref * A)) (r a : Imp.ref)
      (v : A) :
  Imp.lookup (Imp.insert r v m) a
  = if Nat.eqb r a then Some v else Imp.lookup m a.
Proof.
  induction m as [|[k w] m IH]; cbn [Imp.insert Imp.lookup].
  - destruct (Nat.eqb r a); reflexivity.
  - destruct (Nat.eqb k r) eqn:Ekr; cbn [Imp.lookup].
    + apply Nat.eqb_eq in Ekr. subst k.
      destruct (Nat.eqb r a); reflexivity.
    + rewrite IH. destruct (Nat.eqb k a) eqn:Eka; [|reflexivity].
      apply Nat.eqb_eq in Eka. subst a. rewrite Nat.eqb_sym, Ekr.
      reflexivity.
Qed.

Lemma lookup_insert_same {A : Type} (m : list (Imp.ref * A)) (r : Imp.ref)
      (v : A) :
  Imp.lookup (Imp.insert r v m) r = Some v.
Proof. rewrite lookup_insert, Nat.eqb_refl. reflexivity. Qed.

Lemma lookup_insert_other {A : Type} (m : list (Imp.ref * A))
      (r a : Imp.ref) (v : A) :
  a <> r -> Imp.lookup (Imp.insert r v m) a = Imp.lookup m a.
Proof.
  intros N. rewrite lookup_insert.
  destruct (Nat.eqb r a) eqn:E; [|reflexivity].
  apply Nat.eqb_eq in E. congruence.
Qed.

Lemma same_elsewhere_refl (s : Imp.store) (o d : Imp.ref) :
  Imp.same_elsewhere s s o d.
Proof. split; intros; reflexivity. Qed.

Lemma same_elsewhere_trans (s1 s2 s3 : Imp.store) (o d : Imp.ref) :
  Imp.same_elsewhere s1 s2 o d -> Imp.same_elsewhere s2 s3 o d ->
  Imp.same_elsewhere s1 s3 o d.
Proof.
  intros [A1 B1] [A2 B2]. split; intros a N.
  - rewrite A2, A1 by exact N. reflexivity.
  - rewrite B2, B1 by exact N. reflexivity.
Qed.

Lemma bind_ok {A B : Type} (m : Imp.M A) (k : A -> Imp.M B)
      (s s1 : Imp.store) (a : A) :
  m s = Some (a, s1) -> Imp.bind m k s = k a s1.
Proof. intros E. unfold Imp.bind. rewrite E. reflexivity. Qed.

(** Reading an attribute. *)
Lemma getattr_holds {A : Type} (s : Imp.store) (o d : Imp.ref)
      (st : QueryState) (field : Imp.object -> A) :
  Imp.holds s o d st ->
  Imp.getattr o field s = Some (field (Imp.obj_of st d), s).
Proof. intros [Ho _]. unfold Imp.getattr. rewrite Ho. reflexivity. Qed.

(** Assigning to an attribute. *)
Lemma setattr_holds (s : Imp.store) (o d : Imp.ref) (st st' : QueryState)
      (set : Imp.object -> Imp.object) :
  Imp.holds s o d st ->
  set (Imp.obj_of st d) = Imp.obj_of st' d ->
  debug_info st' = debug_info st ->
  exists s1,
    Imp.setattr o set s = Some (tt, s1)
    /\ Imp.holds s1 o d st'
    /\ Imp.same_elsewhere s s1 o d.
Proof.
  intros [Ho Hl] Es Ed. unfold Imp.setattr. rewrite Ho, Es.
  eexists; split; [reflexivity|]. split; [split|split]; cbn [Imp.objects Imp.lists].
  - apply lookup_insert_same.
  - rewrite Ed. exact Hl.
  - intros a N. apply lookup_insert_other. exact N.
  - intros a N. reflexivity.
Qed.

(** Appending to the list the state names. *)
Lemma append_holds (s : Imp.store) (o d : Imp.ref) (st : QueryState)
      (x : pystr) :
  Imp.holds s o d st ->
  exists s1,
    Imp.append d x s = Some (tt, s1)
    /\ Imp.holds s1 o d
         (mkState (query st) (agent2_judgment st) (agent4_judgment st)
                  (debug_info st ++ [x]))
    /\ Imp.same_elsewhere s s1 o d.
Proof.
  intros [Ho Hl]. unfold Imp.append. rewrite Hl.
  eexists; split; [reflexivity|]. split; [split|split]; cbn [Imp.objects Imp.lists].
  - exact Ho.
  - apply lookup_insert_same.
  - intros a N. reflexivity.
  - intros a N. apply lookup_insert_other. exact N.
Qed.

Ltac imp_fields :=
  cbn [Imp.obj_of Imp.o_query Imp.o_agent2_judgment Imp.o_agent4_judgment
       Imp.o_debug_info query agent2_judgment agent4_judgment debug_info].

(** One statement of a node function, run in the store the hypothesis
    [Imp.holds] describes. *)
Ltac imp_statement :=
  lazymatch goal with
  | H : Imp.holds ?s ?o ?d ?st
    |- context [Imp.bind (Imp.getattr ?o ?f) ?k ?s] =>
    rewrite (bind_ok (Imp.getattr o f) k s s _ (getattr_holds s o d st f H));
    imp_fields
  | H : Imp.holds ?s ?o ?d ?st
    |- context [Imp.bind (Imp.setattr ?o (Imp.with_query ?v)) ?k ?s] =>
    let s1 := fresh "s" in
    let E := fresh "E" in
    let H1 := fresh "H" in
    let F := fresh "F" in
    destruct (setattr_holds s o d st
                (mkState v (agent2_judgment st) (agent4_judgment st)
                         (debug_info st))
                (Imp.with_query v) H eq_refl eq_refl)
      as (s1 & E & H1 & F);
    rewrite (bind_ok _ k s s1 tt E); clear E H; imp_fields
  | H : Imp.holds ?s ?o ?d ?st
    |- context [Imp.bind (Imp.setattr ?o (Imp.with_agent2_judgment ?v)) ?k ?s] =>
    let s1 := fresh "s" in
    let E := fresh "E" in
    let H1 := fresh "H" in
    let F := fresh "F" in
    destruct (setattr_holds s o d st
                (mkState (query st) v (agent4_judgment st) (debug_info st))
                (Imp.with_agent2_judgment v) H eq_refl eq_refl)
      as (s1 & E & H1 & F);
    rewrite (bind_ok _ k s s1 tt E); clear E H; imp_fields
  | H : Imp.holds ?s ?o ?d ?st
    |- context [Imp.bind (Imp.setattr ?o (Imp.with_agent4_judgment ?v)) ?k ?s] =>
    let s1 := fresh "s" in
    let E := fresh "E" in
    let H1 := fresh "H" in
    let F := fresh "F" in
    destruct (setattr_holds s o d st
                (mkState (query st) (agent2_judgment st) v (debug_info st))
                (Imp.with_agent4_judgment v) H eq_refl eq_refl)
      as (s1 & E & H1 & F);
    rewrite (bind_ok _ k s s1 tt E); clear E H; imp_fields
  | H : Imp.holds ?s ?o ?d ?st
    |- context [Imp.bind (Imp.append ?d ?x) ?k ?s] =>
    let s1 := fresh "s" in
    let E := fresh "E" in
    let H1 := fresh "H" in
    let F := fresh "F" in
    destruct (append_holds s o d st x H) as (s1 & E & H1 & F);
    rewrite (bind_ok _ k s s1 tt E); clear E H; imp_fields
  end.

Ltac imp_done :=
  lazymatch goal with
  | H : Imp.holds ?s ?o ?d ?st |- exists s', Imp.ret _ ?s = _ /\ _ =>
    exists s; split; [reflexivity|];
    split; [exact H | eauto using same_elsewhere_refl, same_elsewhere_trans]
  end.

Ltac imp_node := repeat imp_statement; imp_done.

Lemma call_agent1_in_place (invoke : pystr -> pystr) (s : Imp.store)
      (o d : Imp.ref) (st : QueryState) :
  Imp.holds s o d st ->
  exists s',
    Imp.call_agent1 invoke o s
    = Some (Imp.ref_command (call_agent1 invoke st) d, s')
    /\ Imp.holds s' o d (after (call_agent1 invoke st) st)
    /\ Imp.same_elsewhere s s' o d.
Proof. intros H. unfold Imp.call_agent1, call_agent1. imp_node. Qed.

Lemma call_agent2_in_place (invoke : pystr -> pystr) (s : Imp.store)
      (o d : Imp.ref) (st : QueryState) :
  Imp.holds s o d st ->
  exists s',
    Imp.call_agent2 invoke o s
    = Some (Imp.ref_command (call_agent2 invoke st) d, s')
    /\ Imp.holds s' o d (after (call_agent2 invoke st) st)
    /\ Imp.same_elsewhere s s' o d.
Proof.
  intros H. unfold Imp.call_agent2, call_agent2, call_agent2_instructions.
  imp_node.
Qed.

Lemma call_agent3_in_place (invoke : pystr -> pystr) (s : Imp.store)
      (o d : Imp.ref) (st : QueryState) :
  Imp.holds s o d st ->
  exists s',
    Imp.call_agent3 invoke o s
    = Some (Imp.ref_command (call_agent3 invoke st) d, s')
    /\ Imp.holds s' o d (after (call_agent3 invoke st) st)
    /\ Imp.same_elsewhere s s' o d.
Proof. intros H. unfold Imp.call_agent3, call_agent3. imp_node. Qed.

Lemma call_agent4_in_place (invoke : pystr -> pystr) (s : Imp.store)
      (o d : Imp.ref) (st : QueryState) :
  Imp.holds s o d st ->
  exists s',
    Imp.call_agent4 invoke o s
    = Some (Imp.ref_command (call_agent4 invoke st) d, s')
    /\ Imp.holds s' o d (after (call_agent4 invoke st) st)
    /\ Imp.same_elsewhere s s' o d.
Proof.
  intros H.
  unfold Imp.call_agent4, call_agent4, call_agent4_instructions,
    call_agent4_data_json, call_agent4_payload.
  imp_node.
Qed.

Lemma prompt1_in_place (invoke : pystr -> pystr) (s : Imp.store)
      (o d : Imp.ref) (st : QueryState) :
  Imp.holds s o d st ->
  exists s',
    Imp.prompt1 invoke o s
    = Some (Imp.ref_command (prompt1 invoke st) d, s')
    /\ Imp.holds s' o d (after (prompt1 invoke st) st)
    /\ Imp.same_elsewhere s s' o d.
Proof.
  intros H. unfold Imp.prompt1, prompt1, prompt1_prompt_text. imp_node.
Qed.

Lemma prompt2_in_place (invoke : pystr -> pystr) (s : Imp.store)
      (o d : Imp.ref) (st : QueryState) :
  Imp.holds s o d st ->
  exists s',
    Imp.prompt2 invoke o s
    = Some (Imp.ref_command (prompt2 invoke st) d, s')
    /\ Imp.holds s' o d (after (prompt2 invoke st) st)
    /\ Imp.same_elsewhere s s' o d.
Proof. intros H. unfold Imp.prompt2, prompt2. imp_node. Qed.

Lemma router1_in_place (s : Imp.store) (o d : Imp.ref) (st : QueryState) :
  Imp.holds s o d st ->
  exists s',
    Imp.router1 o s = Some (Imp.ref_command (router1 st) d, s')
    /\ Imp.holds s' o d (after (router1 st) st)
    /\ Imp.same_elsewhere s s' o d.
Proof.
  intros H. destruct st as [q a2 a4 l]. unfold Imp.router1, router1.
  imp_statement.
  destruct a2 as [j|]; [destruct (str_eqb j (py "Yes"))|]; imp_node.
Qed.

Lemma router2_in_place (s : Imp.store) (o d : Imp.ref) (st : QueryState) :
  Imp.holds s o d st ->
  exists s',
    Imp.router2 o s = Some (Imp.ref_command (router2 st) d, s')
    /\ Imp.holds s' o d (after (router2 st) st)
    /\ Imp.same_elsewhere s s' o d.
Proof.
  intros H. destruct st as [q a2 a4 l]. unfold Imp.router2, router2.
  imp_statement.
  destruct (match a4 with
            | Some j => str_eqb j (py "Yes")
            | None => false
            end); imp_node.
Qed.

(** Each node function on a state object does to the object and to its
    list what the functional node function says of the state, returns the
    same successor, and leaves the rest of the store alone. *)
Lemma node_in_place (C : Collaborators) (k : nat) (n : node)
      (f : QueryState -> Command) (s : Imp.store) (o d : Imp.ref)
      (st : QueryState) :
  node_function C k n = Some f ->
  Imp.holds s o d st ->
  exists g s',
    Imp.node_function C k n = Some g
    /\ g o s = Some (Imp.ref_command (f st) d, s')
    /\ Imp.holds s' o d (after (f st) st)
    /\ Imp.same_elsewhere s s' o d.
Proof.
  intros Hf H.
  destruct n; cbn [node_function] in Hf; try discriminate Hf;
    injection Hf as <-; cbn [Imp.node_function].
  - destruct (call_agent1_in_place (agent1_graph C k) s o d st H)
      as (s' & E & R); eauto.
  - destruct (call_agent2_in_place (agent2_graph C k) s o d st H)
      as (s' & E & R); eauto.
  - destruct (router1_in_place s o d st H) as (s' & E & R); eauto.
  - destruct (call_agent3_in_place (agent3_graph C k) s o d st H)
      as (s' & E & R); eauto.
  - destruct (prompt1_in_place (llm C k) s o d st H)
      as (s' & E & R); eauto.
  - destruct (call_agent4_in_place (agent4_graph C k) s o d st H)
      as (s' & E & R); eauto.
  - destruct (router2_in_place s o d st H) as (s' & E & R); eauto.
  - destruct (prompt2_in_place (llm C k) s o d st H)
      as (s' & E & R); eauto.
Qed.

(** Every update names the trace. *)
Lemma node_updates_trace (C : Collaborators) (k : nat) (n : node)
      (f : QueryState -> Command) (st : QueryState) :
  node_function C k n = Some f ->
  exists l, u_debug_info (update (f st)) = Some l.
Proof.
  intros Hf.
  destruct n; cbn [node_function] in Hf; try discriminate Hf;
    injection Hf as <-; try (eexists; reflexivity).
  - unfold router1.
    destruct (agent2_judgment st) as [j|];
      [destruct (str_eqb j (py "Yes"))|]; eexists; reflexivity.
  - unfold router2.
    destruct (match agent4_judgment st with
              | Some j => str_eqb j (py "Yes") | None => false end);
      eexists; reflexivity.
Qed.

(** Assigning to an attribute the value it holds. *)
Lemma setattr_again (s : Imp.store) (o d : Imp.ref) (st : QueryState)
      (set : Imp.object -> Imp.object) :
  Imp.holds s o d st ->
  set (Imp.obj_of st d) = Imp.obj_of st d ->
  exists s1,
    Imp.setattr o set s = Some (tt, s1)
    /\ Imp.holds s1 o d st
    /\ Imp.same_elsewhere s s1 o d.
Proof. intros H E. apply (setattr_holds s o d st st set H E eq_refl). Qed.

(** Merging the update of a command into the object the node has already
    assigned to changes nothing of what the object holds. *)
Lemma merge_in_place (s : Imp.store) (o d : Imp.ref) (st : QueryState)
      (cmd : Command) :
  Imp.holds s o d (after cmd st) ->
  exists s',
    Imp.merge o (Imp.r_update (Imp.ref_command cmd d)) s = Some (tt, s')
    /\ Imp.holds s' o d (after cmd st)
    /\ Imp.same_elsewhere s s' o d.
Proof.
  intros H. destruct cmd as [g [uq u2 u4 ud]].
  unfold Imp.merge, Imp.ref_command.
  cbn [update goto Imp.r_update Imp.r_query Imp.r_agent2_judgment
       Imp.r_agent4_judgment Imp.r_debug_info u_query u_agent2_judgment
       u_agent4_judgment u_debug_info].
  assert (S1 : exists s1,
             (match uq with
              | Some v => Imp.setattr o (Imp.with_query v)
              | None => Imp.ret tt
              end) s = Some (tt, s1)
             /\ Imp.holds s1 o d (after (mkCommand g (mkUpdate uq u2 u4 ud)) st)
             /\ Imp.same_elsewhere s s1 o d).
  { destruct uq as [v|].
    - apply setattr_again; [exact H | reflexivity].
    - exists s. split; [reflexivity|]. split; [exact H|].
      apply same_elsewhere_refl. }
  destruct S1 as (s1 & E1 & H1 & F1). rewrite (bind_ok _ _ s s1 tt E1).
  assert (S2 : exists s2,
             (match u2 with
              | Some v => Imp.setattr o (Imp.with_agent2_judgment v)
              | None => Imp.ret tt
              end) s1 = Some (tt, s2)
             /\ Imp.holds s2 o d (after (mkCommand g (mkUpdate uq u2 u4 ud)) st)
             /\ Imp.same_elsewhere s1 s2 o d).
  { destruct u2 as [v|].
    - apply setattr_again; [exact H1 | reflexivity].
    - exists s1. split; [reflexivity|]. split; [exact H1|].
      apply same_elsewhere_refl. }
  destruct S2 as (s2 & E2 & H2 & F2). rewrite (bind_ok _ _ s1 s2 tt E2).
  assert (S3 : exists s3,
             (match u4 with
              | Some v => Imp.setattr o (Imp.with_agent4_judgment v)
              | None => Imp.ret tt
              end) s2 = Some (tt, s3)
             /\ Imp.holds s3 o d (after (mkCommand g (mkUpdate uq u2 u4 ud)) st)
             /\ Imp.same_elsewhere s2 s3 o d).
  { destruct u4 as [v|].
    - apply setattr_again; [exact H2 | reflexivity].
    - exists s2. split; [reflexivity|]. split; [exact H2|].
      apply same_elsewhere_refl. }
  destruct S3 as (s3 & E3 & H3 & F3). rewrite (bind_ok _ _ s2 s3 tt E3).
  assert (S4 : exists s4,
             (match (match ud with Some _ => Some d | None => None end) with
              | Some d' => Imp.setattr o (Imp.with_debug_info d')
              | None => Imp.ret tt
              end) s3 = Some (tt, s4)
             /\ Imp.holds s4 o d (after (mkCommand g (mkUpdate uq u2 u4 ud)) st)
             /\ Imp.same_elsewhere s3 s4 o d).
  { destruct ud as [l|].
    - apply setattr_again; [exact H3 | reflexivity].
    - exists s3. split; [reflexivity|]. split; [exact H3|].
      apply same_elsewhere_refl. }
  destruct S4 as (s4 & E4 & H4 & F4).
  exists s4. split; [exact E4|]. split; [exact H4|].
  eauto using same_elsewhere_trans.
Qed.

(** One step of the executor on a state object against one step on the
    state it holds. *)
Lemma step_in_place (C : Collaborators) (c : config) (s : Imp.store)
      (o d : Imp.ref) :
  Imp.holds s o d (state c) ->
  match step C c with
  | Next c' =>
    exists s',
      Imp.step C (Imp.mkRConfig (cur c) o (calls c)) s
      = Imp.Next (Imp.mkRConfig (cur c') o (calls c')) s'
      /\ Imp.holds s' o d (state c')
      /\ Imp.same_elsewhere s s' o d
  | Finished =>
    Imp.step C (Imp.mkRConfig (cur c) o (calls c)) s = Imp.Finished
  | ConfigError =>
    Imp.step C (Imp.mkRConfig (cur c) o (calls c)) s = Imp.ConfigError
  end.
Proof.
  intros H. destruct c as [n st k]. cbn [state cur calls] in *.
  assert (Node : forall f,
             node_function C k n = Some f -> n <> n_START -> n <> n_END ->
             match (if has_edge n (goto (f st))
                    then Next (mkConfig (goto (f st))
                                        (apply_update st (update (f st)))
                                        (if calls_service n then S k else k))
                    else ConfigError) with
             | Next c' =>
               exists s',
                 Imp.step C (Imp.mkRConfig n o k) s
                 = Imp.Next (Imp.mkRConfig (cur c') o (calls c')) s'
                 /\ Imp.holds s' o d (state c')
                 /\ Imp.same_elsewhere s s' o d
             | Finished => Imp.step C (Imp.mkRConfig n o k) s = Imp.Finished
             | ConfigError =>
               Imp.step C (Imp.mkRConfig n o k) s = Imp.ConfigError
             end).
  { intros f Hf N1 N2.
    destruct (node_in_place C k n f s o d st Hf H)
      as (g & s1 & Hg & Eg & H1 & F1).
    destruct (merge_in_place s1 o d st (f st) H1) as (s2 & Em & H2 & F2).
    assert (St : Imp.step C (Imp.mkRConfig n o k) s
                 = if has_edge n (goto (f st))
                   then Imp.Next
                          (Imp.mkRConfig (goto (f st)) o
                             (if calls_service n then S k else k)) s2
                   else Imp.ConfigError).
    { destruct n; try congruence;
        unfold Imp.step; cbn [Imp.at_node Imp.state_ref Imp.calls_made];
        rewrite Hg, Eg, Em; reflexivity. }
    rewrite St. destruct (has_edge n (goto (f st))); [|reflexivity].
    exists s2. cbn [cur calls state]. split; [reflexivity|].
    split; [exact H2 | exact (same_elsewhere_trans _ _ _ _ _ F1 F2)]. }
  destruct n;
    try (unfold step; cbn [cur state calls node_function];
         apply Node; [reflexivity | discriminate | discriminate]).
  - (* START *)
    unfold step, Imp.step. cbn [cur state calls Imp.at_node Imp.state_ref
                                Imp.calls_made].
    destruct (has_edge n_START n_agent1); [|reflexivity].
    exists s. split; [reflexivity|]. split; [exact H|].
    apply same_elsewhere_refl.
  - (* END *) reflexivity.
Qed.

(** A run on a state object against the run from the state it holds. *)
Lemma run_in_place (C : Collaborators) (fuel : nat) (c : config)
      (s : Imp.store) (o d : Imp.ref) :
  Imp.holds s o d (state c) ->
  match run C fuel c with
  | Some final =>
    exists s',
      Imp.run C fuel (Imp.mkRConfig (cur c) o (calls c)) s = Some s'
      /\ Imp.holds s' o d final
      /\ Imp.same_elsewhere s s' o d
  | None => Imp.run C fuel (Imp.mkRConfig (cur c) o (calls c)) s = None
  end.
Proof.
  revert c s; induction fuel as [|fuel IH]; intros c s H;
    pose proof (step_in_place C c s o d H) as St;
    cbn [run Imp.run]; destruct (step C c) as [c1| |].
  - destruct St as (s1 & -> & _). reflexivity.
  - rewrite St. exists s. split; [reflexivity|]. split; [exact H|].
    apply same_elsewhere_refl.
  - rewrite St. reflexivity.
  - destruct St as (s1 & -> & H1 & F1).
    specialize (IH c1 s1 H1). destruct (run C fuel c1) as [final|].
    + destruct IH as (s2 & E2 & H2 & F2). exists s2.
      split; [exact E2|]. split; [exact H2|].
      exact (same_elsewhere_trans _ _ _ _ _ F1 F2).
    + exact IH.
  - rewrite St. exists s. split; [reflexivity|]. split; [exact H|].
    apply same_elsewhere_refl.
  - rewrite St. reflexivity.
Qed.

Lemma contents_holds (s : Imp.store) (o : Imp.ref) (st : QueryState) :
  Imp.contents s o = Some st <-> exists d, Imp.holds s o d st.
Proof.
  unfold Imp.contents, Imp.holds. split.
  - destruct (Imp.lookup (Imp.objects s) o) as [[q a2 a4 d]|]; [|discriminate].
    cbn [Imp.o_debug_info Imp.o_query Imp.o_agent2_judgment
         Imp.o_agent4_judgment].
    destruct (Imp.lookup (Imp.lists s) d) as [l|] eqn:El; [|discriminate].
    intros [= <-]. exists d. split; [reflexivity | exact El].
  - intros (d & Ho & Hl). rewrite Ho. cbn [Imp.obj_of Imp.o_debug_info].
    rewrite Hl. destruct st; reflexivity.
Qed.

(** [graph.run] on a state object: it finishes exactly when the run from
    the state the object holds does, and then the object holds the state
    that run returns; no other state object and no other list changes. *)
Lemma graph_run_in_place (C : Collaborators) (fuel : nat) (s s' : Imp.store)
      (o d : Imp.ref) (st : QueryState) :
  Imp.holds s o d st ->
  Imp.graph_run C fuel o s = Some s' ->
  exists final,
    graph_run C fuel st = Some final
    /\ Imp.holds s' o d final
    /\ Imp.same_elsewhere s s' o d.
Proof.
  intros H E. pose proof (run_in_place C fuel (start st) s o d H) as R.
  unfold graph_run. unfold Imp.graph_run in E. cbn [start cur calls] in R.
  destruct (run C fuel (start st)) as [final|].
  - destruct R as (s1 & E1 & H1 & F1).
    assert (s1 = s') by congruence. subst s1. eauto.
  - congruence.
Qed.

(** C8.  Two runs of the graph on state objects, with the same
    collaborators (the same answer to the same call number and prompt),
    each in a store of its own or one after the other in one store, each
    with its own bound on the number of steps.  When each object holds
    the same query, no verdict and an empty trace as its run starts and
    both runs finish, the two objects hold the same query and the same
    trace as their runs end, although every node assigns to the object in
    place and appends to its list in place.  When the second run starts in
    the store the first one left, the two objects are not one object and
    what the first holds is still there after the second run. *)
Theorem two_runs_on_state_objects_agree :
  forall (C : Collaborators) (q : pystr) (fuel1 fuel2 : nat)
         (state1 state2 : Imp.ref) (s1 s1' s2 s2' : Imp.store),
    Imp.contents s1 state1 = Some (initial_state q) ->
    Imp.graph_run C fuel1 state1 s1 = Some s1' ->
    Imp.contents s2 state2 = Some (initial_state q) ->
    Imp.graph_run C fuel2 state2 s2 = Some s2' ->
    exists final1 final2 : QueryState,
      Imp.contents s1' state1 = Some final1
      /\ Imp.contents s2' state2 = Some final2
      /\ query final1 = query final2
      /\ debug_info final1 = debug_info final2
      /\ (s2 = s1' ->
          state1 <> state2 /\ Imp.contents s2' state1 = Some final1).
Proof.
  intros C q f1 f2 o1 o2 s1 s1' s2 s2' I1 R1 I2 R2.
  apply contents_holds in I1. destruct I1 as (d1 & I1).
  apply contents_holds in I2. destruct I2 as (d2 & I2).
  destruct (graph_run_in_place C f1 s1 s1' o1 d1 _ I1 R1)
    as (final1 & P1 & H1 & F1).
  destruct (graph_run_in_place C f2 s2 s2' o2 d2 _ I2 R2)
    as (final2 & P2 & H2 & F2).
  assert (E : final1 = final2)
    by exact (run_deterministic C f1 f2 (start (initial_state q))
                                final1 final2 P1 P2).
  subst final2.
  exists final1, final1.
  split; [apply contents_holds; eauto|].
  split; [apply contents_holds; eauto|].
  split; [reflexivity|]. split; [reflexivity|].
  intros ->.
  destruct (finished_run_facts C f1 (initial_state q) final1 P1)
    as (_ & _ & (more & Em & Hm & _) & _).
  cbn [initial_state debug_info app] in Em.
  assert (Nd : d1 <> d2).
  { intros <-. destruct H1 as [_ L1]. destruct I2 as [_ L2].
    rewrite L1 in L2. injection L2 as L2. rewrite Em in L2.
    cbn [initial_state debug_info] in L2. subst more.
    cbn [List.length] in Hm. lia. }
  assert (No : o1 <> o2).
  { intros <-. destruct H1 as [O1 _]. destruct I2 as [O2 _].
    rewrite O1 in O2. injection O2 as _ _ _ O2. contradiction. }
  split; [exact No|].
  apply contents_holds. exists d1.
  destruct H1 as [O1 L1]. destruct F2 as [FO FL].
  split; [rewrite FO by exact No | rewrite FL by exact Nd]; assumption.
Qed.

Lemma two_runs_on_state_objects_agree_witness :
  exists final1 final2 : QueryState,
    Imp.contents sample_store_after_first 0%nat = Some final1
    /\ Imp.contents sample_store_after_second 2%nat = Some final2
    /\ query final1 = query final2
    /\ debug_info final1 = debug_info final2
    /\ (sample_store_after_first = sample_store_after_first ->
        0%nat <> 2%nat
        /\ Imp.contents sample_store_after_second 0%nat = Some final1).
Proof.
  apply (two_runs_on_state_objects_agree accepting_collaborators (py "q")
           7 20 0%nat 2%nat sample_store sample_store_after_first
           sample_store_after_first sample_store_after_second);
    vm_compute; reflexivity.
Defined.

(** X19.  A list object named by two state objects is written by a run on
    either: when the run on the first object finishes, the first holds
    what the run returns, and the second, whose attributes nobody
    assigned to, holds the trace of the first, at least six entries longer
    than it was. *)
Theorem shared_trace_list_is_written_by_a_run :
  forall (C : Collaborators) (fuel : nat) (state1 state2 d : Imp.ref)
         (s s' : Imp.store) (st1 st2 : QueryState),
    state1 <> state2 ->
    Imp.holds s state1 d st1 ->
    Imp.holds s state2 d st2 ->
    Imp.graph_run C fuel state1 s = Some s' ->
    exists (final : QueryState) (more : list pystr),
      Imp.contents s' state1 = Some final
      /\ debug_info final = debug_info st1 ++ more
      /\ (6 <= List.length more)%nat
      /\ Imp.contents s' state2
         = Some (mkState (query st2) (agent2_judgment st2)
                         (agent4_judgment st2) (debug_info final)).
Proof.
  intros C fuel o1 o2 d s s' st1 st2 No H1 H2 R.
  destruct (graph_run_in_place C fuel s s' o1 d st1 H1 R)
    as (final & P & Hf & [FO _]).
  destruct (finished_run_facts C fuel st1 final P)
    as (_ & _ & (more & Em & Hm & _) & _).
  exists final, more.
  split; [apply contents_holds; eauto|].
  split; [exact Em|]. split; [exact Hm|].
  apply contents_holds. exists d. destruct H2 as [O2 _].
  destruct Hf as [_ Lf]. split.
  - rewrite FO by (intros E; apply No; symmetry; exact E). exact O2.
  - exact Lf.
Qed.

Lemma shared_trace_list_is_written_by_a_run_witness :
  exists (final : QueryState) (more : list pystr),
    Imp.contents sharing_store_after_first 0%nat = Some final
    /\ debug_info final = [] ++ more
    /\ (6 <= List.length more)%nat
    /\ Imp.contents sharing_store_after_first 2%nat
       = Some (mkState (py "q") None None (debug_info final)).
Proof.
  apply (shared_trace_list_is_written_by_a_run accepting_collaborators 7
           0%nat 2%nat 1%nat sharing_store sharing_store_after_first
           (initial_state (py "q")) (initial_state (py "q"))).
  - discriminate.
  - split; vm_compute; reflexivity.
  - split; vm_compute; reflexivity.
  - vm_compute; reflexivity.
Defined.

(** X20.  Running the graph on a state object is running it on the state
    the object holds: the run on the object finishes exactly when the run
    from that state does, within the same bound, and the object then
    holds the state that run returns. *)
Theorem run_on_state_object_is_the_functional_run :
  forall (C : Collaborators) (fuel : nat) (state : Imp.ref) (s : Imp.store)
         (st : QueryState),
    Imp.contents s state = Some st ->
    match graph_run C fuel st with
    | Some final =>
      exists s',
        Imp.graph_run C fuel state s = Some s'
        /\ Imp.contents s' state = Some final
    | None => Imp.graph_run C fuel state s = None
    end.
Proof.
  intros C fuel o s st H.
  apply contents_holds in H. destruct H as (d & H).
  pose proof (run_in_place C fuel (start st) s o d H) as R.
  unfold graph_run, Imp.graph_run. cbn [start cur calls] in R.
  destruct (run C fuel (start st)) as [final|]; [|exact R].
  destruct R as (s' & E & H' & _). exists s'.
  split; [exact E|]. apply contents_holds. eauto.
Qed.

Lemma run_on_state_object_is_the_functional_run_witness :
  exists s',
    Imp.graph_run accepting_collaborators 9 0%nat sample_store = Some s'
    /\ Imp.contents s' 0%nat = Some sample_final_state.
Proof.
  assert (R : graph_run accepting_collaborators 9 (initial_state (py "q"))
              = Some sample_final_state) by (vm_compute; reflexivity).
  pose proof (run_on_state_object_is_the_functional_run
                accepting_collaborators 9 0%nat sample_store
                (initial_state (py "q")) eq_refl) as H.
  rewrite R in H. exact H.
Defined.
